(** * Snap-URL-API: click ingestion and analytics pipeline

    A shallow embedding of the click model (models/Click.js) and of the
    analytics service (services/analyticsService.js), and the properties
    of the ingestion pipeline, the enrichment resolvers, the aggregation
    queries and the retention sweep proved over it.

    Conventions of the embedding:
    - a JavaScript string is a [string] (a list of 8-bit characters): the
      strings that reach this code are HTTP header values and socket
      addresses, which Node decodes as latin-1;
    - [undefined]/[null] is [None];
    - the MongoDB collections are explicit state: the click collection is a
      list in insertion order, the URL and user collections are finite maps
      keyed by document id;
    - a call that may throw returns an [outcome]; the collections are
      threaded through, so that what was written before a throw stays
      written;
    - whether a store call rejects is not decided by this code: each
      operation takes the failures of the store as an explicit argument. *)

From Stdlib Require Import ZArith NArith QArith Lia Bool Ascii String List.
From stdpp Require Import gmap strings list fin_maps.
Import ListNotations.

Local Open Scope string_scope.
Local Open Scope list_scope.

(** ** JavaScript string primitives used by the service *)

Module JsString.

(** [s.startsWith(p)] *)
Definition startsWith (s p : string) : bool := String.prefix p s.

(** [s.substring(n)] for [n <= s.length]; the whole tail is dropped when
    [s] is shorter. *)
Fixpoint substring_from (n : nat) (s : string) : string :=
  match n, s with
  | O, _ => s
  | S _, EmptyString => EmptyString
  | S n', String _ s' => substring_from n' s'
  end.

(** [s.split(sep)] for a one-character separator: always at least one
    piece. *)
Fixpoint split (sep : ascii) (s : string) : list string :=
  match s with
  | EmptyString => [EmptyString]
  | String c s' =>
      if Ascii.eqb c sep then EmptyString :: split sep s'
      else match split sep s' with
           | [] => [String c EmptyString]
           | p :: ps => String c p :: ps
           end
  end.

(** White space of [String.prototype.trim] among the latin-1 characters:
    TAB, LF, VT, FF, CR, SPACE and NBSP. *)
Definition isWhiteSpace (c : ascii) : bool :=
  let n := nat_of_ascii c in
  ((9 <=? n) && (n <=? 13) || (n =? 32) || (n =? 160))%nat.

Fixpoint trimStart (s : string) : string :=
  match s with
  | EmptyString => EmptyString
  | String c s' => if isWhiteSpace c then trimStart s' else s
  end.

(** Drops trailing white space: a character is kept when it is not white
    space or when something is kept after it. *)
Fixpoint trimEnd (s : string) : string :=
  match s with
  | EmptyString => EmptyString
  | String c s' =>
      match trimEnd s' with
      | EmptyString => if isWhiteSpace c then EmptyString
                       else String c EmptyString
      | r => String c r
      end
  end.

Definition trim (s : string) : string := trimEnd (trimStart s).

(** [\d] without the [u] flag: the ten ASCII digits. *)
Definition isDigit (c : ascii) : bool :=
  let n := nat_of_ascii c in ((48 <=? n) && (n <=? 57))%nat.

Definition digitValue (c : ascii) : N := N.of_nat (nat_of_ascii c - 48).

(** [parseInt(s, 10)] on a string of decimal digits (the only strings it
    is called on here: every part has passed the address pattern).
    [None] is [NaN]. *)
Fixpoint parseDigits (acc : N) (s : string) : N :=
  match s with
  | EmptyString => acc
  | String c s' =>
      if isDigit c then parseDigits (10 * acc + digitValue c)%N s' else acc
  end.

Definition parseInt (s : string) : option N :=
  match s with
  | EmptyString => None
  | String c _ => if isDigit c then Some (parseDigits 0%N s) else None
  end.

(** Canonicalisation of the [i] flag (no [u] flag): a character is
    compared through its upper case, and a character outside ASCII never
    matches an ASCII one, so on the patterns of this file, which are
    ASCII letters, it is ASCII case folding. *)
Definition toLowerAscii (c : ascii) : ascii :=
  let n := nat_of_ascii c in
  if ((65 <=? n) && (n <=? 90))%nat then ascii_of_nat (n + 32) else c.

Fixpoint toLower (s : string) : string :=
  match s with
  | EmptyString => EmptyString
  | String c s' => String (toLowerAscii c) (toLower s')
  end.

(** A falsy string is an absent or an empty one ([Boolean(s)]). *)
Definition truthy (s : option string) : bool :=
  match s with
  | Some (String _ _) => true
  | _ => false
  end.

End JsString.

(** ** The regular expressions of the source

    Each literal is written out as the matcher it denotes.  A bounded
    repetition [c{1,n}] is matched greedily: in every pattern below it is
    followed by a character outside the class [c] (or by the end of the
    input), so giving back a character can never make the rest match. *)

Module Regex.
Import JsString.

(** At most [max] leading characters of the class [p], and the rest. *)
Fixpoint eatWhile (p : ascii -> bool) (max : nat) (s : string)
  : nat * string :=
  match max, s with
  | S m, String c r =>
      if p c then let '(k, r') := eatWhile p m r in (S k, r') else (O, s)
  | _, _ => (O, s)
  end.

(** [c{1,max}] *)
Definition eatRange (p : ascii -> bool) (max : nat) (s : string)
  : option string :=
  match eatWhile p max s with
  | (O, _) => None
  | (_, r) => Some r
  end.

(** one literal character *)
Definition eatChar (c : ascii) (s : string) : option string :=
  match s with
  | String a r => if Ascii.eqb a c then Some r else None
  | EmptyString => None
  end.

(** sequencing of two matchers *)
Definition andThen (r : option string) (f : string -> option string)
  : option string :=
  match r with
  | Some s => f s
  | None => None
  end.
Local Infix ">>" := andThen (at level 50, left associativity).

(** [$] (no [m] flag): only the end of the input. *)
Definition atEnd (r : option string) : bool :=
  match r with
  | Some EmptyString => true
  | _ => false
  end.

Definition isHexDigit (c : ascii) : bool :=
  let n := nat_of_ascii c in
  (isDigit c || (65 <=? n) && (n <=? 70) || (97 <=? n) && (n <=? 102))%nat.

(** [/^(\d{1,3}\.){3}\d{1,3}$/] *)
Definition ipv4Regex (s : string) : bool :=
  let group (r : string) : option string := eatRange isDigit 3 r >> eatChar "."%char in
  atEnd (Some s >> group >> group >> group >> eatRange isDigit 3).

(** [/^([0-9a-fA-F]{1,4}:){7}[0-9a-fA-F]{1,4}$/] *)
Definition ipv6Regex (s : string) : bool :=
  let group (r : string) : option string := eatRange isHexDigit 4 r >> eatChar ":"%char in
  atEnd (Some s >> group >> group >> group >> group >> group >> group
                >> group >> eatRange isHexDigit 4).

(** [/^172\.(1[6-9]|2[0-9]|3[0-1])\./] *)
Definition private172Regex (s : string) : bool :=
  match s with
  | String "1" (String "7" (String "2" (String "."
      (String a (String b (String "." _)))))) =>
      let n := nat_of_ascii b in
      (Ascii.eqb a "1"%char && (54 <=? n) && (n <=? 57)
       || Ascii.eqb a "2"%char && (48 <=? n) && (n <=? 57)
       || Ascii.eqb a "3"%char && (48 <=? n) && (n <=? 49))%nat
  | _ => false
  end.

(** [/p/i] for a pattern [p] of lower-case ASCII letters: some substring
    of the input is [p] up to case.  The search tries every start
    position, left to right. *)
Fixpoint searchIgnoreCase (p : string) (s : string) : bool :=
  String.prefix p (toLower s)
  || match s with
     | EmptyString => false
     | String _ s' => searchIgnoreCase p s'
     end.

End Regex.

(** ** Outcomes and the store *)

(** Document ids ([ObjectId]) and instants ([Date], milliseconds since the
    epoch). *)
Abbreviation ObjectId := N.
Abbreviation Instant := Z.

(** What a call produces: a value, or a thrown [Error] with its message. *)
Inductive outcome (A : Type) : Type :=
| Ok (value : A)
| Throw (message : string).
Arguments Ok {A} value.
Arguments Throw {A} message.

Definition isOk {A} (o : outcome A) : bool :=
  match o with
  | Ok _ => true
  | Throw _ => false
  end.

(** ** models/Click.js: the schema *)

Module Click.
Import JsString.

(** [device.type]: the [enum] of the schema. *)
Inductive DeviceType := desktop | mobile | tablet | bot | unknown.

#[global] Instance DeviceType_eq_dec : EqDecision DeviceType.
Proof. solve_decision. Defined.

Record Coordinates := { latitude : Q; longitude : Q }.

Record Location := {
  country : option string;
  countryName : option string;
  region : option string;
  city : option string;
  timezone : option string;
  coordinates : option Coordinates
}.

Record Device := {
  type : DeviceType;
  browser : option string;
  browserVersion : option string;
  os : option string;
  osVersion : option string
}.

(** [campaign.campaign] is [campaign_] here: the click has a field of
    that name. *)
Record Campaign := {
  source : option string;
  medium : option string;
  campaign_ : option string;
  term : option string;
  content : option string
}.

(** A click document.  [location = None] is the nested object with no
    path set.  [customData] is carried by no hook and read by no query of
    this file and is left out; [isNew] is Mongoose's flag of a document
    that was never saved. *)
Record Doc := {
  urlId : ObjectId;
  userId : option ObjectId;
  ipAddress : string;
  userAgent : option string;
  referrer : option string;
  location : option Location;
  device : Device;
  isBot : bool;
  isUnique : bool;
  campaign : option Campaign;
  sessionId : option string;
  loadTime : option N;
  clickedAt : Instant;
  isNew : bool
}.

(** Assignments to a path of a document. *)
Definition set_location (l : option Location) (d : Doc) : Doc :=
  {| urlId := urlId d; userId := userId d; ipAddress := ipAddress d;
     userAgent := userAgent d; referrer := referrer d; location := l;
     device := device d; isBot := isBot d; isUnique := isUnique d;
     campaign := campaign d; sessionId := sessionId d;
     loadTime := loadTime d; clickedAt := clickedAt d; isNew := isNew d |}.

Definition set_isBot (b : bool) (d : Doc) : Doc :=
  {| urlId := urlId d; userId := userId d; ipAddress := ipAddress d;
     userAgent := userAgent d; referrer := referrer d;
     location := location d; device := device d; isBot := b;
     isUnique := isUnique d; campaign := campaign d;
     sessionId := sessionId d; loadTime := loadTime d;
     clickedAt := clickedAt d; isNew := isNew d |}.

Definition set_campaign (c : option Campaign) (d : Doc) : Doc :=
  {| urlId := urlId d; userId := userId d; ipAddress := ipAddress d;
     userAgent := userAgent d; referrer := referrer d;
     location := location d; device := device d; isBot := isBot d;
     isUnique := isUnique d; campaign := c;
     sessionId := sessionId d; loadTime := loadTime d;
     clickedAt := clickedAt d; isNew := isNew d |}.

(** What the insertion does to the document: the [timestamps] option
    stamps [clickedAt], and the document is no longer new. *)
Definition stored (now : Instant) (d : Doc) : Doc :=
  {| urlId := urlId d; userId := userId d; ipAddress := ipAddress d;
     userAgent := userAgent d; referrer := referrer d;
     location := location d; device := device d; isBot := isBot d;
     isUnique := isUnique d; campaign := campaign d;
     sessionId := sessionId d; loadTime := loadTime d;
     clickedAt := now; isNew := false |}.

(** The schema default of [device]: only [type] has one. *)
Definition defaultDevice : Device :=
  {| type := unknown; browser := None; browserVersion := None;
     os := None; osVersion := None |}.

(** The validator of [ipAddress]. *)
Definition ipAddressValidator (ip : string) : bool :=
  Regex.ipv4Regex ip || Regex.ipv6Regex ip
  || String.eqb ip "::1" || String.eqb ip "localhost".

(** [maxLength]: an absent value passes. *)
Definition maxLength (n : nat) (s : option string) : bool :=
  match s with
  | None => true
  | Some v => (String.length v <=? n)%nat
  end.

(** The validation that [save] runs before the hooks of the schema:
    [None] when every path passes, else a failing path with its
    message (the built-in message of a [maxLength] without one of its
    own is shortened). *)
Definition validate (d : Doc) : option string :=
  if String.eqb (ipAddress d) ""
  then Some "ipAddress: IP address is required"
  else if negb (ipAddressValidator (ipAddress d))
  then Some "ipAddress: Invalid IP address format"
  else if negb (maxLength 1000 (userAgent d))
  then Some "userAgent: User agent string too long"
  else if negb (maxLength 500 (referrer d))
  then Some "referrer: Referrer URL too long"
  else if negb (maxLength 50 (browser (device d))
                && maxLength 20 (browserVersion (device d))
                && maxLength 50 (os (device d))
                && maxLength 20 (osVersion (device d))
                && maxLength 100 (sessionId d))
  then Some "path is longer than the maximum allowed length"
  else None.

(** *** External collaborators of the hooks *)

(** What [geoip.lookup] does on an address: it throws, finds nothing, or
    returns a record. *)
Record Geo := {
  geo_country : string;
  geo_region : string;
  geo_city : string;
  geo_timezone : string;
  geo_ll : Q * Q
}.

Inductive GeoResult :=
| GeoThrows (message : string)
| GeoNone
| GeoFound (g : Geo).

(** [config.enableGeolocation] and the geoip database: the configuration
    module is not part of the sources and is a parameter. *)
Record Env := {
  enableGeolocation : bool;
  geoip_lookup : string -> GeoResult
}.

(** *** Pre-save hooks *)

Definition localPrivateLocation : Location :=
  {| country := Some "XX"; countryName := Some "Local/Private";
     region := Some "Local"; city := Some "Local";
     timezone := None; coordinates := None |}.

(** The test of the geolocation hook for "localhost and private IPs". *)
Definition isLocalOrPrivate (ip : string) : bool :=
  String.eqb ip "127.0.0.1" || String.eqb ip "::1"
  || startsWith ip "192.168." || startsWith ip "10."
  || startsWith ip "172.".

(** The geolocation hook: the document after it, and the addresses it
    handed to [geoip.lookup].  A throwing lookup is caught and logged. *)
Definition geolocationHook (env : Env) (d : Doc) : Doc * list string :=
  if isNew d && enableGeolocation env && truthy (Some (ipAddress d)) then
    if isLocalOrPrivate (ipAddress d) then
      (set_location (Some localPrivateLocation) d, [])
    else
      match geoip_lookup env (ipAddress d) with
      | GeoFound geo =>
          (set_location
             (Some {| country := Some (geo_country geo);
                      countryName := Some (geo_country geo);
                      region := Some (geo_region geo);
                      city := Some (geo_city geo);
                      timezone := Some (geo_timezone geo);
                      coordinates :=
                        Some {| latitude := fst (geo_ll geo);
                                longitude := snd (geo_ll geo) |} |}) d,
           [ipAddress d])
      | GeoNone | GeoThrows _ => (d, [ipAddress d])
      end
  else (d, []).

(** [botPatterns] of [detectBot], each [/p/i]. *)
Definition botPatterns : list string :=
  ["bot"; "crawl"; "spider"; "scrape"; "google"; "bing"; "yahoo"; "baidu";
   "facebook"; "twitter"; "linkedin"; "curl"; "wget"; "postman"].

Definition detectBot (userAgent : string) : bool :=
  existsb (fun pattern => Regex.searchIgnoreCase pattern userAgent)
          botPatterns.

(** The bot hook. *)
Definition botHook (d : Doc) : Doc :=
  if isNew d && truthy (userAgent d) then
    match userAgent d with
    | Some ua => set_isBot (detectBot ua) d
    | None => d
    end
  else d.

End Click.

(** ** The collections and the calls on them *)

Module Store.

(** Modelled from the spec: the URL model (models/URL.js) is not part of
    the sources.  The fields are the ones the analytics service reads and
    writes on a URL document, which are those of the spec's
    [findActiveUrlById] and [incrementCounters]; [isExpired] is the
    virtual of the model as the fetched document reports it. *)
Record Url := {
  isActive : bool;
  isExpired : bool;
  originalUrl : string;
  owner : option ObjectId;
  clickCount : N;
  uniqueClicks : N;
  lastClickedAt : option Instant
}.

(** The state the service runs on: the three collections, and the
    addresses handed to the geoip database so far. *)
Record World := {
  clicks : list Click.Doc;
  urls : gmap N Url;
  userTotalClicks : gmap N N;
  geoLookups : list string
}.

(** The store calls that reject during one operation, each with the
    message of its error. *)
Record Faults := {
  url_findById : option string;
  click_findOne : option string;
  click_insert : option string;
  url_findByIdAndUpdate : option string;
  user_findByIdAndUpdate : option string;
  click_aggregate : option string;
  click_countDocuments : option string;
  click_deleteMany : option string
}.

Definition noFaults : Faults :=
  {| url_findById := None; click_findOne := None; click_insert := None;
     url_findByIdAndUpdate := None; user_findByIdAndUpdate := None;
     click_aggregate := None; click_countDocuments := None;
     click_deleteMany := None |}.

(** A computation on the collections that may throw.  The world after a
    throw is the world at the throw. *)
Definition M (A : Type) : Type := World -> outcome A * World.

Definition ret {A} (a : A) : M A := fun w => (Ok a, w).

Definition throw {A} (message : string) : M A := fun w => (Throw message, w).

Definition bind {A B} (m : M A) (k : A -> M B) : M B :=
  fun w =>
    match m w with
    | (Ok a, w') => k a w'
    | (Throw e, w') => (Throw e, w')
    end.

(** [try { m } catch (error) { handler(error.message) }] *)
Definition tryCatch {A} (m : M A) (handler : string -> M A) : M A :=
  fun w =>
    match m w with
    | (Ok a, w') => (Ok a, w')
    | (Throw e, w') => handler e w'
    end.

(** A call that rejects when the store says so. *)
Definition call {A} (fault : option string) (m : M A) : M A :=
  match fault with
  | Some e => throw e
  | None => m
  end.

Definition set_clicks (cs : list Click.Doc) (w : World) : World :=
  {| clicks := cs; urls := urls w; userTotalClicks := userTotalClicks w;
     geoLookups := geoLookups w |}.

Definition set_urls (us : gmap N Url) (w : World) : World :=
  {| clicks := clicks w; urls := us; userTotalClicks := userTotalClicks w;
     geoLookups := geoLookups w |}.

Definition set_userTotalClicks (us : gmap N N) (w : World) : World :=
  {| clicks := clicks w; urls := urls w; userTotalClicks := us;
     geoLookups := geoLookups w |}.

Definition set_geoLookups (l : list string) (w : World) : World :=
  {| clicks := clicks w; urls := urls w;
     userTotalClicks := userTotalClicks w; geoLookups := l |}.

(** [URL_MODEL.findById(id)] *)
Definition URL_findById (f : Faults) (id : ObjectId) : M (option Url) :=
  call (url_findById f) (fun w => (Ok (urls w !! id), w)).

(** [URL_MODEL.findByIdAndUpdate(id, update)]: one atomic update of the
    document, nothing when there is none. *)
Definition URL_findByIdAndUpdate (f : Faults) (id : ObjectId)
    (update : Url -> Url) : M unit :=
  call (url_findByIdAndUpdate f)
       (fun w => (Ok tt, set_urls (alter update id (urls w)) w)).

(** [User.findByIdAndUpdate(id, { $inc: { totalClicks: n } })] *)
Definition User_findByIdAndUpdate (f : Faults) (id : ObjectId) (n : N)
  : M unit :=
  call (user_findByIdAndUpdate f)
       (fun w => (Ok tt,
                  set_userTotalClicks
                    (alter (fun t => (t + n)%N) id (userTotalClicks w)) w)).

(** [Click.findOne(filter)]: the first document of the collection that
    passes the filter. *)
Definition Click_findOne (f : Faults) (filter : Click.Doc -> bool)
  : M (option Click.Doc) :=
  call (click_findOne f) (fun w => (Ok (List.find filter (clicks w)), w)).

(** The insertion that ends [save]. *)
Definition Click_insert (f : Faults) (d : Click.Doc) : M Click.Doc :=
  call (click_insert f) (fun w => (Ok d, set_clicks (clicks w ++ [d]) w)).

(** [Click.countDocuments(filter)] *)
Definition Click_countDocuments (f : Faults) (filter : Click.Doc -> bool)
  : M N :=
  call (click_countDocuments f)
       (fun w => (Ok (N.of_nat (length (List.filter filter (clicks w)))),
                  w)).

(** [Click.deleteMany(filter, options)].  [deleteMany] removes every
    document that passes the filter and reports how many there were.
    It has no [limit] option ([limit] is an option of [find]): a store
    that accepts the call removes all the matching documents, whatever
    [options] holds, and a store that refuses the option rejects the
    call, which is the failure [click_deleteMany]. *)
Definition Click_deleteMany (f : Faults) (filter : Click.Doc -> bool)
    (options : option N) : M N :=
  call (click_deleteMany f)
       (fun w =>
          (Ok (N.of_nat (length (List.filter filter (clicks w)))),
           set_clicks
             (List.filter (fun d => negb (filter d)) (clicks w)) w)).

(** [Click.aggregate(pipeline)]: the pipeline runs on the collection and
    may itself fail. *)
Definition Click_aggregate {R} (f : Faults)
    (pipeline : list Click.Doc -> outcome R) : M R :=
  call (click_aggregate f) (fun w => (pipeline (clicks w), w)).

(** The geoip database was asked about these addresses. *)
Definition logLookups (l : list string) : M unit :=
  fun w => (Ok tt, set_geoLookups (geoLookups w ++ l) w).

End Store.

Declare Scope store_scope.
Delimit Scope store_scope with store.
Notation "'let*' x := m 'in' k" := (Store.bind m (fun x => k))
  (at level 10, x name, m at level 100, k at level 200) : store_scope.
Notation "m ;; k" := (Store.bind m (fun _ => k))
  (at level 100, k at level 200, right associativity) : store_scope.

(** ** Aggregation stages *)

Module Mongo.

Section Group.
Context {D K : Type} `{EqDecision K}.

(** Adds a document to the group of its key; a new key opens a group
    after the ones seen so far. *)
Fixpoint addToGroup (k : K) (d : D) (groups : list (K * list D))
  : list (K * list D) :=
  match groups with
  | [] => [(k, [d])]
  | (k', ds) :: rest =>
      if decide (k = k') then (k', ds ++ [d]) :: rest
      else (k', ds) :: addToGroup k d rest
  end.

(** [$group] on the key [key]: the groups in first-seen order, each
    with its documents in input order.  No document, no group. *)
Definition group (key : D -> K) (docs : list D) : list (K * list D) :=
  fold_left (fun groups d => addToGroup (key d) d groups) docs [].
End Group.

(** [$sort]: a stable insertion sort, [before x y] telling that [x] may
    stand before [y]. *)
Fixpoint insertBy {A} (before : A -> A -> bool) (x : A) (l : list A)
  : list A :=
  match l with
  | [] => [x]
  | y :: rest =>
      if before x y then x :: y :: rest else y :: insertBy before x rest
  end.

Definition sortBy {A} (before : A -> A -> bool) (l : list A) : list A :=
  fold_right (insertBy before) [] l.

(** [{ $size: { $addToSet: ... } }] *)
Definition sizeOfSet {A} `{EqDecision A} (l : list A) : N :=
  N.of_nat (length (remove_dups l)).

(** [{ $sum: { $cond: [p, 1, 0] } }] *)
Definition countIf {A} (p : A -> bool) (l : list A) : N :=
  N.of_nat (length (List.filter p l)).

(** [$avg]: the mean of the values that are there, [null] without any. *)
Definition avg (values : list N) : option Q :=
  match values with
  | [] => None
  | _ :: _ =>
      Some (Z.of_N (fold_right N.add 0%N values)
            # Pos.of_nat (length values))
  end.

(** A [$project] whose expression may fail, over every group. *)
Fixpoint projectAll {A B} (project : A -> outcome B) (l : list A)
  : outcome (list B) :=
  match l with
  | [] => Ok []
  | a :: rest =>
      match project a with
      | Throw e => Throw e
      | Ok b =>
          match projectAll project rest with
          | Throw e => Throw e
          | Ok bs => Ok (b :: bs)
          end
      end
  end.

End Mongo.

(** ** models/Click.js: [save] and the statics *)

Module ClickModel.
Import Click Store Mongo.
Local Open Scope store_scope.

(** [click.save()]: validation, the two pre-save hooks in the order they
    are registered, then the insertion. *)
Definition save (env : Env) (now : Instant) (f : Faults) (d : Doc)
  : M Doc :=
  match validate d with
  | Some message => throw ("Click validation failed: " ++ message)
  | None =>
      let '(d1, looked) := geolocationHook env d in
      let d2 := botHook d1 in
      logLookups looked ;;
      Click_insert f (stored now d2)
  end.

(** [isUniqueClick(urlId, ipAddress)] *)
Definition samePair (u : ObjectId) (ip : string) (d : Doc) : bool :=
  (urlId d =? u)%N && String.eqb (ipAddress d) ip.

Definition isUniqueClick (f : Faults) (u : ObjectId) (ip : string)
  : M bool :=
  tryCatch
    (let* existingClick := Click_findOne f (samePair u ip) in
     ret (negb (bool_decide (is_Some existingClick))))
    (fun _ => ret false).

(** *** [getUrlAnalytics] *)

Record Options := {
  startDate : option Instant;
  endDate : option Instant;
  excludeBots : option bool
}.

Definition defaultOptions : Options :=
  {| startDate := None; endDate := None; excludeBots := None |}.

Definition days (n : Z) : Z := (n * 24 * 60 * 60 * 1000)%Z.

Record Overview := {
  totalClicks : N;
  uniqueClicks : N;
  botClicks : N;
  averageLoadTime : option Q
}.

Record Counted (K : Type) := { _id : K; count : N }.
Arguments _id {K} c.
Arguments count {K} c.

Record CountryRow := {
  country_id : string;
  country_count : N;
  country_name : option string
}.

Record HourRow := {
  hour_id : Z;
  hour_count : N;
  uniqueUsersCount : N;
  uniqueIPsCount : N
}.

(** [_id] of a day is the day number since the epoch, which stands for
    the [(year, month, day)] triple of the source and sorts like it. *)
Record DayRow := {
  day_id : Z;
  day_count : N;
  uniqueVisitorsCount : N;
  uniqueRegisteredUsersCount : N;
  uniqueCountriesCount : N;
  uniqueDeviceTypesCount : N;
  day_botClicks : N;
  humanClicks : Z
}.

Record Facets := {
  f_overview : list Overview;
  f_byCountry : list CountryRow;
  f_byDevice : list (Counted DeviceType);
  f_byBrowser : list (Counted string);
  f_byReferrer : list (Counted string);
  f_clicksByHour : list HourRow;
  f_clicksByDay : list DayRow
}.

Record UrlAnalytics := {
  overview : Overview;
  byCountry : list CountryRow;
  byDevice : list (Counted DeviceType);
  byBrowser : list (Counted string);
  byReferrer : list (Counted string);
  clicksByHour : list HourRow;
  clicksByDay : list DayRow;
  dateRange : Instant * Instant
}.

(** [matchStage] *)
Definition matchStage (u : ObjectId) (startDate endDate : Instant)
    (excludeBots : bool) (d : Doc) : bool :=
  (urlId d =? u)%N
  && (startDate <=? clickedAt d)%Z && (clickedAt d <=? endDate)%Z
  && (if excludeBots then negb (isBot d) else true).

Definition countOf {K} (g : K * list Doc) : Counted K :=
  {| _id := fst g; count := N.of_nat (length (snd g)) |}.

Definition byCountDesc {K} (x y : Counted K) : bool :=
  (count y <=? count x)%N.

(** ["$location.country"] and ["$location.countryName"] *)
Definition countryOf (d : Doc) : option string :=
  match location d with
  | Some l => country l
  | None => None
  end.

Definition countryNameOf (d : Doc) : option string :=
  match location d with
  | Some l => countryName l
  | None => None
  end.

Definition overviewFacet (docs : list Doc) : list Overview :=
  List.map (fun g : unit * list Doc =>
         {| totalClicks := N.of_nat (length (snd g));
            uniqueClicks := countIf isUnique (snd g);
            botClicks := countIf isBot (snd g);
            averageLoadTime := avg (omap loadTime (snd g)) |})
      (group (fun _ => tt) docs).

Definition byCountryFacet (docs : list Doc) : list CountryRow :=
  take 10
    (sortBy (fun x y => (country_count y <=? country_count x)%N)
       (List.map (fun g : string * list Doc =>
               {| country_id := fst g;
                  country_count := N.of_nat (length (snd g));
                  country_name :=
                    match snd g with
                    | first :: _ => countryNameOf first
                    | [] => None
                    end |})
            (group (fun d => default "" (countryOf d))
                   (List.filter (fun d => bool_decide (is_Some (countryOf d)))
                                docs)))).

Definition byDeviceFacet (docs : list Doc) : list (Counted DeviceType) :=
  sortBy byCountDesc
    (List.map countOf (group (fun d => type (device d)) docs)).

Definition byBrowserFacet (docs : list Doc) : list (Counted string) :=
  take 10
    (sortBy byCountDesc
       (List.map countOf
          (group (fun d => default "" (browser (device d)))
             (List.filter
                (fun d => match browser (device d) with
                          | Some b => negb (String.eqb b "Unknown")
                          | None => false
                          end) docs)))).

Definition byReferrerFacet (docs : list Doc) : list (Counted string) :=
  take 10
    (sortBy byCountDesc
       (List.map countOf
          (group (fun d => default "" (referrer d))
             (List.filter (fun d => bool_decide (is_Some (referrer d)))
                          docs)))).

(** [$hour], in UTC. *)
Definition hourOf (t : Instant) : Z := ((t / 3600000) mod 24)%Z.

Definition dayOf (t : Instant) : Z := (t / 86400000)%Z.

Definition clicksByHourFacet (docs : list Doc) : list HourRow :=
  sortBy (fun x y => (hour_id x <=? hour_id y)%Z)
    (List.map (fun g : Z * list Doc =>
            {| hour_id := fst g;
               hour_count := N.of_nat (length (snd g));
               uniqueUsersCount := sizeOfSet (List.map userId (snd g));
               uniqueIPsCount := sizeOfSet (List.map ipAddress (snd g)) |})
         (group (fun d => hourOf (clickedAt d)) docs)).

Definition visitorOf (d : Doc) : ObjectId + string :=
  match userId d with
  | Some u => inl u
  | None => inr (ipAddress d)
  end.

Definition clicksByDayFacet (docs : list Doc) : list DayRow :=
  sortBy (fun x y => (day_id x <=? day_id y)%Z)
    (List.map (fun g : Z * list Doc =>
            let n := N.of_nat (length (snd g)) in
            let bots := countIf isBot (snd g) in
            {| day_id := fst g;
               day_count := n;
               uniqueVisitorsCount := sizeOfSet (List.map visitorOf (snd g));
               uniqueRegisteredUsersCount :=
                 sizeOfSet (omap userId (snd g));
               uniqueCountriesCount := sizeOfSet (omap countryOf (snd g));
               uniqueDeviceTypesCount :=
                 sizeOfSet (List.map (fun d => type (device d)) (snd g));
               day_botClicks := bots;
               humanClicks := (Z.of_N n - Z.of_N bots)%Z |})
         (group (fun d => dayOf (clickedAt d)) docs)).

(** [$match] then [$facet]: always one result document. *)
Definition urlPipeline (u : ObjectId) (startDate endDate : Instant)
    (excludeBots : bool) (collection : list Doc) : outcome Facets :=
  let docs := List.filter (matchStage u startDate endDate excludeBots)
                          collection in
  Ok {| f_overview := overviewFacet docs;
        f_byCountry := byCountryFacet docs;
        f_byDevice := byDeviceFacet docs;
        f_byBrowser := byBrowserFacet docs;
        f_byReferrer := byReferrerFacet docs;
        f_clicksByHour := clicksByHourFacet docs;
        f_clicksByDay := clicksByDayFacet docs |}.

Definition zeroOverview : Overview :=
  {| totalClicks := 0; uniqueClicks := 0; botClicks := 0;
     averageLoadTime := Some 0%Q |}.

Definition getUrlAnalytics (now : Instant) (f : Faults) (u : ObjectId)
    (options : Options) : M UrlAnalytics :=
  tryCatch
    (let startDate := default (now - days 30)%Z (startDate options) in
     let endDate := default now (endDate options) in
     let excludeBots := default true (excludeBots options) in
     let* analytics :=
       Click_aggregate f (urlPipeline u startDate endDate excludeBots) in
     ret {| overview := default zeroOverview (head (f_overview analytics));
            byCountry := f_byCountry analytics;
            byDevice := f_byDevice analytics;
            byBrowser := f_byBrowser analytics;
            byReferrer := f_byReferrer analytics;
            clicksByHour := f_clicksByHour analytics;
            clicksByDay := f_clicksByDay analytics;
            dateRange := (startDate, endDate) |})
    (fun message =>
       throw ("Click analytics generation failed: " ++ message)).

(** *** [getRealTimeStats] *)

Record RealTimeStats := {
  recentClicks : N;
  activeUrls : N;
  activeCountries : N;
  avgClicksPerMinute : Q
}.

Definition zeroRealTimeStats : RealTimeStats :=
  {| recentClicks := 0; activeUrls := 0; activeCountries := 0;
     avgClicksPerMinute := 0%Q |}.

(** [$match], [$group] on [null], [$project].  [$divide] by zero is an
    error of the pipeline; it is only evaluated on a group. *)
Definition realTimePipeline (minutes : Z) (timeThreshold : Instant)
    (collection : list Doc) : outcome (list RealTimeStats) :=
  let docs :=
    List.filter (fun d => (timeThreshold <=? clickedAt d)%Z
                          && negb (isBot d)) collection in
  projectAll
    (fun g : unit * list Doc =>
       let n := N.of_nat (length (snd g)) in
       if (minutes =? 0)%Z then Throw "can't $divide by zero"
       else Ok {| recentClicks := n;
                  activeUrls := sizeOfSet (List.map urlId (snd g));
                  activeCountries := sizeOfSet (omap countryOf (snd g));
                  avgClicksPerMinute :=
                    (inject_Z (Z.of_N n) / inject_Z minutes)%Q |})
    (group (fun _ => tt) docs).

Definition getRealTimeStats (now : Instant) (f : Faults)
    (minutes : option Z) : M RealTimeStats :=
  tryCatch
    (let minutes := default 60%Z minutes in
     let timeThreshold := (now - minutes * 60 * 1000)%Z in
     let* stats :=
       Click_aggregate f (realTimePipeline minutes timeThreshold) in
     ret (default zeroRealTimeStats (head stats)))
    (fun message =>
       throw ("Real-time statistics generation failed: " ++ message)).

(** *** [cleanupOldClicks] *)

Definition olderThan (cutoffDate : Instant) (d : Doc) : bool :=
  (clickedAt d <? cutoffDate)%Z.

Record CleanupResult := {
  deletedCount : N;
  cutoffDate : Instant;
  retentionDays : Z
}.

Definition cleanupOldClicks (now : Instant) (f : Faults)
    (retentionDays : option Z) : M CleanupResult :=
  tryCatch
    (let retentionDays := default 365%Z retentionDays in
     let cutoffDate := (now - days retentionDays)%Z in
     let* deleted := Click_deleteMany f (olderThan cutoffDate) None in
     ret {| deletedCount := deleted; cutoffDate := cutoffDate;
            retentionDays := retentionDays |})
    (fun message => throw ("Click data cleanup failed: " ++ message)).

End ClickModel.

(** ** services/analyticsService.js *)

Module AnalyticsService.
Import JsString Store.
Local Open Scope store_scope.

(** *** IP normalisation *)

(** [isValidIPv4] of [_normalizeIpAddress] *)
Definition isValidIPv4 (ip : string) : bool :=
  if negb (Regex.ipv4Regex ip) then false
  else forallb (fun part =>
                  match parseInt part with
                  | Some num => (0 <=? num)%N && (num <=? 255)%N
                  | None => false
                  end)
               (split "." ip).

(** [privateRanges] of [_isPublicIP] *)
Definition privateRanges : list (string -> bool) :=
  [ fun ip => startsWith ip "10.";
    Regex.private172Regex;
    fun ip => startsWith ip "192.168.";
    fun ip => startsWith ip "127.";
    fun ip => startsWith ip "169.254.";
    fun ip => startsWith ip "224.";
    fun ip => startsWith ip "0." ].

Definition _isPublicIP (ip : option string) : bool :=
  match ip with
  | Some (String _ _ as ip) =>
      negb (existsb (fun range => range ip) privateRanges)
  | _ => false
  end.

(** [extractFromForwardedFor] of [_normalizeIpAddress] *)
Definition extractFromForwardedFor (forwardedFor : option string)
  : option string :=
  match forwardedFor with
  | Some (String _ _ as forwardedFor) =>
      let ips := List.map trim (split "," forwardedFor) in
      match List.find (fun candidateIp => _isPublicIP (Some candidateIp))
                      ips with
      | Some candidateIp => Some candidateIp
      | None =>
          match ips with
          | String c r :: _ => Some (String c r)
          | _ => None
          end
      end
  | _ => None
  end.

(** [ipSources], after [.filter(Boolean)] *)
Definition ipSources (ip : option string) (headers : gmap string string)
  : list string :=
  omap (fun source => if truthy source then source else None)
    [ ip;
      headers !! "cf-connecting-ip";
      headers !! "x-real-ip";
      extractFromForwardedFor (headers !! "x-forwarded-for");
      headers !! "x-client-ip";
      headers !! "x-forwarded";
      headers !! "forwarded-for";
      headers !! "forwarded" ].

(** The body of the loop over the sources, up to the validity test. *)
Definition normalizeCandidate (candidateIp : string) : string :=
  let normalizedIp :=
    if startsWith candidateIp "::ffff:" then substring_from 7 candidateIp
    else candidateIp in
  let normalizedIp :=
    if String.eqb normalizedIp "::1" then "127.0.0.1" else normalizedIp in
  if String.eqb normalizedIp "localhost" then "127.0.0.1"
  else normalizedIp.

(** The loop: the first source whose normal form is a valid IPv4
    address. *)
Fixpoint firstValid (sources : list string) : option string :=
  match sources with
  | [] => None
  | candidateIp :: rest =>
      let normalizedIp := normalizeCandidate candidateIp in
      if isValidIPv4 normalizedIp then Some normalizedIp
      else firstValid rest
  end.

Definition _normalizeIpAddress (ip : option string)
    (headers : gmap string string) : string :=
  default "127.0.0.1" (firstValid (ipSources ip headers)).

(** *** [recordClick] *)

Record ClickData := {
  urlId : ObjectId;
  ipAddress : option string;
  headers : option (gmap string string);
  userAgent : option string;
  referrer : option string;
  userId : option ObjectId;
  sessionId : option string;
  device : option Click.Device
}.

Record LiveCounters := {
  totalClicks : N;
  uniqueClicks : N;
  isUnique : bool
}.

Record Recorded := {
  click : Click.Doc;
  redirectUrl : string;
  analytics : LiveCounters
}.

(** [_updateUrlStats]: one [findByIdAndUpdate] with [$inc] and the new
    [lastClickedAt]; a failure of it is logged and goes no further. *)
Definition applyUrlStats (now : Instant) (isUnique : bool) (url : Url)
  : Url :=
  {| isActive := isActive url; isExpired := isExpired url;
     originalUrl := originalUrl url; owner := owner url;
     clickCount := (clickCount url + 1)%N;
     Store.uniqueClicks :=
       if isUnique then (Store.uniqueClicks url + 1)%N
       else Store.uniqueClicks url;
     lastClickedAt := Some now |}.

Definition _updateUrlStats (now : Instant) (f : Faults) (id : ObjectId)
    (isUnique : bool) : M unit :=
  tryCatch (URL_findByIdAndUpdate f id (applyUrlStats now isUnique))
           (fun _ => ret tt).

(** [_updateUserStats] *)
Definition _updateUserStats (f : Faults) (userId : ObjectId)
    (clickCount : N) : M unit :=
  tryCatch (User_findByIdAndUpdate f userId clickCount)
           (fun _ => ret tt).

Section Service.

(** The hooks' collaborators, and [new URL(referrer).searchParams]:
    the query parameters in order, or [None] when the constructor
    throws. *)
Variable env : Click.Env.
Variable searchParams : string -> option (list (string * string)).

(** [_extractCampaignData] *)
Definition _extractCampaignData (referrer : string)
  : option Click.Campaign :=
  match searchParams referrer with
  | None => None
  | Some params =>
      let get name :=
        snd <$> List.find (fun p => String.eqb (fst p) name) params in
      let campaignData :=
        {| Click.source := get "utm_source";
           Click.medium := get "utm_medium";
           Click.campaign_ := get "utm_campaign";
           Click.term := get "utm_term";
           Click.content := get "utm_content" |} in
      match Click.source campaignData, Click.medium campaignData,
            Click.campaign_ campaignData, Click.term campaignData,
            Click.content campaignData with
      | None, None, None, None, None => None
      | _, _, _, _, _ => Some campaignData
      end
  end.

(** [new Click({...})]: the paths the caller gives, the schema
    defaults for the others.  [clickedAt] is stamped by [save]; until
    then it is a placeholder.  [ipMetadata] is no path of the schema
    and is dropped by the constructor. *)
Definition newClick (d : ClickData) (ipAddress : string)
    (isUnique : bool) : Click.Doc :=
  {| Click.urlId := urlId d;
     Click.userId := userId d;
     Click.ipAddress := ipAddress;
     Click.userAgent := userAgent d;
     Click.referrer := referrer d;
     Click.location := None;
     Click.device := default Click.defaultDevice (device d);
     Click.isBot := false;
     Click.isUnique := isUnique;
     Click.campaign := None;
     Click.sessionId := sessionId d;
     Click.loadTime := None;
     Click.clickedAt := 0%Z;
     Click.isNew := true |}.

Definition recordClick (now : Instant) (f : Faults) (clickData : ClickData)
  : M Recorded :=
  tryCatch
    (let ipAddress :=
       _normalizeIpAddress (ipAddress clickData)
                           (default ∅ (headers clickData)) in
     let* found := URL_findById f (urlId clickData) in
     match found with
     | None => throw "URL not found or inactive"
     | Some url =>
         if negb (isActive url) then throw "URL not found or inactive"
         else if isExpired url then throw "URL has expired"
         else
           let* isUnique :=
             ClickModel.isUniqueClick f (urlId clickData) ipAddress in
           let click := newClick clickData ipAddress isUnique in
           let click :=
             if truthy (referrer clickData) then
               match referrer clickData ≫= _extractCampaignData with
               | Some campaignData =>
                   Click.set_campaign (Some campaignData) click
               | None => click
               end
             else click in
           let* click := ClickModel.save env now f click in
           _updateUrlStats now f (urlId clickData) isUnique ;;
           match owner url with
           | Some userId => _updateUserStats f userId 1
           | None => ret tt
           end ;;
           ret {| click := click;
                  redirectUrl := originalUrl url;
                  analytics :=
                    {| totalClicks := (clickCount url + 1)%N;
                       uniqueClicks :=
                         (Store.uniqueClicks url
                          + (if isUnique then 1 else 0))%N;
                       isUnique := isUnique |} |}
     end)
    (fun message => throw ("Click recording failed: " ++ message)).

End Service.

(** *** [cleanupAnalyticsData] *)

Record CleanupOptions := {
  retentionDays : option Z;
  batchSize : option N;
  dryRun : option bool
}.

(** What the sweep does to the store, in order: a [deleteMany] and the
    number of documents it removed, or the pause between two of them. *)
Inductive SweepEvent :=
| Batch (deleted : N)
| Pause (milliseconds : N).

Inductive CleanupReport :=
| DryRunReport (recordsToDelete : N) (cutoffDate : Instant)
               (retentionDays : Z)
| DeletedReport (deletedCount : N) (cutoffDate : Instant)
                (retentionDays : Z).

(** The [while (hasMore)] loop.  [fuel] bounds the number of rounds;
    [None] is a loop still running when it is used up. *)
Fixpoint sweep (fuel : nat) (f : Faults) (cutoffDate : Instant)
    (batchSize : N) (totalDeleted : N) (trace : list SweepEvent)
  : M (option (N * list SweepEvent)) :=
  match fuel with
  | O => ret None
  | S fuel' =>
      let* deleted :=
        Click_deleteMany f (ClickModel.olderThan cutoffDate)
                         (Some batchSize) in
      let totalDeleted := (totalDeleted + deleted)%N in
      let hasMore := (deleted =? batchSize)%N in
      if hasMore then
        sweep fuel' f cutoffDate batchSize totalDeleted
              (trace ++ [Batch deleted; Pause 100])
      else ret (Some (totalDeleted, trace ++ [Batch deleted]))
  end.

Definition cleanupAnalyticsData (fuel : nat) (now : Instant) (f : Faults)
    (options : CleanupOptions)
  : M (option (CleanupReport * list SweepEvent)) :=
  tryCatch
    (let retentionDays := default 365%Z (retentionDays options) in
     let batchSize := default 1000%N (batchSize options) in
     let dryRun := default false (dryRun options) in
     let cutoffDate := (now - ClickModel.days retentionDays)%Z in
     if dryRun then
       let* count :=
         Click_countDocuments f (ClickModel.olderThan cutoffDate) in
       ret (Some (DryRunReport count cutoffDate retentionDays, []))
     else
       let* swept := sweep fuel f cutoffDate batchSize 0 [] in
       ret (match swept with
            | Some (totalDeleted, trace) =>
                Some (DeletedReport totalDeleted cutoffDate retentionDays,
                      trace)
            | None => None
            end))
    (fun message =>
       throw ("Analytics data cleanup failed: " ++ message)).

End AnalyticsService.

(** ** The core operations as a state machine *)

Module Core.
Import Store.

(** One call into the core, with the instant it runs at and the store
    failures it meets. *)
Inductive Op :=
| RecordClick (now : Instant) (f : Faults)
              (clickData : AnalyticsService.ClickData)
| IsUniqueClick (f : Faults) (urlId : ObjectId) (ipAddress : string)
| GetUrlAnalytics (now : Instant) (f : Faults) (urlId : ObjectId)
                  (options : ClickModel.Options)
| GetRealTimeStats (now : Instant) (f : Faults) (minutes : option Z)
| CleanupOldClicks (now : Instant) (f : Faults) (retentionDays : option Z)
| CleanupAnalyticsData (fuel : nat) (now : Instant) (f : Faults)
                       (options : AnalyticsService.CleanupOptions).

Section Machine.
Variable env : Click.Env.
Variable searchParams : string -> option (list (string * string)).

(** The world after one operation, whether it returned or threw. *)
Definition exec (op : Op) (w : World) : World :=
  match op with
  | RecordClick now f clickData =>
      snd (AnalyticsService.recordClick env searchParams now f
                                        clickData w)
  | IsUniqueClick f u ip => snd (ClickModel.isUniqueClick f u ip w)
  | GetUrlAnalytics now f u options =>
      snd (ClickModel.getUrlAnalytics now f u options w)
  | GetRealTimeStats now f minutes =>
      snd (ClickModel.getRealTimeStats now f minutes w)
  | CleanupOldClicks now f retentionDays =>
      snd (ClickModel.cleanupOldClicks now f retentionDays w)
  | CleanupAnalyticsData fuel now f options =>
      snd (AnalyticsService.cleanupAnalyticsData fuel now f options w)
  end.

Definition run (ops : list Op) (w : World) : World :=
  fold_left (fun w op => exec op w) ops w.

(** A sequence of ingestions, one after another. *)
Definition Ingestion : Type :=
  Instant * Faults * AnalyticsService.ClickData.

Definition ingest (call : Ingestion) (w : World) : World :=
  exec (RecordClick (fst (fst call)) (snd (fst call)) (snd call)) w.

Definition ingestAll (calls : list Ingestion) (w : World) : World :=
  fold_left (fun w call => ingest call w) calls w.

End Machine.

(** The pair an ingestion is looked up and stored under. *)
Definition pairOf (clickData : AnalyticsService.ClickData)
  : ObjectId * string :=
  (AnalyticsService.urlId clickData,
   AnalyticsService._normalizeIpAddress
     (AnalyticsService.ipAddress clickData)
     (default ∅ (AnalyticsService.headers clickData))).

(** The counters of every URL document are in order. *)
Definition countersOrdered (w : World) : Prop :=
  forall (id : N) (url : Url),
    urls w !! id = Some url -> (uniqueClicks url <= clickCount url)%N.

(** From [w] to [w'] every URL document is still there and none of its
    two counters went down. *)
Definition countersGrew (w w' : World) : Prop :=
  forall (id : N) (url : Url),
    urls w !! id = Some url ->
    exists url',
      urls w' !! id = Some url'
      /\ (clickCount url <= clickCount url')%N
      /\ (uniqueClicks url <= uniqueClicks url')%N.

End Core.

(** ** What the statements below are about *)

Module Spec.
Import JsString.

Fixpoint allChars (p : ascii -> bool) (s : string) : bool :=
  match s with
  | EmptyString => true
  | String c s' => p c && allChars p s'
  end.

(** One to three decimal digits. *)
Definition Digits3 (a : string) : Prop :=
  (1 <= String.length a <= 3)%nat /\ allChars isDigit a = true.

Definition dotted (a b c d : string) : string :=
  (a ++ "." ++ b ++ "." ++ c ++ "." ++ d)%string.

(** What stops a greedy repetition: the end of the input or a character
    outside the class. *)
Definition stops (p : ascii -> bool) (r : string) : Prop :=
  match r with
  | EmptyString => True
  | String c _ => p c = false
  end.

(** The test of one part in [isValidIPv4]. *)
Definition partInRange (part : string) : bool :=
  match parseInt part with
  | Some num => (0 <=? num)%N && (num <=? 255)%N
  | None => false
  end.

(** One to three decimal digits whose value is at most 255. *)
Definition Octet (a : string) : Prop :=
  (1 <= String.length a <= 3)%nat
  /\ allChars isDigit a = true
  /\ exists n, parseInt a = Some n /\ (n <= 255)%N.

(** A syntactically valid IPv4 address: four octets between dots. *)
Definition DottedQuad (s : string) : Prop :=
  exists a b c d : string,
    s = (a ++ "." ++ b ++ "." ++ c ++ "." ++ d)%string
    /\ Octet a /\ Octet b /\ Octet c /\ Octet d.

(** [p] occurs in [s] up to the case of ASCII letters. *)
Definition OccursIgnoringCase (p s : string) : Prop :=
  exists before found after : string,
    s = (before ++ found ++ after)%string /\ toLower found = p.

(** The same store failures, but for the insertion of the click, which
    goes through. *)
Definition insertSucceeds (f : Store.Faults) : Store.Faults :=
  {| Store.url_findById := Store.url_findById f;
     Store.click_findOne := Store.click_findOne f;
     Store.click_insert := None;
     Store.url_findByIdAndUpdate := Store.url_findByIdAndUpdate f;
     Store.user_findByIdAndUpdate := Store.user_findByIdAndUpdate f;
     Store.click_aggregate := Store.click_aggregate f;
     Store.click_countDocuments := Store.click_countDocuments f;
     Store.click_deleteMany := Store.click_deleteMany f |}.

(** The same store failures, but for the update of the URL counters,
    which goes through. *)
Definition urlUpdateSucceeds (f : Store.Faults) : Store.Faults :=
  {| Store.url_findById := Store.url_findById f;
     Store.click_findOne := Store.click_findOne f;
     Store.click_insert := Store.click_insert f;
     Store.url_findByIdAndUpdate := None;
     Store.user_findByIdAndUpdate := Store.user_findByIdAndUpdate f;
     Store.click_aggregate := Store.click_aggregate f;
     Store.click_countDocuments := Store.click_countDocuments f;
     Store.click_deleteMany := Store.click_deleteMany f |}.

(** The clicks of one (URL, address) pair, oldest first. *)
Definition clicksOfPair (u : ObjectId) (ip : string) (w : Store.World)
  : list Click.Doc :=
  List.filter (ClickModel.samePair u ip) (Store.clicks w).

(** In a list of clicks, the first is flagged unique and no other. *)
Definition firstOnly (l : list Click.Doc) : Prop :=
  forall (i : nat) (c : Click.Doc),
    l !! i = Some c -> Click.isUnique c = bool_decide (i = 0%nat).

(** The clicks past the retention horizon. *)
Definition expiredClicks (cutoffDate : Instant) (w : Store.World)
  : list Click.Doc :=
  List.filter (ClickModel.olderThan cutoffDate) (Store.clicks w).

End Spec.

(** ** The operations with their store calls run

    The shape every run of [recordClick] and of the two queries has, used
    to reason about them; each is proved equal to the operation it
    describes. *)

Module Pipeline.
Import Store AnalyticsService.

(** What [isUniqueClick] answers in a world. *)
Definition uniqueFlag (f : Faults) (u : ObjectId) (ip : string)
    (w : World) : bool :=
  match click_findOne f with
  | Some _ => false
  | None => negb (existsb (ClickModel.samePair u ip) (clicks w))
  end.

(** The world after the counter updates that follow the insertion. *)
Definition afterUrlStats (now : Instant) (f : Faults) (id : ObjectId)
    (unique : bool) (w : World) : World :=
  match url_findByIdAndUpdate f with
  | Some _ => w
  | None => set_urls (alter (applyUrlStats now unique) id (urls w)) w
  end.

Definition afterUserStats (f : Faults) (o : option ObjectId)
    (w : World) : World :=
  match o, user_findByIdAndUpdate f with
  | Some userId, None =>
      set_userTotalClicks
        (alter (fun t => (t + 1)%N) userId (userTotalClicks w)) w
  | _, _ => w
  end.

Section Steps.
Variable env : Click.Env.
Variable searchParams : string -> option (list (string * string)).

(** The document handed to [save]. *)
Definition prepared (d : ClickData) (ip : string) (unique : bool)
  : Click.Doc :=
  let click := newClick d ip unique in
  if JsString.truthy (referrer d) then
    match referrer d ≫= _extractCampaignData searchParams with
    | Some campaignData => Click.set_campaign (Some campaignData) click
    | None => click
    end
  else click.

(** The document [save] inserts. *)
Definition persisted (now : Instant) (c : Click.Doc) : Click.Doc :=
  Click.stored now (Click.botHook (fst (Click.geolocationHook env c))).

(** [recordClick], with its calls run: every way it can end. *)
Definition recordClick_cases (now : Instant) (f : Faults)
    (d : ClickData) (w : World) : outcome Recorded * World :=
  let ip := _normalizeIpAddress (ipAddress d) (default ∅ (headers d)) in
  match url_findById f with
  | Some e => (Throw ("Click recording failed: " ++ e), w)
  | None =>
      match urls w !! urlId d with
      | None =>
          (Throw "Click recording failed: URL not found or inactive", w)
      | Some url =>
          if negb (isActive url) then
            (Throw "Click recording failed: URL not found or inactive",
             w)
          else if isExpired url then
            (Throw "Click recording failed: URL has expired", w)
          else
            let unique := uniqueFlag f (urlId d) ip w in
            let c0 := prepared d ip unique in
            match Click.validate c0 with
            | Some m =>
                (Throw ("Click recording failed: "
                        ++ "Click validation failed: " ++ m), w)
            | None =>
                let c := persisted now c0 in
                let w1 :=
                  set_geoLookups
                    (geoLookups w ++ snd (Click.geolocationHook env c0))
                    w in
                match click_insert f with
                | Some e =>
                    (Throw ("Click recording failed: " ++ e), w1)
                | None =>
                    let w2 := set_clicks (clicks w1 ++ [c]) w1 in
                    let w3 := afterUrlStats now f (urlId d) unique w2 in
                    let w4 := afterUserStats f (owner url) w3 in
                    (Ok {| click := c;
                           redirectUrl := originalUrl url;
                           analytics :=
                             {| totalClicks := (clickCount url + 1)%N;
                                uniqueClicks :=
                                  (Store.uniqueClicks url
                                   + (if unique then 1 else 0))%N;
                                isUnique := unique |} |}, w4)
                end
            end
      end
  end.

End Steps.

(** The clicks [getUrlAnalytics] aggregates. *)
Definition selected (now : Instant) (u : ObjectId)
    (options : ClickModel.Options) (collection : list Click.Doc)
  : list Click.Doc :=
  List.filter
    (ClickModel.matchStage u
       (default (now - ClickModel.days 30)%Z (ClickModel.startDate options))
       (default now (ClickModel.endDate options))
       (default true (ClickModel.excludeBots options)))
    collection.

(** The report on a selection. *)
Definition reportOn (now : Instant) (options : ClickModel.Options)
    (docs : list Click.Doc) : ClickModel.UrlAnalytics :=
  {| ClickModel.overview :=
       default ClickModel.zeroOverview
               (head (ClickModel.overviewFacet docs));
     ClickModel.byCountry := ClickModel.byCountryFacet docs;
     ClickModel.byDevice := ClickModel.byDeviceFacet docs;
     ClickModel.byBrowser := ClickModel.byBrowserFacet docs;
     ClickModel.byReferrer := ClickModel.byReferrerFacet docs;
     ClickModel.clicksByHour := ClickModel.clicksByHourFacet docs;
     ClickModel.clicksByDay := ClickModel.clicksByDayFacet docs;
     ClickModel.dateRange :=
       (default (now - ClickModel.days 30)%Z
                (ClickModel.startDate options),
        default now (ClickModel.endDate options)) |}.

(** The clicks [getRealTimeStats] aggregates. *)
Definition recent (now : Instant) (minutes : option Z)
    (collection : list Click.Doc) : list Click.Doc :=
  List.filter
    (fun d => ((now - default 60 minutes * 60 * 1000
                <=? Click.clickedAt d)%Z)
              && negb (Click.isBot d))
    collection.

End Pipeline.

(** ** Concrete inputs *)

Module Examples.
Import Store.

Definition geoOn : Click.Env :=
  {| Click.enableGeolocation := true;
     Click.geoip_lookup := fun _ => Click.GeoNone |}.

Definition geoOff : Click.Env :=
  {| Click.enableGeolocation := false;
     Click.geoip_lookup := fun _ => Click.GeoNone |}.

Definition noParams (referrer : string)
  : option (list (string * string)) := None.

Definition url (active expired : bool) : Url :=
  {| isActive := active; isExpired := expired;
     originalUrl := "https://example.org/"; owner := None;
     clickCount := 0; uniqueClicks := 0; lastClickedAt := None |}.

(** One active URL (id 1), one inactive (id 2), one expired (id 3), and
    no click yet. *)
Definition world : World :=
  {| clicks := [];
     urls := <[1%N := url true false]>
               (<[2%N := url false false]>
                  (<[3%N := url true true]> ∅));
     userTotalClicks := ∅;
     geoLookups := [] |}.

Definition visit (id : ObjectId) (ip userAgent : string)
  : AnalyticsService.ClickData :=
  {| AnalyticsService.urlId := id;
     AnalyticsService.ipAddress := Some ip;
     AnalyticsService.headers := None;
     AnalyticsService.userAgent := Some userAgent;
     AnalyticsService.referrer := None;
     AnalyticsService.userId := None;
     AnalyticsService.sessionId := None;
     AnalyticsService.device := None |}.

Definition chrome : string := "Mozilla/5.0 (Windows NT 10.0) Chrome/115.0".

Definition findOneFails : Faults :=
  {| url_findById := None; click_findOne := Some "connection lost";
     click_insert := None; url_findByIdAndUpdate := None;
     user_findByIdAndUpdate := None; click_aggregate := None;
     click_countDocuments := None; click_deleteMany := None |}.

Definition insertFails : Faults :=
  {| url_findById := None; click_findOne := None;
     click_insert := Some "write failed"; url_findByIdAndUpdate := None;
     user_findByIdAndUpdate := None; click_aggregate := None;
     click_countDocuments := None; click_deleteMany := None |}.

Definition urlUpdateFails : Faults :=
  {| url_findById := None; click_findOne := None;
     click_insert := None; url_findByIdAndUpdate := Some "write failed";
     user_findByIdAndUpdate := None; click_aggregate := None;
     click_countDocuments := None; click_deleteMany := None |}.

Definition countFails : Faults :=
  {| url_findById := None; click_findOne := None;
     click_insert := None; url_findByIdAndUpdate := None;
     user_findByIdAndUpdate := None; click_aggregate := None;
     click_countDocuments := Some "connection lost";
     click_deleteMany := None |}.

(** A stored click of URL 1 at the instant [t]. *)
Definition storedClick (t : Instant) : Click.Doc :=
  {| Click.urlId := 1%N; Click.userId := None;
     Click.ipAddress := "203.0.113.5"; Click.userAgent := Some chrome;
     Click.referrer := None; Click.location := None;
     Click.device := Click.defaultDevice; Click.isBot := false;
     Click.isUnique := false; Click.campaign := None;
     Click.sessionId := None; Click.loadTime := None;
     Click.clickedAt := t; Click.isNew := false |}.

(** Three clicks stored in the first three milliseconds of 1970. *)
Definition agedWorld : World :=
  set_clicks [storedClick 0; storedClick 1; storedClick 2] world.

(** Three ingestions from one address into URL 1, then one from another
    address. *)
Definition fourVisits : list (Instant * Faults * AnalyticsService.ClickData) :=
  [ (1000%Z, noFaults, visit 1 "203.0.113.5" chrome);
    (2000%Z, noFaults, visit 1 "203.0.113.5" chrome);
    (3000%Z, noFaults, visit 1 "198.51.100.7" chrome);
    (4000%Z, noFaults, visit 1 "203.0.113.5" chrome) ].

End Examples.


(** ** Counters against events *)

Module Ledger.
Import Store.

(** The clicks stored for one URL, oldest first. *)
Definition clicksOfUrl (id : ObjectId) (w : World) : list Click.Doc :=
  List.filter (fun c => (Click.urlId c =? id)%N) (clicks w).

(** Every URL document counts its stored clicks: [clickCount] is their
    number and [uniqueClicks] the number of distinct addresses among
    them. *)
Definition countersMatchEvents (w : World) : Prop :=
  forall (id : N) (url : Url),
    urls w !! id = Some url ->
    clickCount url = N.of_nat (length (clicksOfUrl id w))
    /\ uniqueClicks url
       = Mongo.sizeOfSet (List.map Click.ipAddress (clicksOfUrl id w)).

(** The click an ingestion stores: under the pair of the submission,
    stamped with the instant of the call, and no longer new. *)
Definition storedBy (call : Core.Ingestion) (c : Click.Doc) : Prop :=
  (Click.urlId c, Click.ipAddress c) = Core.pairOf (snd call)
  /\ Click.clickedAt c = fst (fst call)
  /\ Click.isNew c = false.

(** A click with its location forgotten. *)
Definition withoutLocation (c : Click.Doc) : Click.Doc :=
  Click.set_location None c.

End Ledger.

(** ** More concrete inputs *)

Module MoreExamples.
Import Store.

(** A user agent of 1001 characters. *)
Definition longUserAgent : string :=
  string_of_list_ascii (List.repeat "a"%char 1001).

(** URL 1 with an owner, user 7, who has 5 clicks so far. *)
Definition ownedWorld : World :=
  {| clicks := [];
     urls := <[1%N := {| isActive := true; isExpired := false;
                         originalUrl := "https://example.org/";
                         owner := Some 7%N; clickCount := 0;
                         uniqueClicks := 0; lastClickedAt := None |}]> ∅;
     userTotalClicks := <[7%N := 5%N]> ∅;
     geoLookups := [] |}.

End MoreExamples.

(** ** The other helpers of the analytics service *)

Module ServiceHelpers.
Import JsString Store AnalyticsService.

(** [_getIPSource] *)
Definition _getIPSource (rawIp : option string)
    (headers : gmap string string) : string :=
  if truthy (headers !! "cf-connecting-ip") then "cloudflare"
  else if truthy (headers !! "x-real-ip") then "nginx"
  else if truthy (headers !! "x-forwarded-for") then "load-balancer"
  else if truthy (headers !! "x-client-ip") then "apache"
  else if truthy rawIp then "direct"
  else "unknown".

(** The limits of the schema on the strings of a submission. *)
Definition withinLimits (d : ClickData) : bool :=
  Click.maxLength 1000 (userAgent d)
  && Click.maxLength 500 (referrer d)
  && Click.maxLength 100 (sessionId d)
  && match device d with
     | None => true
     | Some dev =>
         Click.maxLength 50 (Click.browser dev)
         && Click.maxLength 20 (Click.browserVersion dev)
         && Click.maxLength 50 (Click.os dev)
         && Click.maxLength 20 (Click.osVersion dev)
     end.

(** The entries of an [x-forwarded-for] chain, trimmed. *)
Definition chainEntries (forwardedFor : string) : list string :=
  List.map trim (split "," forwardedFor).

End ServiceHelpers.

(** ** Vocabulary for the reports *)

Module Reports.

(** The sum of a count over the rows of a report. *)
Definition total {A} (count : A -> N) (rows : list A) : N :=
  fold_right N.add 0%N (List.map count rows).

(** Every row stands in relation [R] to all the rows after it. *)
Fixpoint ordered {A} (R : A -> A -> Prop) (rows : list A) : Prop :=
  match rows with
  | [] => True
  | x :: rest => Forall (R x) rest /\ ordered R rest
  end.

(** The documents of a collection with a given key, in input order. *)
Definition withKey {D K} `{EqDecision K} (key : D -> K) (k : K)
    (docs : list D) : list D :=
  List.filter (fun d => bool_decide (key d = k)) docs.

(** The text [p] occurs in the text [s]. *)
Definition occursIn (p s : string) : Prop :=
  exists before after : string, s = (before ++ p ++ after)%string.

End Reports.

(** ** A world with some traffic *)

Module ReportExamples.
Import Store.

(** The world after the four visits of [Examples.fourVisits]. *)
Definition busyWorld : World :=
  Core.ingestAll Examples.geoOn Examples.noParams Examples.fourVisits
    Examples.world.

End ReportExamples.

(** ** Traffic with referrers and browsers *)

Module ReferredExamples.
Import Store.

Definition referred (id : ObjectId) (ip referrer browser : string)
  : AnalyticsService.ClickData :=
  {| AnalyticsService.urlId := id;
     AnalyticsService.ipAddress := Some ip;
     AnalyticsService.headers := None;
     AnalyticsService.userAgent := Some Examples.chrome;
     AnalyticsService.referrer := Some referrer;
     AnalyticsService.userId := None;
     AnalyticsService.sessionId := None;
     AnalyticsService.device :=
       Some {| Click.type := Click.desktop;
               Click.browser := Some browser;
               Click.browserVersion := None;
               Click.os := None;
               Click.osVersion := None |} |}.

(** Three visits of URL 1: two sent by a news site, one by a blog, the
    last with a browser that was not recognised. *)
Definition referredWorld : World :=
  Core.ingestAll Examples.geoOn Examples.noParams
    [ (1000%Z, noFaults,
       referred 1 "203.0.113.5" "https://news.example/" "Chrome");
      (2000%Z, noFaults,
       referred 1 "203.0.113.6" "https://news.example/" "Firefox");
      (3000%Z, noFaults,
       referred 1 "203.0.113.7" "https://blog.example/" "Unknown") ]
    Examples.world.

End ReferredExamples.

(** ** The queries of the analytics service that stand on their own *)

Module ServiceQueries.
Import JsString Store Mongo.
Local Open Scope store_scope.

(** [s.includes(p)] *)
Fixpoint includes (s p : string) : bool :=
  String.prefix p s
  || match s with
     | EmptyString => false
     | String _ s' => includes s' p
     end.

(** *** [_classifyReferrer] *)

Definition searchEngines : list string :=
  ["google.com"; "bing.com"; "yahoo.com"; "duckduckgo.com"].

Definition socialMedia : list string :=
  ["facebook.com"; "twitter.com"; "linkedin.com"; "instagram.com"].

Definition _classifyReferrer (domain : string) : string :=
  if existsb (fun se => includes domain se) searchEngines then "search"
  else if existsb (fun sm => includes domain sm) socialMedia then "social"
  else "referral".

(** *** [_findPeakHour] *)

Definition _findPeakHour (clicksByHour : option (list ClickModel.HourRow))
  : option Z :=
  match clicksByHour with
  | None | Some [] => None
  | Some rows =>
      snd (fold_left
             (fun (state : N * option Z) hourData =>
                let '(maxClicks, peakHour) := state in
                if (maxClicks <? ClickModel.hour_count hourData)%N
                then (ClickModel.hour_count hourData,
                      Some (ClickModel.hour_id hourData))
                else (maxClicks, peakHour))
             rows (0%N, None))
  end.

(** *** [_getTopReferrers] *)



Section Domains.
(** [new URL(url).hostname], or nothing when the constructor throws. *)
Variable hostname : string -> option string.


End Domains.

(** *** [_getRealTimeUrlStats] *)







(** *** [_estimateLiveVisitors] *)

Definition liveVisitorsPipeline (timeThreshold : Instant)
    (collection : list Click.Doc) : outcome (list N) :=
  let docs :=
    List.filter
      (fun d => (timeThreshold <=? Click.clickedAt d)%Z
                && negb (Click.isBot d))
      collection in
  Ok (List.map
        (fun g : unit * list Click.Doc =>
           sizeOfSet (List.map Click.ipAddress (snd g)))
        (group (fun _ => tt) docs)).

Definition _estimateLiveVisitors (now : Instant) (f : Faults)
    (minutes : option Z) : M N :=
  tryCatch
    (let minutes := default 10%Z minutes in
     let timeThreshold := (now - minutes * 60 * 1000)%Z in
     let* result :=
       Click_aggregate f (liveVisitorsPipeline timeThreshold) in
     ret (default 0%N (head result)))
    (fun _ => ret 0%N).

End ServiceQueries.

(** ** [exportClickData] of models/Click.js *)

Module ClickExport.
Import Store Mongo.
Local Open Scope store_scope.

Record ExportOptions := {
  format : option string;
  excludeBots : option bool;
  fields : option (list string)
}.

Definition defaultFields : list string :=
  ["clickedAt"; "location.country"; "location.city"; "device.type";
   "device.browser"; "referrer"].

(** [Click.find(query)], which the store may reject. *)
Definition Click_find (fault : option string) (query : Click.Doc -> bool)
  : M (list Click.Doc) :=
  call fault (fun w => (Ok (List.filter query (clicks w)), w)).

(** [{ clickedAt: -1 }] *)
Definition newestFirst (x y : Click.Doc) : bool :=
  (Click.clickedAt y <=? Click.clickedAt x)%Z.

Section Exporter.
Context {Row : Type}.
(** What [select(paths)] with [lean()] leaves of a document, [paths]
    being the joined field names. *)
Variable select : string -> Click.Doc -> Row.

(** [urlId] is an id already: the [ObjectId] constructor of the
    source does not throw on it. *)
Definition exportClickData (fault : option string) (urlId : ObjectId)
    (options : ExportOptions) : M (list Row) :=
  tryCatch
    (let excludeBots := default true (excludeBots options) in
     let fields := default defaultFields (fields options) in
     let* found :=
       Click_find fault
         (fun d => (Click.urlId d =? urlId)%N
                   && (if excludeBots then negb (Click.isBot d)
                       else true)) in
     ret (List.map (select (String.concat " " fields))
                   (sortBy newestFirst found)))
    (fun message => throw ("Click data export failed: " ++ message)).
End Exporter.

End ClickExport.

(** ** [parseUserAgent] of the redirect controller *)

Module UserAgent.
Import JsString.

(** What the function returns: [{ type, browser, os }]. *)
Record Parsed := {
  ua_type : Click.DeviceType;
  ua_browser : string;
  ua_os : string
}.

(** *** The pieces of its regular expressions *)

(** [.] matches anything but a line terminator. *)
Definition isLineTerminator (c : ascii) : bool :=
  Ascii.eqb c "010"%char || Ascii.eqb c "013"%char.

(** What [.*] can run over from the start of [s]. *)
Fixpoint restOfLine (s : string) : string :=
  match s with
  | EmptyString => EmptyString
  | String c s' =>
      if isLineTerminator c then EmptyString else String c (restOfLine s')
  end.

(** The longest run of characters of a class at the start of [s], and
    what follows it. *)
Fixpoint span (cls : ascii -> bool) (s : string) : string * string :=
  match s with
  | EmptyString => (EmptyString, EmptyString)
  | String c s' =>
      if cls c then let '(run, rest) := span cls s' in (String c run, rest)
      else (EmptyString, s)
  end.

(** [([cls]+)] followed by what [tail] accepts: the group takes as much
    of the run as it can, one character at least, and gives characters
    back while the tail does not match. *)
Fixpoint backtrack (run rest : string) (tail : string -> bool)
  : option string :=
  match run with
  | EmptyString => None
  | String c run' =>
      match backtrack run' rest tail with
      | Some v => Some (String c v)
      | None => if tail (run' ++ rest)%string then Some (String c "")
                else None
      end
  end.

(** [(?:l1|l2|...)([cls]+)tail] at the start of [s]: the capture. *)
Fixpoint matchAt (literals : list string) (cls : ascii -> bool)
    (tail : string -> bool) (s : string) : option string :=
  match literals with
  | [] => None
  | literal :: others =>
      let here :=
        if String.prefix literal s then
          let '(run, rest) :=
            span cls (substring_from (String.length literal) s) in
          backtrack run rest tail
        else None in
      match here with
      | Some v => Some v
      | None => matchAt others cls tail s
      end
  end.

(** The leftmost match in [s]: [s.match(pattern)[1]], or nothing. *)
Fixpoint search (here : string -> option string) (s : string)
  : option string :=
  match here s with
  | Some v => Some v
  | None =>
      match s with
      | EmptyString => None
      | String _ s' => search here s'
      end
  end.

Definition anything (s : string) : bool := true.

(** [[0-9.]] and [[0-9_]] *)
Definition versionChar (c : ascii) : bool :=
  isDigit c || Ascii.eqb c "."%char.

Definition underscoreChar (c : ascii) : bool :=
  isDigit c || Ascii.eqb c "_"%char.

(** [/(tablet|ipad|playbook|silk)|(android(?!.*mobi))/i] *)
Fixpoint androidWithoutMobi (s : string) : bool :=
  (String.prefix "android" (toLower s)
   && negb (Regex.searchIgnoreCase "mobi"
              (restOfLine (substring_from 7 s))))
  || match s with
     | EmptyString => false
     | String _ s' => androidWithoutMobi s'
     end.

Definition tabletRegex (ua : string) : bool :=
  existsb (fun p => Regex.searchIgnoreCase p ua)
          ["tablet"; "ipad"; "playbook"; "silk"]
  || androidWithoutMobi ua.

(** [/Mobile|Android|iP(hone|od)|IEMobile|BlackBerry|Kindle|
    Silk-Accelerated|(hpw|web)OS|Opera M(obi|ini)/] *)
Definition mobileRegex (ua : string) : bool :=
  existsb (fun p => ServiceQueries.includes ua p)
          ["Mobile"; "Android"; "iPhone"; "iPod"; "IEMobile";
           "BlackBerry"; "Kindle"; "Silk-Accelerated"; "hpwOS"; "webOS";
           "Opera Mobi"; "Opera Mini"].

(** *** [browserPatterns] *)

Record BrowserPattern := {
  name : string;
  pattern : string -> option string;
  exclude : option (string -> bool)
}.

Definition browserPatterns : list BrowserPattern :=
  [ {| name := "Edge";
       pattern := search (matchAt ["Edg/"] versionChar anything);
       exclude := None |};
    {| name := "Chrome";
       pattern := search (matchAt ["Chrome/"] versionChar anything);
       exclude := Some (fun ua => ServiceQueries.includes ua "Edg") |};
    {| name := "Safari";
       pattern :=
         search (matchAt ["Version/"] versionChar
                   (fun rest =>
                      ServiceQueries.includes (restOfLine rest) "Safari"));
       exclude := Some (fun ua => ServiceQueries.includes ua "Chrome") |};
    {| name := "Firefox";
       pattern := search (matchAt ["Firefox/"] versionChar anything);
       exclude := None |};
    {| name := "Opera";
       pattern := search (matchAt ["Opera/"; "OPR/"] versionChar anything);
       exclude := None |};
    {| name := "IE";
       pattern := search (matchAt ["MSIE "; "rv:"] versionChar anything);
       exclude := None |} ].

(** The loop over the patterns: the browser and its version. *)
Fixpoint detectBrowser (patterns : list BrowserPattern) (ua : string)
  : string * string :=
  match patterns with
  | [] => ("Unknown", "")
  | p :: others =>
      if match exclude p with
         | None => true
         | Some excluded => negb (excluded ua)
         end
         && bool_decide (is_Some (pattern p ua))
      then (name p, default "" (pattern p ua))
      else detectBrowser others ua
  end.

(** [v.replace(/_/g, ".")] *)
Fixpoint underscoresToDots (v : string) : string :=
  match v with
  | EmptyString => EmptyString
  | String c v' =>
      String (if Ascii.eqb c "_"%char then "."%char else c)
             (underscoresToDots v')
  end.

(** The operating system and its version. *)
Definition detectOs (ua : string) : string * string :=
  if ServiceQueries.includes ua "Windows NT 10.0" then ("Windows", "10/11")
  else if ServiceQueries.includes ua "Windows NT" then
    ("Windows",
     default "" (search (matchAt ["Windows NT "] versionChar anything) ua))
  else if ServiceQueries.includes ua "Mac OS X" then
    ("macOS",
     match search (matchAt ["Mac OS X "] underscoreChar anything) ua with
     | Some v => underscoresToDots v
     | None => ""
     end)
  else if ServiceQueries.includes ua "iPhone" then
    ("iOS",
     match search (matchAt ["OS "] underscoreChar anything) ua with
     | Some v => underscoresToDots v
     | None => ""
     end)
  else if ServiceQueries.includes ua "iPad" then
    ("iPadOS",
     match search (matchAt ["OS "] underscoreChar anything) ua with
     | Some v => underscoresToDots v
     | None => ""
     end)
  else if ServiceQueries.includes ua "Android" then
    ("Android",
     default "" (search (matchAt ["Android "] versionChar anything) ua))
  else if ServiceQueries.includes ua "Linux" then ("Linux", "")
  else ("Unknown", "").

(** [version ? `${label} ${version}` : label] *)
Definition withVersion (label version : string) : string :=
  match version with
  | EmptyString => label
  | String _ _ => (label ++ " " ++ version)%string
  end.

(** [parseUserAgent(userAgent)].  [navigatorUserAgent] is the global
    [navigator.userAgent], or nothing where the runtime has no
    [navigator] and reading it throws. *)
Definition parseUserAgent (navigatorUserAgent : option string)
    (userAgent : option string) : outcome Parsed :=
  match (if truthy userAgent then userAgent else navigatorUserAgent) with
  | None => Throw "navigator is not defined"
  | Some ua =>
      let type :=
        if tabletRegex ua then Click.tablet
        else if mobileRegex ua then Click.mobile
        else Click.desktop in
      let '(browser, browserVersion) := detectBrowser browserPatterns ua in
      let '(os, osVersion) := detectOs ua in
      Ok {| ua_type := type;
            ua_browser := withVersion browser browserVersion;
            ua_os := withVersion os osVersion |}
  end.

(** The [device] of a click made from the parsed user agent: the paths
    [type], [browser] and [os]. *)
Definition toDevice (p : Parsed) : Click.Device :=
  {| Click.type := ua_type p;
     Click.browser := Some (ua_browser p);
     Click.browserVersion := None;
     Click.os := Some (ua_os p);
     Click.osVersion := None |}.

End UserAgent.

Import JsString Spec Store AnalyticsService.

(** ** The definitions on the inputs of [_testIPNormalization] and of the
    specification's scenarios *)

Example normalize_ipv6Mapped :
  _normalizeIpAddress (Some "::ffff:192.168.1.1") ∅ = "192.168.1.1".
Proof. reflexivity. Qed.

Example normalize_cloudflare :
  _normalizeIpAddress None (<["cf-connecting-ip" := "203.0.113.1"]> ∅)
  = "203.0.113.1".
Proof. vm_compute. reflexivity. Qed.

Example normalize_forwardedFor :
  _normalizeIpAddress None
    (<["x-forwarded-for" := "192.168.1.1, 203.0.113.1, 127.0.0.1"]> ∅)
  = "203.0.113.1".
Proof. vm_compute. reflexivity. Qed.

Example normalize_forwardedFor_private_only :
  _normalizeIpAddress None
    (<["x-forwarded-for" := " 10.0.0.7 , 192.168.1.1"]> ∅) = "10.0.0.7".
Proof. vm_compute. reflexivity. Qed.

Example isValidIPv4_examples :
  List.map isValidIPv4
    ["8.8.8.8"; "255.255.255.255"; "256.1.1.1"; "1.2.3"; "1.2.3.4 ";
     "01.002.3.4"; "1234.1.1.1"; ""]
  = [true; true; false; false; false; true; false; false].
Proof. vm_compute. reflexivity. Qed.

Example isPublicIP_examples :
  List.map _isPublicIP
    [Some "8.8.8.8"; Some "10.1.2.3"; Some "172.16.0.1"; Some "172.31.0.1";
     Some "172.32.0.1"; Some "192.168.1.100"; Some ""; None]
  = [true; false; false; false; true; false; false; false].
Proof. vm_compute. reflexivity. Qed.

Example detectBot_examples :
  List.map Click.detectBot
    ["Mozilla/5.0 (compatible; Googlebot/2.1)"; Examples.chrome;
     "curl/8.0"; "PostmanRuntime/7.32"; "Mozilla/5.0 FACEBOOK-app"]
  = [true; false; true; true; true].
Proof. vm_compute. reflexivity. Qed.

(** The first ingestion of the scenario of the specification: a desktop
    Chrome from 203.0.113.5 is no bot and is unique, and the live counters
    returned are those after the increment. *)
Example first_visit :
  fst (recordClick Examples.geoOn Examples.noParams 1000 noFaults
         (Examples.visit 1 "203.0.113.5" Examples.chrome) Examples.world)
  = Ok {| click :=
            {| Click.urlId := 1; Click.userId := None;
               Click.ipAddress := "203.0.113.5";
               Click.userAgent := Some Examples.chrome;
               Click.referrer := None; Click.location := None;
               Click.device := Click.defaultDevice; Click.isBot := false;
               Click.isUnique := true; Click.campaign := None;
               Click.sessionId := None; Click.loadTime := None;
               Click.clickedAt := 1000; Click.isNew := false |};
          redirectUrl := "https://example.org/";
          analytics := {| totalClicks := 1; uniqueClicks := 1;
                          isUnique := true |} |}.
Proof. vm_compute. reflexivity. Qed.

(** ** Strings and patterns *)

Module StringFacts.
Import JsString Regex Spec.

Lemma append_nil (b : string) : ("" ++ b)%string = b.
Proof. reflexivity. Qed.

Lemma append_cons (x : ascii) (a b : string) :
  (String x a ++ b)%string = String x (a ++ b)%string.
Proof. reflexivity. Qed.

Lemma append_assoc (a b c : string) :
  ((a ++ b) ++ c)%string = (a ++ b ++ c)%string.
Proof.
  induction a as [|x a IH]; [reflexivity|].
  now rewrite !append_cons, IH.
Qed.

Ltac string_simpl := rewrite ?append_nil, ?append_cons in *; simpl in *.

Lemma eatWhile_sound p max s k r :
  eatWhile p max s = (k, r) ->
  exists a : string,
    s = (a ++ r)%string /\ String.length a = k /\ (k <= max)%nat
    /\ allChars p a = true.
Proof.
  revert s k r. induction max as [|m IH]; intros s k r H.
  - destruct s; simpl in H; inversion H; subst;
      exists ""; repeat split; auto.
  - destruct s as [|c s']; simpl in H.
    + inversion H; subst. exists "". repeat split; auto with arith.
    + destruct (p c) eqn:Hc.
      * destruct (eatWhile p m s') as [k' r'] eqn:E.
        inversion H; subst.
        destruct (IH _ _ _ E) as (a & -> & Hl & Hk & Ha).
        exists (String c a). rewrite append_cons. simpl.
        rewrite Hc, Ha, Hl. repeat split; auto with arith.
      * inversion H; subst. exists "". repeat split; auto with arith.
Qed.

Lemma eatRange_sound p max s r :
  eatRange p max s = Some r ->
  exists a : string,
    s = (a ++ r)%string /\ (1 <= String.length a <= max)%nat
    /\ allChars p a = true.
Proof.
  unfold eatRange. destruct (eatWhile p max s) as [k r'] eqn:E.
  destruct k as [|k]; [discriminate|]. intros [= <-].
  destruct (eatWhile_sound _ _ _ _ _ E) as (a & -> & Hl & Hk & Ha).
  exists a. repeat split; auto; lia.
Qed.

Lemma eatChar_sound c s r : eatChar c s = Some r -> s = String c r.
Proof.
  destruct s as [|a s']; simpl; [discriminate|].
  destruct (Ascii.eqb_spec a c); [|discriminate]. now intros [= <-]; subst.
Qed.

Lemma eatWhile_complete p max (a r : string) :
  allChars p a = true -> (String.length a <= max)%nat -> stops p r ->
  eatWhile p max (a ++ r) = (String.length a, r).
Proof.
  revert max. induction a as [|c a IH]; intros max Ha Hl Hr;
    string_simpl.
  - destruct max; [reflexivity|]. destruct r; [reflexivity|].
    simpl in Hr. simpl. now rewrite Hr.
  - destruct max as [|m]; [lia|]. apply andb_true_iff in Ha as [Hc Ha].
    simpl. rewrite Hc, IH; auto. lia.
Qed.

Lemma eatRange_complete p max (a r : string) :
  allChars p a = true -> (1 <= String.length a <= max)%nat -> stops p r ->
  eatRange p max (a ++ r) = Some r.
Proof.
  intros Ha Hl Hr. unfold eatRange.
  rewrite eatWhile_complete by (auto; lia).
  destruct (String.length a) eqn:E; [lia | reflexivity].
Qed.

(** Splitting at dots, on text whose first piece has no dot. *)
Lemma split_no_sep sep (a : string) :
  allChars (fun c => negb (Ascii.eqb c sep)) a = true ->
  split sep a = [a].
Proof.
  induction a as [|c a IH]; simpl; [reflexivity|].
  intros H. apply andb_true_iff in H as [Hc Ha].
  apply negb_true_iff in Hc. rewrite Hc, (IH Ha). reflexivity.
Qed.

Lemma split_app_sep sep (a r : string) :
  allChars (fun c => negb (Ascii.eqb c sep)) a = true ->
  split sep (a ++ String sep r) = a :: split sep r.
Proof.
  induction a as [|c a IH]; string_simpl.
  - now rewrite Ascii.eqb_refl.
  - intros H. apply andb_true_iff in H as [Hc Ha].
    apply negb_true_iff in Hc. rewrite Hc, (IH Ha). reflexivity.
Qed.

Lemma allChars_weaken (p q : ascii -> bool) (a : string) :
  (forall c, p c = true -> q c = true) ->
  allChars p a = true -> allChars q a = true.
Proof.
  intros Hpq. induction a as [|c a IH]; simpl; [auto|].
  intros H. apply andb_true_iff in H as [Hc Ha].
  now rewrite (Hpq _ Hc), IH.
Qed.

Lemma digit_not_dot c : isDigit c = true -> negb (Ascii.eqb c ".") = true.
Proof.
  intros H. destruct (Ascii.eqb_spec c "."); [subst; discriminate | reflexivity].
Qed.

Lemma digits_no_dot (a : string) :
  allChars isDigit a = true ->
  allChars (fun c => negb (Ascii.eqb c ".")) a = true.
Proof. apply allChars_weaken, digit_not_dot. Qed.

End StringFacts.

(** ** The address pattern and [isValidIPv4] *)

Module Ipv4Facts.
Import JsString Regex Spec StringFacts AnalyticsService.

Lemma andThen_Some r f x :
  andThen r f = Some x -> exists s, r = Some s /\ f s = Some x.
Proof. destruct r as [s|]; simpl; [eauto | discriminate]. Qed.

Lemma group_sound (r x : string) :
  andThen (eatRange isDigit 3 r) (eatChar ".") = Some x ->
  exists a : string, r = (a ++ "." ++ x)%string /\ Digits3 a.
Proof.
  intros H. apply andThen_Some in H as (s & Hs & Hc).
  apply eatRange_sound in Hs as (a & -> & Hl & Ha).
  apply eatChar_sound in Hc as ->.
  exists a. split; [reflexivity | split; assumption].
Qed.

Lemma ipv4Regex_sound s :
  ipv4Regex s = true ->
  exists a b c d : string,
    s = dotted a b c d
    /\ Digits3 a /\ Digits3 b /\ Digits3 c /\ Digits3 d.
Proof.
  unfold ipv4Regex, atEnd. intros H.
  match type of H with
  | match ?o with _ => _ end = true => destruct o as [[|]|] eqn:E;
                                       try discriminate
  end.
  apply andThen_Some in E as (r3 & E & H4).
  apply andThen_Some in E as (r2 & E & H3).
  apply andThen_Some in E as (r1 & E & H2).
  apply andThen_Some in E as (r0 & [= <-] & H1).
  apply group_sound in H1 as (a & -> & Ha).
  apply group_sound in H2 as (b & -> & Hb).
  apply group_sound in H3 as (c & -> & Hc).
  apply eatRange_sound in H4 as (d & -> & Hd).
  exists a, b, c, d. unfold dotted.
  replace (d ++ "")%string with d.
  - repeat split; try apply Ha; try apply Hb; try apply Hc; apply Hd.
  - clear. induction d as [|x d IH]; [reflexivity|].
    now rewrite append_cons, <- IH.
Qed.

Lemma append_empty_r (d : string) : (d ++ "")%string = d.
Proof.
  induction d as [|x d IH]; [reflexivity|]. now rewrite append_cons, IH.
Qed.

Lemma group_complete (a x : string) :
  Digits3 a ->
  andThen (eatRange isDigit 3 (a ++ "." ++ x)) (eatChar ".") = Some x.
Proof.
  intros [Hl Ha].
  rewrite eatRange_complete by (try assumption; reflexivity).
  reflexivity.
Qed.

Lemma ipv4Regex_complete (a b c d : string) :
  Digits3 a -> Digits3 b -> Digits3 c -> Digits3 d ->
  ipv4Regex (dotted a b c d) = true.
Proof.
  intros Ha Hb Hc [Hl Hd]. unfold ipv4Regex, dotted.
  cbn [andThen]. rewrite (group_complete a); auto.
  cbn [andThen]. rewrite (group_complete b); auto.
  cbn [andThen]. rewrite (group_complete c); auto.
  cbn [andThen]. rewrite <- (append_empty_r d) at 1.
  rewrite eatRange_complete; auto. exact I.
Qed.

Lemma split_dotted (a b c d : string) :
  Digits3 a -> Digits3 b -> Digits3 c -> Digits3 d ->
  split "." (dotted a b c d) = [a; b; c; d].
Proof.
  intros [_ Ha] [_ Hb] [_ Hc] [_ Hd].
  change (dotted a b c d)
    with (a ++ String "." (b ++ String "." (c ++ String "." d)))%string.
  rewrite (split_app_sep "." a) by now apply digits_no_dot.
  rewrite (split_app_sep "." b) by now apply digits_no_dot.
  rewrite (split_app_sep "." c) by now apply digits_no_dot.
  rewrite (split_no_sep "." d) by now apply digits_no_dot. reflexivity.
Qed.

Lemma partInRange_Octet (a : string) :
  Digits3 a -> partInRange a = true <-> Octet a.
Proof.
  intros [Hl Ha]. unfold partInRange, Octet. split.
  - destruct (parseInt a) as [n|] eqn:E; [|discriminate].
    intros H. apply andb_true_iff in H as [_ H]. apply N.leb_le in H.
    repeat split; try lia; try assumption. exists n. auto.
  - intros (_ & _ & n & -> & Hn).
    apply andb_true_iff. split; [apply N.leb_le; lia | now apply N.leb_le].
Qed.

(** [isValidIPv4] accepts exactly the dotted quads. *)
Lemma isValidIPv4_spec (s : string) :
  isValidIPv4 s = true <-> DottedQuad s.
Proof.
  unfold isValidIPv4. fold partInRange. split.
  - destruct (ipv4Regex s) eqn:E; [|discriminate]. simpl.
    apply ipv4Regex_sound in E as (a & b & c & d & -> & Ha & Hb & Hc & Hd).
    rewrite split_dotted by assumption. simpl.
    rewrite !andb_true_iff. intros (Pa & Pb & Pc & Pd & _).
    exists a, b, c, d. split; [reflexivity|].
    repeat split; now apply partInRange_Octet.
  - intros (a & b & c & d & -> & Oa & Ob & Oc & Od).
    assert (Ha : Digits3 a) by (split; apply Oa).
    assert (Hb : Digits3 b) by (split; apply Ob).
    assert (Hc : Digits3 c) by (split; apply Oc).
    assert (Hd : Digits3 d) by (split; apply Od).
    fold (dotted a b c d).
    rewrite ipv4Regex_complete by assumption. simpl.
    rewrite split_dotted by assumption. simpl.
    rewrite !andb_true_iff.
    repeat split; now apply partInRange_Octet.
Qed.

End Ipv4Facts.

(** ** The IP normaliser *)

Module NormalizerFacts.
Import JsString Regex Spec StringFacts Ipv4Facts AnalyticsService.

Lemma firstValid_valid l s :
  firstValid l = Some s -> isValidIPv4 s = true.
Proof.
  induction l as [|c l IH]; simpl; [discriminate|].
  destruct (isValidIPv4 (normalizeCandidate c)) eqn:E; [|exact IH].
  now intros [= <-].
Qed.

Lemma firstValid_none l :
  Forall (fun c => isValidIPv4 (normalizeCandidate c) = false) l ->
  firstValid l = None.
Proof.
  induction 1 as [|c l Hc _ IH]; simpl; [reflexivity|]. now rewrite Hc.
Qed.

Lemma valid_starts_with_digit s :
  isValidIPv4 s = true ->
  exists c r, s = String c r /\ isDigit c = true.
Proof.
  unfold isValidIPv4. destruct (ipv4Regex s) eqn:E; [|discriminate].
  intros _.
  apply ipv4Regex_sound in E as (a & b & c & d & -> & [Hl Ha] & _).
  destruct a as [|x a]; [simpl in Hl; lia|].
  simpl in Ha. apply andb_true_iff in Ha as [Hx _].
  exists x. eexists. split; [|exact Hx]. unfold dotted.
  rewrite append_cons. reflexivity.
Qed.

Lemma startsWith_other_head (c a : ascii) (r p : string) :
  c <> a -> startsWith (String c r) (String a p) = false.
Proof.
  intros Hne. unfold startsWith.
  change (String.prefix (String a p) (String c r))
    with (if ascii_dec a c then String.prefix p r else false).
  destruct (ascii_dec a c); [congruence | reflexivity].
Qed.

Lemma eqb_other_head (c a : ascii) (r p : string) :
  c <> a -> String.eqb (String c r) (String a p) = false.
Proof.
  intros Hne. apply String.eqb_neq. congruence.
Qed.

Lemma digit_is_not (c a : ascii) :
  isDigit c = true -> isDigit a = false -> c <> a.
Proof. intros Hc Ha ->. congruence. Qed.

(** A valid address is its own normal form. *)
Lemma normalizeCandidate_valid s :
  isValidIPv4 s = true -> normalizeCandidate s = s.
Proof.
  intros H. destruct (valid_starts_with_digit _ H) as (c & r & -> & Hc).
  unfold normalizeCandidate.
  rewrite startsWith_other_head
    by (eapply digit_is_not; [exact Hc | reflexivity]).
  rewrite eqb_other_head
    by (eapply digit_is_not; [exact Hc | reflexivity]).
  rewrite eqb_other_head
    by (eapply digit_is_not; [exact Hc | reflexivity]).
  reflexivity.
Qed.

Lemma ipSources_direct (c : ascii) (r : string) headers :
  exists rest, ipSources (Some (String c r)) headers = String c r :: rest.
Proof. unfold ipSources. simpl. eauto. Qed.

End NormalizerFacts.


(** C5.  [_normalizeIpAddress] is a total function (it cannot throw) whose
    result is always a syntactically valid IPv4 address; a raw candidate
    that is one already is returned unchanged; ["::1"] and ["localhost"]
    give ["127.0.0.1"]; and when no source has a valid normal form the
    result is ["127.0.0.1"]. *)
Theorem normalizeIpAddress_valid_or_loopback :
  (forall ip headers, DottedQuad (_normalizeIpAddress ip headers))
  /\ (forall s headers,
        DottedQuad s -> _normalizeIpAddress (Some s) headers = s)
  /\ (forall headers,
        _normalizeIpAddress (Some "::1") headers = "127.0.0.1"
        /\ _normalizeIpAddress (Some "localhost") headers = "127.0.0.1")
  /\ (forall ip headers,
        Forall (fun c => ~ DottedQuad (normalizeCandidate c))
               (ipSources ip headers) ->
        _normalizeIpAddress ip headers = "127.0.0.1").
Proof.
  split; [|split; [|split]].
  - intros ip headers. apply Ipv4Facts.isValidIPv4_spec.
    unfold _normalizeIpAddress.
    destruct (firstValid (ipSources ip headers)) as [s|] eqn:E; simpl.
    + eapply NormalizerFacts.firstValid_valid, E.
    + reflexivity.
  - intros s headers Hs. apply Ipv4Facts.isValidIPv4_spec in Hs.
    destruct (NormalizerFacts.valid_starts_with_digit _ Hs)
      as (c & r & -> & _).
    destruct (NormalizerFacts.ipSources_direct c r headers) as [rest E].
    unfold _normalizeIpAddress. rewrite E. simpl.
    rewrite (NormalizerFacts.normalizeCandidate_valid _ Hs), Hs.
    reflexivity.
  - intros headers. unfold _normalizeIpAddress. split.
    + destruct (NormalizerFacts.ipSources_direct ":" ":1" headers)
        as [rest ->].
      reflexivity.
    + destruct (NormalizerFacts.ipSources_direct "l" "ocalhost" headers)
        as [rest ->].
      reflexivity.
  - intros ip headers H. unfold _normalizeIpAddress.
    rewrite NormalizerFacts.firstValid_none; [reflexivity|].
    eapply Forall_impl; [exact H|]. simpl. intros c Hc.
    destruct (isValidIPv4 (normalizeCandidate c)) eqn:E; [|reflexivity].
    exfalso. now apply Hc, Ipv4Facts.isValidIPv4_spec.
Qed.

(** On a public address, and on a candidate and a header that are no
    addresses. *)
Lemma normalizeIpAddress_valid_or_loopback_witness :
  _normalizeIpAddress (Some "203.0.113.5") ∅ = "203.0.113.5"
  /\ _normalizeIpAddress (Some "not-an-address")
       (<["x-real-ip" := "300.1.1.1"]> ∅) = "127.0.0.1".
Proof.
  split.
  - apply (proj1 (proj2 normalizeIpAddress_valid_or_loopback)).
    apply Ipv4Facts.isValidIPv4_spec. vm_compute. reflexivity.
  - apply (proj2 (proj2 (proj2 normalizeIpAddress_valid_or_loopback))).
    let l := eval vm_compute in
      (ipSources (Some "not-an-address") (<["x-real-ip" := "300.1.1.1"]> ∅))
    in change (ipSources (Some "not-an-address")
                 (<["x-real-ip" := "300.1.1.1"]> ∅)) with l.
    repeat constructor; intros H; apply Ipv4Facts.isValidIPv4_spec in H;
      vm_compute in H; discriminate.
Defined.

(** ** Case-insensitive search and the bot detector *)

Module BotFacts.
Import JsString Regex Spec StringFacts.

Lemma append_eq_empty (a b : string) :
  (a ++ b)%string = "" -> a = "" /\ b = "".
Proof.
  destruct a; [now rewrite append_nil | rewrite append_cons; discriminate].
Qed.

Lemma prefix_cons (a c : ascii) (p s : string) :
  String.prefix (String a p) (String c s)
  = if ascii_dec a c then String.prefix p s else false.
Proof. reflexivity. Qed.

Lemma prefix_app (p s : string) :
  String.prefix p s = true -> exists r : string, s = (p ++ r)%string.
Proof.
  revert s. induction p as [|a p IH]; intros s H.
  - exists s. reflexivity.
  - destruct s as [|c s]; [discriminate|]. rewrite prefix_cons in H.
    destruct (ascii_dec a c) as [->|]; [|discriminate].
    destruct (IH _ H) as [r ->]. exists r. now rewrite append_cons.
Qed.

(** [p] is a prefix of the folded input exactly when the input begins
    with a text that folds to [p]. *)
Lemma prefix_toLower (p s : string) :
  String.prefix p (toLower s) = true
  <-> exists found after : string,
        s = (found ++ after)%string /\ toLower found = p.
Proof.
  revert s. induction p as [|a p IH]; intros s.
  - split; [|destruct (toLower s); reflexivity].
    intros _. exists "", s. split; reflexivity.
  - destruct s as [|c s].
    + split; [discriminate|].
      intros (found & after & E & L). symmetry in E.
      apply append_eq_empty in E as [-> _]. discriminate.
    + simpl toLower. rewrite prefix_cons. split.
      * destruct (ascii_dec a (toLowerAscii c)) as [->|]; [|discriminate].
        intros H. apply IH in H as (found & after & -> & <-).
        exists (String c found), after. split; reflexivity.
      * intros (found & after & E & L).
        destruct found as [|x found]; [discriminate|].
        rewrite append_cons in E. injection E as -> ->.
        simpl in L. injection L as -> <-.
        destruct (ascii_dec _ _); [|congruence].
        apply IH. eauto.
Qed.

(** The search finds [p] exactly when [p] occurs up to case. *)
Lemma searchIgnoreCase_spec (p s : string) :
  searchIgnoreCase p s = true <-> OccursIgnoringCase p s.
Proof.
  unfold OccursIgnoringCase. induction s as [|c s IH].
  - change (searchIgnoreCase p "")
      with (String.prefix p (toLower "") || false).
    rewrite orb_false_r, prefix_toLower. split.
    + intros (found & after & E & L). exists "", found, after. auto.
    + intros (before & found & after & E & L). symmetry in E.
      apply append_eq_empty in E as [-> E]. eauto.
  - change (searchIgnoreCase p (String c s))
      with (String.prefix p (toLower (String c s))
            || searchIgnoreCase p s).
    rewrite orb_true_iff, prefix_toLower, IH.
    split.
    + intros [(found & after & E & L)|(before & found & after & E & L)].
      * exists "", found, after. auto.
      * exists (String c before), found, after.
        rewrite append_cons, E. auto.
    + intros (before & found & after & E & L).
      destruct before as [|x before].
      * left. rewrite append_nil in E. eauto.
      * right. rewrite append_cons in E. injection E as -> ->. eauto.
Qed.

(** [detectBot] holds exactly when one of the patterns occurs. *)
Lemma detectBot_spec (ua : string) :
  Click.detectBot ua = true
  <-> exists p, In p Click.botPatterns /\ OccursIgnoringCase p ua.
Proof.
  unfold Click.detectBot. rewrite existsb_exists.
  split; intros (p & Hp & H); exists p; split; auto;
    now apply searchIgnoreCase_spec.
Qed.

End BotFacts.

(** ** The geolocation hook *)

Module GeoFacts.
Import JsString Regex StringFacts.

Lemma local_is_truthy (ip : string) :
  Click.isLocalOrPrivate ip = true -> truthy (Some ip) = true.
Proof. destruct ip; [discriminate | reflexivity]. Qed.

Lemma geolocationHook_local (env : Click.Env) (d : Click.Doc) :
  Click.isNew d = true -> Click.enableGeolocation env = true ->
  Click.isLocalOrPrivate (Click.ipAddress d) = true ->
  Click.geolocationHook env d
  = (Click.set_location (Some Click.localPrivateLocation) d, []).
Proof.
  intros Hn He Hl. unfold Click.geolocationHook.
  now rewrite Hn, He, (local_is_truthy _ Hl), Hl.
Qed.

Lemma geolocationHook_disabled (env : Click.Env) (d : Click.Doc) :
  Click.enableGeolocation env = false ->
  Click.geolocationHook env d = (d, []).
Proof.
  intros He. unfold Click.geolocationHook.
  now rewrite He, andb_false_r.
Qed.

(** On the addresses that begin with ["172."], [_isPublicIP] is decided
    by the pattern of 172.16.0.0/12 alone. *)
Lemma isPublicIP_172 (ip : string) :
  startsWith ip "172." = true ->
  _isPublicIP (Some ip) = negb (private172Regex ip).
Proof.
  intros H. apply BotFacts.prefix_app in H as [r ->].
  change ("172." ++ r)%string
    with (String "1" (String "7" (String "2" (String "." r)))).
  unfold _isPublicIP, privateRanges. cbn [existsb].
  set (x := private172Regex _).
  cbv -[x negb orb]. now rewrite orb_false_r.
Qed.

End GeoFacts.

(** ** The ingestion pipeline, step by step *)

Module RecordFacts.
Import Pipeline.
Lemma find_is_Some {A} (p : A -> bool) (l : list A) :
  bool_decide (is_Some (List.find p l)) = existsb p l.
Proof.
  induction l as [|x l IH]; simpl; [reflexivity|].
  destruct (p x); [reflexivity | exact IH].
Qed.

Lemma isUniqueClick_run f u ip w :
  ClickModel.isUniqueClick f u ip w = (Ok (uniqueFlag f u ip w), w).
Proof.
  unfold ClickModel.isUniqueClick, uniqueFlag, tryCatch, bind,
    Click_findOne, call, throw, ret.
  destruct (click_findOne f); [reflexivity|].
  now rewrite find_is_Some.
Qed.

Section Pipeline.
Variable env : Click.Env.
Variable searchParams : string -> option (list (string * string)).

Lemma recordClick_run now f d w :
  recordClick env searchParams now f d w
  = recordClick_cases env searchParams now f d w.
Proof.
  unfold recordClick, recordClick_cases, tryCatch.
  unfold bind at 1. unfold URL_findById, call.
  destruct (url_findById f) as [e|]; [reflexivity|].
  cbv beta iota. simpl fst. simpl snd.
  destruct (urls w !! urlId d) as [url|]; [|reflexivity].
  destruct (isActive url); [|reflexivity].
  change (negb true) with false. cbv iota.
  destruct (isExpired url); [reflexivity|].
  unfold bind at 1. rewrite isUniqueClick_run.
  fold (prepared searchParams d
          (_normalizeIpAddress (ipAddress d) (default ∅ (headers d)))
          (uniqueFlag f (urlId d)
             (_normalizeIpAddress (ipAddress d)
                                  (default ∅ (headers d))) w)).
  set (unique := uniqueFlag _ _ _ _).
  set (c0 := prepared _ _ _ _).
  unfold bind at 1. unfold ClickModel.save.
  destruct (Click.validate c0) as [m|]; [reflexivity|].
  unfold persisted.
  destruct (Click.geolocationHook env c0) as [d1 looked]. simpl fst. simpl snd.
  unfold bind at 1. unfold logLookups at 1.
  unfold Click_insert, call.
  destruct (click_insert f) as [e|]; [reflexivity|].
  unfold bind, _updateUrlStats, _updateUserStats, tryCatch,
    URL_findByIdAndUpdate, User_findByIdAndUpdate, call, throw, ret,
    afterUrlStats, afterUserStats.
  destruct (url_findByIdAndUpdate f), (owner url),
    (user_findByIdAndUpdate f); reflexivity.
Qed.

End Pipeline.
End RecordFacts.

(** ** The document that is stored *)

Module DocFacts.

Section Doc.
Variable env : Click.Env.
Variable searchParams : string -> option (list (string * string)).

Lemma prepared_fields d ip unique :
  let c := Pipeline.prepared searchParams d ip unique in
  Click.urlId c = urlId d /\ Click.ipAddress c = ip
  /\ Click.isUnique c = unique /\ Click.userAgent c = userAgent d
  /\ Click.isBot c = false /\ Click.isNew c = true.
Proof.
  unfold Pipeline.prepared.
  destruct (JsString.truthy (referrer d)); [|now repeat split].
  destruct (referrer d ≫= _extractCampaignData searchParams);
    now repeat split.
Qed.

Lemma geolocationHook_fields c :
  let c' := fst (Click.geolocationHook env c) in
  Click.urlId c' = Click.urlId c
  /\ Click.ipAddress c' = Click.ipAddress c
  /\ Click.isUnique c' = Click.isUnique c
  /\ Click.userAgent c' = Click.userAgent c
  /\ Click.isBot c' = Click.isBot c /\ Click.isNew c' = Click.isNew c.
Proof.
  unfold Click.geolocationHook.
  destruct (Click.isNew c && Click.enableGeolocation env
            && JsString.truthy (Some (Click.ipAddress c)));
    [|now repeat split].
  destruct (Click.isLocalOrPrivate (Click.ipAddress c));
    [now repeat split|].
  destruct (Click.geoip_lookup env (Click.ipAddress c));
    now repeat split.
Qed.

Lemma botHook_fields c :
  let c' := Click.botHook c in
  Click.urlId c' = Click.urlId c
  /\ Click.ipAddress c' = Click.ipAddress c
  /\ Click.isUnique c' = Click.isUnique c.
Proof.
  unfold Click.botHook.
  destruct (Click.isNew c && JsString.truthy (Click.userAgent c));
    [|now repeat split].
  destruct (Click.userAgent c); now repeat split.
Qed.

(** The pair and the uniqueness flag of a document go through [save]
    untouched. *)
Lemma persisted_fields now c :
  let c' := Pipeline.persisted env now c in
  Click.urlId c' = Click.urlId c
  /\ Click.ipAddress c' = Click.ipAddress c
  /\ Click.isUnique c' = Click.isUnique c.
Proof.
  unfold Pipeline.persisted. simpl.
  destruct (botHook_fields (fst (Click.geolocationHook env c)))
    as (-> & -> & ->).
  destruct (geolocationHook_fields c) as (-> & -> & -> & _).
  now repeat split.
Qed.

(** The bot flag of the stored document of a new click with a
    non-empty user agent is what [detectBot] says. *)
Lemma persisted_isBot now c (ua : string) :
  Click.isNew c = true -> Click.userAgent c = Some ua -> ua <> "" ->
  Click.isBot (Pipeline.persisted env now c) = Click.detectBot ua.
Proof.
  intros Hn Hu Hne. unfold Pipeline.persisted. simpl.
  destruct (geolocationHook_fields c) as (_ & _ & _ & Hu' & _ & Hn').
  unfold Click.botHook. rewrite Hn', Hn, Hu', Hu.
  destruct ua; [congruence | reflexivity].
Qed.

End Doc.
End DocFacts.

(** * Properties of the ingestion pipeline *)

(** C3.  When the lookup of the target URL finds no document, an inactive
    one or an expired one, [recordClick] throws and the world is exactly
    the one it started in: no click is stored, no counter is changed.  A
    missing and an inactive URL give the same message; an expired one is
    reported as expired. *)
Theorem recordClick_unavailable_url_no_write
    (env : Click.Env) (searchParams : string -> option (list (string * string)))
    (now : Instant) (f : Faults) (d : ClickData) (w : World) :
  url_findById f = None ->
  (urls w !! urlId d = None
   \/ exists url, urls w !! urlId d = Some url
                  /\ (isActive url = false \/ isExpired url = true)) ->
  exists message,
    recordClick env searchParams now f d w
    = (Throw ("Click recording failed: " ++ message), w)
    /\ (message = "URL not found or inactive"
        \/ message = "URL has expired").
Proof.
  intros Hf H. rewrite RecordFacts.recordClick_run.
  unfold Pipeline.recordClick_cases. rewrite Hf.
  destruct H as [-> | (url & -> & H)]; [eauto|].
  destruct (isActive url) eqn:Ha; simpl; [|eauto].
  destruct H as [H | ->]; [discriminate | eauto].
Qed.

(** On the inactive URL 2, the expired URL 3 and the missing URL 4. *)
Lemma recordClick_unavailable_url_no_write_witness :
  (exists message,
     recordClick Examples.geoOn Examples.noParams 1000 noFaults
       (Examples.visit 2 "203.0.113.5" Examples.chrome) Examples.world
     = (Throw ("Click recording failed: " ++ message), Examples.world)
     /\ (message = "URL not found or inactive"
         \/ message = "URL has expired"))
  /\ (exists message,
        recordClick Examples.geoOn Examples.noParams 1000 noFaults
          (Examples.visit 3 "203.0.113.5" Examples.chrome) Examples.world
        = (Throw ("Click recording failed: " ++ message), Examples.world)
        /\ (message = "URL not found or inactive"
            \/ message = "URL has expired"))
  /\ (exists message,
        recordClick Examples.geoOn Examples.noParams 1000 noFaults
          (Examples.visit 4 "203.0.113.5" Examples.chrome) Examples.world
        = (Throw ("Click recording failed: " ++ message), Examples.world)
        /\ (message = "URL not found or inactive"
            \/ message = "URL has expired")).
Proof.
  split; [|split].
  - apply recordClick_unavailable_url_no_write; [reflexivity|].
    right. exists (Examples.url false false).
    split; [reflexivity | left; reflexivity].
  - apply recordClick_unavailable_url_no_write; [reflexivity|].
    right. exists (Examples.url true true).
    split; [reflexivity | right; reflexivity].
  - apply recordClick_unavailable_url_no_write; [reflexivity|].
    left. reflexivity.
Defined.

(** C9.  When the lookup of a prior click fails, [isUniqueClick] answers
    [false] instead of throwing, whatever the collection holds, and a click
    that [recordClick] then records is stored with [isUnique = false]. *)
Theorem failed_lookup_records_non_unique
    (env : Click.Env) (searchParams : string -> option (list (string * string)))
    (now : Instant) (f : Faults) (d : ClickData) (w : World)
    (e : string) :
  click_findOne f = Some e ->
  (forall u ip, ClickModel.isUniqueClick f u ip w = (Ok false, w))
  /\ (forall r w',
        recordClick env searchParams now f d w = (Ok r, w') ->
        Click.isUnique (click r) = false
        /\ isUnique (analytics r) = false
        /\ In (click r) (clicks w')).
Proof.
  intros Hf. split.
  - intros u ip. rewrite RecordFacts.isUniqueClick_run.
    unfold Pipeline.uniqueFlag. now rewrite Hf.
  - intros r w'. rewrite RecordFacts.recordClick_run.
    unfold Pipeline.recordClick_cases, Pipeline.uniqueFlag.
    rewrite Hf.
    destruct (url_findById f); [discriminate|].
    destruct (urls w !! urlId d) as [url|]; [|discriminate].
    destruct (negb (isActive url)); [discriminate|].
    destruct (isExpired url); [discriminate|].
    destruct (Click.validate _); [discriminate|].
    destruct (click_insert f); [discriminate|].
    intros [= <- <-]. simpl click. simpl analytics.
    destruct (DocFacts.persisted_fields env now
                (Pipeline.prepared searchParams d
                   (_normalizeIpAddress (ipAddress d)
                                        (default ∅ (headers d))) false))
      as (_ & _ & ->).
    destruct (DocFacts.prepared_fields searchParams d
                (_normalizeIpAddress (ipAddress d) (default ∅ (headers d)))
                false) as (_ & _ & -> & _).
    repeat split.
    unfold Pipeline.afterUserStats, Pipeline.afterUrlStats.
    destruct (owner url), (user_findByIdAndUpdate f),
      (url_findByIdAndUpdate f); simpl; apply in_or_app; right; now left.
Qed.

(** The very first click of a pair, recorded while the lookup fails. *)
Lemma failed_lookup_records_non_unique_witness :
  exists r w',
    recordClick Examples.geoOn Examples.noParams 1000 Examples.findOneFails
      (Examples.visit 1 "203.0.113.5" Examples.chrome) Examples.world
    = (Ok r, w')
    /\ clicks Examples.world = []
    /\ Click.isUnique (click r) = false.
Proof.
  eexists. eexists. split; [|split].
  - vm_compute. reflexivity.
  - reflexivity.
  - eapply (proj2 (failed_lookup_records_non_unique
                     Examples.geoOn Examples.noParams 1000
                     Examples.findOneFails
                     (Examples.visit 1 "203.0.113.5" Examples.chrome)
                     Examples.world "connection lost" eq_refl)).
    vm_compute. reflexivity.
Defined.

(** ** The analytics queries, with their calls run *)

Module QueryFacts.
Import Pipeline.

Lemma getUrlAnalytics_run now f u options w :
  ClickModel.getUrlAnalytics now f u options w
  = (match click_aggregate f with
     | Some e => Throw ("Click analytics generation failed: " ++ e)
     | None => Ok (reportOn now options (selected now u options (clicks w)))
     end, w).
Proof.
  unfold ClickModel.getUrlAnalytics, tryCatch, bind, Click_aggregate,
    call, throw, ret.
  destruct (click_aggregate f); reflexivity.
Qed.

Lemma getRealTimeStats_empty now f minutes w :
  click_aggregate f = None ->
  recent now minutes (clicks w) = [] ->
  ClickModel.getRealTimeStats now f minutes w
  = (Ok ClickModel.zeroRealTimeStats, w).
Proof.
  intros Hf He.
  unfold ClickModel.getRealTimeStats, tryCatch, bind, Click_aggregate,
    call, throw, ret. rewrite Hf.
  unfold ClickModel.realTimePipeline. unfold recent in He.
  rewrite He. reflexivity.
Qed.

Lemma world_unchanged_by_queries now f u options minutes w :
  snd (ClickModel.getUrlAnalytics now f u options w) = w
  /\ snd (ClickModel.getRealTimeStats now f minutes w) = w.
Proof.
  split; [now rewrite getUrlAnalytics_run|].
  unfold ClickModel.getRealTimeStats, tryCatch, bind, Click_aggregate,
    call, throw, ret.
  destruct (click_aggregate f); [reflexivity|].
  destruct (ClickModel.realTimePipeline _ _ _); reflexivity.
Qed.

End QueryFacts.

(** C10.  A click recorded with a non-empty user agent is stored with
    [isBot = true] exactly when one of the fourteen patterns occurs in the
    user agent up to case.  In particular a user agent that merely contains
    "google" or "facebook" is a bot, and a bot click added to the
    collection changes nothing in the report of [getUrlAnalytics] under its
    default options, which exclude bots, nor in [getRealTimeStats], which
    always excludes them. *)
Theorem bot_flag_is_pattern_occurrence
    (env : Click.Env) (searchParams : string -> option (list (string * string))) :
  (forall now f d w r w' (ua : string),
      userAgent d = Some ua -> ua <> "" ->
      recordClick env searchParams now f d w = (Ok r, w') ->
      In (click r) (clicks w')
      /\ (Click.isBot (click r) = true
          <-> exists p,
                In p ["bot"; "crawl"; "spider"; "scrape"; "google"; "bing";
                      "yahoo"; "baidu"; "facebook"; "twitter"; "linkedin";
                      "curl"; "wget"; "postman"]
                /\ OccursIgnoringCase p ua))
  /\ (forall ua : string,
        OccursIgnoringCase "google" ua \/ OccursIgnoringCase "facebook" ua ->
        Click.detectBot ua = true)
  /\ (forall now f u options w (c : Click.Doc),
        ClickModel.excludeBots options = None ->
        Click.isBot c = true ->
        fst (ClickModel.getUrlAnalytics now f u options
               (set_clicks (clicks w ++ [c]) w))
        = fst (ClickModel.getUrlAnalytics now f u options w))
  /\ (forall now f minutes w (c : Click.Doc),
        Click.isBot c = true ->
        fst (ClickModel.getRealTimeStats now f minutes
               (set_clicks (clicks w ++ [c]) w))
        = fst (ClickModel.getRealTimeStats now f minutes w)).
Proof.
  split; [|split; [|split]].
  - intros now f d w r w' ua Hu Hne.
    rewrite RecordFacts.recordClick_run.
    unfold Pipeline.recordClick_cases.
    destruct (url_findById f); [discriminate|].
    destruct (urls w !! urlId d) as [url|]; [|discriminate].
    destruct (negb (isActive url)); [discriminate|].
    destruct (isExpired url); [discriminate|].
    destruct (Click.validate _); [discriminate|].
    destruct (click_insert f); [discriminate|].
    intros [= <- <-]. simpl click.
    set (ip := _normalizeIpAddress _ _).
    set (unique := Pipeline.uniqueFlag _ _ _ _).
    destruct (DocFacts.prepared_fields searchParams d ip unique)
      as (_ & _ & _ & Hua & _ & Hnew).
    split.
    + unfold Pipeline.afterUserStats, Pipeline.afterUrlStats.
      destruct (owner url), (user_findByIdAndUpdate f),
        (url_findByIdAndUpdate f); simpl; apply in_or_app; right; now left.
    + rewrite (DocFacts.persisted_isBot env now _ ua Hnew);
        [|now rewrite Hua | assumption].
      apply BotFacts.detectBot_spec.
  - intros ua H. apply BotFacts.detectBot_spec.
    destruct H as [H|H]; [exists "google" | exists "facebook"];
      (split; [simpl; tauto | exact H]).
  - intros now f u options w c Ho Hc.
    rewrite !QueryFacts.getUrlAnalytics_run. simpl fst. simpl clicks.
    unfold Pipeline.selected. rewrite List.filter_app. simpl List.filter.
    unfold ClickModel.matchStage at 2. rewrite Ho, Hc. simpl.
    rewrite andb_false_r, app_nil_r. reflexivity.
  - intros now f minutes w c Hc.
    unfold ClickModel.getRealTimeStats, tryCatch, bind, Click_aggregate,
      call.
    destruct (click_aggregate f); [reflexivity|].
    unfold ClickModel.realTimePipeline.
    cbn [clicks set_clicks]. rewrite List.filter_app. simpl List.filter.
    rewrite Hc. simpl negb. rewrite andb_false_r, app_nil_r.
    destruct (Mongo.projectAll _ _) as [stats|e]; reflexivity.
Qed.

(** A desktop Chrome with a toolbar whose name contains "Google". *)
Lemma bot_flag_is_pattern_occurrence_witness :
  exists r w',
    recordClick Examples.geoOn Examples.noParams 1000 noFaults
      (Examples.visit 1 "203.0.113.5"
         "Mozilla/5.0 (Windows NT 10.0) Chrome/115.0 GoogleToolbar")
      Examples.world = (Ok r, w')
    /\ (Click.isBot (click r) = true
        <-> exists p,
              In p ["bot"; "crawl"; "spider"; "scrape"; "google"; "bing";
                    "yahoo"; "baidu"; "facebook"; "twitter"; "linkedin";
                    "curl"; "wget"; "postman"]
              /\ OccursIgnoringCase p
                   "Mozilla/5.0 (Windows NT 10.0) Chrome/115.0 GoogleToolbar")
    /\ Click.isBot (click r) = true.
Proof.
  eexists. eexists. split; [|split].
  - vm_compute. reflexivity.
  - eapply (proj1 (bot_flag_is_pattern_occurrence
                     Examples.geoOn Examples.noParams)
                  1000%Z noFaults
                  (Examples.visit 1 "203.0.113.5"
                     "Mozilla/5.0 (Windows NT 10.0) Chrome/115.0 GoogleToolbar")
                  Examples.world).
    + reflexivity.
    + discriminate.
    + vm_compute. reflexivity.
  - reflexivity.
Defined.

(** * Properties of the aggregation queries *)

(** C6.  When no click passes the match stage, [getUrlAnalytics] returns
    the overview with every counter zero and [averageLoadTime] zero and
    every facet empty, and [getRealTimeStats] over a window that selects no
    click returns the all-zero statistics; both return normally and leave
    the world alone. *)
Theorem empty_selection_gives_zeroes :
  (forall now f u options w,
      click_aggregate f = None ->
      List.filter
        (ClickModel.matchStage u
           (default (now - ClickModel.days 30)%Z
                    (ClickModel.startDate options))
           (default now (ClickModel.endDate options))
           (default true (ClickModel.excludeBots options)))
        (clicks w) = [] ->
      ClickModel.getUrlAnalytics now f u options w
      = (Ok {| ClickModel.overview :=
                 {| ClickModel.totalClicks := 0;
                    ClickModel.uniqueClicks := 0;
                    ClickModel.botClicks := 0;
                    ClickModel.averageLoadTime := Some 0%Q |};
               ClickModel.byCountry := [];
               ClickModel.byDevice := [];
               ClickModel.byBrowser := [];
               ClickModel.byReferrer := [];
               ClickModel.clicksByHour := [];
               ClickModel.clicksByDay := [];
               ClickModel.dateRange :=
                 (default (now - ClickModel.days 30)%Z
                          (ClickModel.startDate options),
                  default now (ClickModel.endDate options)) |}, w))
  /\ (forall now f minutes w,
        click_aggregate f = None ->
        List.filter
          (fun d => ((now - default 60 minutes * 60 * 1000
                      <=? Click.clickedAt d)%Z)
                    && negb (Click.isBot d))
          (clicks w) = [] ->
        ClickModel.getRealTimeStats now f minutes w
        = (Ok {| ClickModel.recentClicks := 0;
                 ClickModel.activeUrls := 0;
                 ClickModel.activeCountries := 0;
                 ClickModel.avgClicksPerMinute := 0%Q |}, w)).
Proof.
  split.
  - intros now f u options w Hf He.
    rewrite QueryFacts.getUrlAnalytics_run, Hf.
    unfold Pipeline.selected. rewrite He. reflexivity.
  - intros now f minutes w Hf He.
    now apply QueryFacts.getRealTimeStats_empty.
Qed.

(** A collection with one click of URL 1: the report on URL 2, and the
    statistics of a window of zero minutes long after the click. *)
Lemma empty_selection_gives_zeroes_witness :
  fst (ClickModel.getUrlAnalytics 1000 noFaults 2 ClickModel.defaultOptions
         (set_clicks [Examples.storedClick 500] Examples.world))
  = Ok (Pipeline.reportOn 1000 ClickModel.defaultOptions [])
  /\ fst (ClickModel.getRealTimeStats 100000000 noFaults (Some 0%Z)
            (set_clicks [Examples.storedClick 500] Examples.world))
     = Ok ClickModel.zeroRealTimeStats.
Proof.
  split.
  - rewrite (proj1 empty_selection_gives_zeroes 1000%Z noFaults 2%N
               ClickModel.defaultOptions
               (set_clicks [Examples.storedClick 500] Examples.world)
               eq_refl eq_refl).
    reflexivity.
  - rewrite (proj2 empty_selection_gives_zeroes 100000000%Z noFaults
               (Some 0%Z)
               (set_clicks [Examples.storedClick 500] Examples.world)
               eq_refl eq_refl).
    reflexivity.
Defined.

(** * Properties of the enrichment hooks *)

(** C8, as stated, fails: with [config.enableGeolocation] off the hook
    leaves a new click from 192.168.1.1 without any location. *)
Lemma geolocation_off_assigns_no_placeholder :
  ~ (forall (env : Click.Env) (d : Click.Doc),
        Click.isNew d = true ->
        Click.isLocalOrPrivate (Click.ipAddress d) = true ->
        Click.location (fst (Click.geolocationHook env d))
        = Some Click.localPrivateLocation).
Proof.
  intros H.
  specialize (H Examples.geoOff
                (Pipeline.prepared Examples.noParams
                   (Examples.visit 1 "192.168.1.1" Examples.chrome)
                   "192.168.1.1" true) eq_refl eq_refl).
  vm_compute in H. discriminate.
Qed.

(** C8, amended.  With geolocation enabled, a new click whose address is
    ["127.0.0.1"] or ["::1"] or begins with ["192.168."], ["10."] or
    ["172."] gets the fixed Local/Private location and the geoip database
    is not asked; this holds for every address that begins with ["172."],
    also when it lies outside 172.16.0.0/12, where [_isPublicIP] says
    public, as for 172.32.0.1. *)
Theorem local_addresses_get_placeholder
    (env : Click.Env) (d : Click.Doc) :
  Click.isNew d = true ->
  Click.enableGeolocation env = true ->
  (Click.ipAddress d = "127.0.0.1" \/ Click.ipAddress d = "::1"
   \/ startsWith (Click.ipAddress d) "192.168." = true
   \/ startsWith (Click.ipAddress d) "10." = true
   \/ startsWith (Click.ipAddress d) "172." = true) ->
  Click.geolocationHook env d
  = (Click.set_location
       (Some {| Click.country := Some "XX";
                Click.countryName := Some "Local/Private";
                Click.region := Some "Local";
                Click.city := Some "Local";
                Click.timezone := None;
                Click.coordinates := None |}) d, [])
  /\ (startsWith (Click.ipAddress d) "172." = true ->
      Regex.private172Regex (Click.ipAddress d) = false ->
      _isPublicIP (Some (Click.ipAddress d)) = true)
  /\ _isPublicIP (Some "172.32.0.1") = true.
Proof.
  intros Hn He H. split; [|split].
  - apply GeoFacts.geolocationHook_local; auto.
    unfold Click.isLocalOrPrivate.
    destruct H as [-> | [-> | [H | [H | H]]]];
      try reflexivity; rewrite H; rewrite ?orb_true_r; reflexivity.
  - intros H172 Hp. rewrite GeoFacts.isPublicIP_172 by assumption.
    now rewrite Hp.
  - reflexivity.
Qed.

(** A new click from 172.32.0.1 with geolocation enabled. *)
Lemma local_addresses_get_placeholder_witness :
  Click.location
    (fst (Click.geolocationHook Examples.geoOn
            (Pipeline.prepared Examples.noParams
               (Examples.visit 1 "172.32.0.1" Examples.chrome)
               "172.32.0.1" true)))
  = Some Click.localPrivateLocation
  /\ snd (Click.geolocationHook Examples.geoOn
            (Pipeline.prepared Examples.noParams
               (Examples.visit 1 "172.32.0.1" Examples.chrome)
               "172.32.0.1" true)) = []
  /\ _isPublicIP (Some "172.32.0.1") = true.
Proof.
  destruct (local_addresses_get_placeholder Examples.geoOn
              (Pipeline.prepared Examples.noParams
                 (Examples.visit 1 "172.32.0.1" Examples.chrome)
                 "172.32.0.1" true) eq_refl eq_refl
              (or_intror (or_intror (or_intror (or_intror eq_refl)))))
    as (E & _ & P).
  rewrite E. split; [reflexivity | split; [reflexivity | exact P]].
Defined.

(** * Storage failures during ingestion *)

(** C4, as stated, fails on its second half: here the counter update
    fails, and [recordClick] returns normally, with the click stored and
    the counters of the URL as they were. *)
Lemma counter_update_failure_is_not_propagated :
  url_findByIdAndUpdate Examples.urlUpdateFails = Some "write failed"
  /\ exists r w',
       recordClick Examples.geoOn Examples.noParams 1000
         Examples.urlUpdateFails
         (Examples.visit 1 "203.0.113.5" Examples.chrome) Examples.world
       = (Ok r, w')
       /\ clicks w' = [click r]
       /\ urls w' = urls Examples.world.
Proof.
  split; [reflexivity|]. eexists. eexists. split; [|split].
  - vm_compute. reflexivity.
  - reflexivity.
  - vm_compute. reflexivity.
Qed.

(** C4, amended.  When the insertion of the click fails, [recordClick]
    throws, and neither a click is stored nor a URL document changed; the
    error is the one of the insertion whenever the call would have returned
    had the insertion gone through.  When the counter update fails,
    [recordClick] behaves towards its caller and the click collection as
    if the update had gone through, and the URL documents are left as they
    were. *)
Theorem storage_failures_of_recordClick
    (env : Click.Env) (searchParams : string -> option (list (string * string)))
    (now : Instant) (f : Faults) (d : ClickData) (w : World) (e : string) :
  (click_insert f = Some e ->
   (exists message,
       fst (recordClick env searchParams now f d w) = Throw message)
   /\ clicks (snd (recordClick env searchParams now f d w)) = clicks w
   /\ urls (snd (recordClick env searchParams now f d w)) = urls w
   /\ (isOk (fst (recordClick env searchParams now (insertSucceeds f) d w))
       = true ->
       fst (recordClick env searchParams now f d w)
       = Throw ("Click recording failed: " ++ e)))
  /\ (url_findByIdAndUpdate f = Some e ->
      fst (recordClick env searchParams now f d w)
      = fst (recordClick env searchParams now (urlUpdateSucceeds f) d w)
      /\ clicks (snd (recordClick env searchParams now f d w))
         = clicks (snd (recordClick env searchParams now
                          (urlUpdateSucceeds f) d w))
      /\ urls (snd (recordClick env searchParams now f d w)) = urls w).
Proof.
  split; intros Hf.
  - rewrite !RecordFacts.recordClick_run.
    unfold Pipeline.recordClick_cases, Pipeline.uniqueFlag.
    cbn [url_findById click_findOne click_insert insertSucceeds].
    rewrite Hf.
    destruct (url_findById f); [now repeat split; eauto|].
    destruct (urls w !! urlId d) as [url|]; [|now repeat split; eauto].
    destruct (negb (isActive url)); [now repeat split; eauto|].
    destruct (isExpired url); [now repeat split; eauto|].
    destruct (Click.validate _); [now repeat split; eauto|].
    repeat split; eauto.
  - rewrite !RecordFacts.recordClick_run.
    unfold Pipeline.recordClick_cases, Pipeline.uniqueFlag,
      Pipeline.afterUrlStats, Pipeline.afterUserStats.
    cbn [url_findById click_findOne click_insert url_findByIdAndUpdate
         user_findByIdAndUpdate urlUpdateSucceeds].
    rewrite Hf.
    destruct (url_findById f); [now repeat split|].
    destruct (urls w !! urlId d) as [url|]; [|now repeat split].
    destruct (negb (isActive url)); [now repeat split|].
    destruct (isExpired url); [now repeat split|].
    destruct (Click.validate _); [now repeat split|].
    destruct (click_insert f); [now repeat split|].
    destruct (owner url), (user_findByIdAndUpdate f); now repeat split.
Qed.

(** A failing insertion, and a failing counter update. *)
Lemma storage_failures_of_recordClick_witness :
  fst (recordClick Examples.geoOn Examples.noParams 1000 Examples.insertFails
         (Examples.visit 1 "203.0.113.5" Examples.chrome) Examples.world)
  = Throw "Click recording failed: write failed"
  /\ urls (snd (recordClick Examples.geoOn Examples.noParams 1000
                  Examples.urlUpdateFails
                  (Examples.visit 1 "203.0.113.5" Examples.chrome)
                  Examples.world))
     = urls Examples.world.
Proof.
  split.
  - apply (proj1 (storage_failures_of_recordClick
                    Examples.geoOn Examples.noParams 1000
                    Examples.insertFails
                    (Examples.visit 1 "203.0.113.5" Examples.chrome)
                    Examples.world "write failed") eq_refl).
    vm_compute. reflexivity.
  - apply (proj2 (storage_failures_of_recordClick
                    Examples.geoOn Examples.noParams 1000
                    Examples.urlUpdateFails
                    (Examples.visit 1 "203.0.113.5" Examples.chrome)
                    Examples.world "write failed") eq_refl).
Defined.

(** * The retention sweep *)

Module SweepFacts.

Lemma deleteMany_run f p options w :
  click_deleteMany f = None ->
  Click_deleteMany f p options w
  = (Ok (N.of_nat (length (List.filter p (clicks w)))),
     set_clicks (List.filter (fun d => negb (p d)) (clicks w)) w).
Proof. intros Hf. unfold Click_deleteMany, call. now rewrite Hf. Qed.

Lemma clicks_set l w : clicks (set_clicks l w) = l.
Proof. reflexivity. Qed.

Lemma set_clicks_twice l l' w :
  set_clicks l (set_clicks l' w) = set_clicks l w.
Proof. reflexivity. Qed.

Lemma nothing_left {A} (p : A -> bool) (l : list A) :
  List.filter p (List.filter (fun d => negb (p d)) l) = [].
Proof.
  induction l as [|x l IH]; simpl; [reflexivity|].
  destruct (p x) eqn:E; simpl; [exact IH | now rewrite E].
Qed.

Lemma survivors_stay {A} (p : A -> bool) (l : list A) :
  List.filter (fun d => negb (p d)) (List.filter (fun d => negb (p d)) l)
  = List.filter (fun d => negb (p d)) l.
Proof.
  induction l as [|x l IH]; simpl; [reflexivity|].
  destruct (p x) eqn:E; simpl; [exact IH | now rewrite E, IH].
Qed.

(** The sweep never touches the URL documents. *)
Lemma sweep_urls fuel f cutoffDate batchSize total trace w :
  urls (snd (sweep fuel f cutoffDate batchSize total trace w)) = urls w.
Proof.
  revert total trace w. induction fuel as [|fuel IH]; intros; simpl;
    [reflexivity|].
  unfold bind, Click_deleteMany, call.
  destruct (click_deleteMany f); [reflexivity|].
  destruct (_ =? batchSize)%N; [|reflexivity].
  now rewrite IH.
Qed.

(** With a positive batch size the loop is over after one round, or
    after two when the first round removed exactly [batchSize]
    documents; either way the first [deleteMany] removed every expired
    click. *)
Lemma sweep_run fuel f cutoffDate batchSize total trace w :
  click_deleteMany f = None -> batchSize <> 0%N ->
  let n := N.of_nat (length (expiredClicks cutoffDate w)) in
  sweep (S (S fuel)) f cutoffDate batchSize total trace w
  = (Ok (Some ((total + n)%N,
               trace ++ (if (n =? batchSize)%N
                         then [Batch n; Pause 100; Batch 0]
                         else [Batch n]))),
     set_clicks
       (List.filter (fun d => negb (ClickModel.olderThan cutoffDate d))
                    (clicks w)) w).
Proof.
  intros Hf Hb n.
  change (sweep (S (S fuel)) f cutoffDate batchSize total trace w)
    with (bind (Click_deleteMany f (ClickModel.olderThan cutoffDate)
                                 (Some batchSize))
            (fun deleted =>
               if (deleted =? batchSize)%N then
                 sweep (S fuel) f cutoffDate batchSize (total + deleted)%N
                       (trace ++ [Batch deleted; Pause 100])
               else ret (Some ((total + deleted)%N,
                               trace ++ [Batch deleted]))) w).
  unfold bind at 1. rewrite deleteMany_run by assumption.
  fold (expiredClicks cutoffDate w). fold n.
  destruct (n =? batchSize)%N eqn:E; [|reflexivity].
  change (sweep (S fuel) f cutoffDate batchSize (total + n)%N
            (trace ++ [Batch n; Pause 100]))
    with (bind (Click_deleteMany f (ClickModel.olderThan cutoffDate)
                                 (Some batchSize))
            (fun deleted =>
               if (deleted =? batchSize)%N then
                 sweep fuel f cutoffDate batchSize
                       (total + n + deleted)%N
                       ((trace ++ [Batch n; Pause 100])
                          ++ [Batch deleted; Pause 100])
               else ret (Some ((total + n + deleted)%N,
                               (trace ++ [Batch n; Pause 100])
                                 ++ [Batch deleted]))) ).
  unfold bind. rewrite deleteMany_run by assumption.
  rewrite !clicks_set, nothing_left, survivors_stay, set_clicks_twice.
  cbn [length]. change (N.of_nat 0) with 0%N.
  destruct (0 =? batchSize)%N eqn:E0;
    [apply N.eqb_eq in E0; congruence|].
  unfold ret. rewrite ?N.add_0_r, <- app_assoc. reflexivity.
Qed.

End SweepFacts.

(** The dry run reports the number of expired clicks and deletes
    nothing. *)
Lemma dry_run_counts_and_keeps fuel now f options w :
  click_countDocuments f = None ->
  dryRun options = Some true ->
  let cutoffDate :=
    (now - ClickModel.days (default 365 (retentionDays options)))%Z in
  cleanupAnalyticsData fuel now f options w
  = (Ok (Some (DryRunReport
                 (N.of_nat (length (expiredClicks cutoffDate w)))
                 cutoffDate (default 365%Z (retentionDays options)), [])),
     w).
Proof.
  intros Hf Hd. unfold cleanupAnalyticsData, tryCatch, bind,
    Click_countDocuments, call, ret.
  now rewrite Hd, Hf.
Qed.

(** The real run, with a positive batch size and enough rounds, removes
    every expired click and nothing else, and reports their number: all of
    them go in the first [deleteMany], whatever the batch size. *)
Lemma real_run_deletes_all_at_once fuel now f options w :
  click_deleteMany f = None ->
  default false (dryRun options) = false ->
  default 1000%N (batchSize options) <> 0%N ->
  let cutoffDate :=
    (now - ClickModel.days (default 365 (retentionDays options)))%Z in
  let n := N.of_nat (length (expiredClicks cutoffDate w)) in
  cleanupAnalyticsData (S (S fuel)) now f options w
  = (Ok (Some (DeletedReport n cutoffDate
                 (default 365%Z (retentionDays options)),
               if (n =? default 1000 (batchSize options))%N
               then [Batch n; Pause 100; Batch 0]
               else [Batch n])),
     set_clicks
       (List.filter (fun d => negb (ClickModel.olderThan cutoffDate d))
                    (clicks w)) w).
Proof.
  intros Hf Hd Hb cutoffDate n.
  unfold cleanupAnalyticsData, tryCatch. rewrite Hd.
  unfold bind at 1.
  rewrite SweepFacts.sweep_run by assumption.
  fold cutoffDate. fold n. reflexivity.
Qed.

(** When the store rejects the [deleteMany] of the real run, the sweep
    throws and nothing is deleted. *)
Lemma rejected_delete_aborts_the_sweep fuel now f options w e :
  click_deleteMany f = Some e ->
  default false (dryRun options) = false ->
  cleanupAnalyticsData (S fuel) now f options w
  = (Throw ("Analytics data cleanup failed: " ++ e), w).
Proof.
  intros Hf Hd. unfold cleanupAnalyticsData, tryCatch. rewrite Hd.
  unfold bind at 1. simpl sweep. unfold bind, Click_deleteMany, call, throw.
  now rewrite Hf.
Qed.

(** With [batchSize = 0] and nothing to delete, every round removes zero
    documents, which is the batch size, and the loop goes on for ever. *)
Lemma zero_batch_size_never_ends fuel f cutoffDate total trace w :
  click_deleteMany f = None ->
  expiredClicks cutoffDate w = [] ->
  fst (sweep fuel f cutoffDate 0 total trace w) = Ok None.
Proof.
  intros Hf. revert total trace w.
  induction fuel as [|fuel IH]; intros total trace w He; [reflexivity|].
  simpl sweep. unfold bind.
  rewrite SweepFacts.deleteMany_run by assumption.
  fold (expiredClicks cutoffDate w). rewrite He. cbn [length].
  change (N.of_nat 0 =? 0)%N with true. cbv iota.
  apply IH. unfold expiredClicks.
  rewrite SweepFacts.clicks_set. apply SweepFacts.nothing_left.
Qed.

(** C7.  The sweep of three expired clicks with [batchSize = 2]: the one
    [deleteMany] of the run removes all three, a batch larger than the
    batch size, and there is no second batch and no pause.  The dry run on
    the same collection reports the three clicks and deletes nothing. *)
Theorem sweep_batch_exceeds_batch_size :
  cleanupAnalyticsData 10 (ClickModel.days 400) noFaults
    {| retentionDays := None; batchSize := Some 2%N; dryRun := None |}
    Examples.agedWorld
  = (Ok (Some (DeletedReport 3 (ClickModel.days 35) 365, [Batch 3])),
     set_clicks [] Examples.agedWorld)
  /\ cleanupAnalyticsData 10 (ClickModel.days 400) noFaults
       {| retentionDays := None; batchSize := Some 2%N;
          dryRun := Some true |}
       Examples.agedWorld
     = (Ok (Some (DryRunReport 3 (ClickModel.days 35) 365, [])),
        Examples.agedWorld).
Proof. split; vm_compute; reflexivity. Qed.

(** * Uniqueness along a sequence of ingestions *)

Module UniqueFacts.
Import Pipeline.

Lemma samePair_true u a c :
  ClickModel.samePair u a c = true
  <-> Click.urlId c = u /\ Click.ipAddress c = a.
Proof.
  unfold ClickModel.samePair.
  now rewrite andb_true_iff, N.eqb_eq, String.eqb_eq.
Qed.

Lemma existsb_filter {A} (p : A -> bool) (l : list A) :
  existsb p l = negb (bool_decide (List.filter p l = [])).
Proof.
  induction l as [|x l IH]; simpl; [reflexivity|].
  destruct (p x); [reflexivity | exact IH].
Qed.

(** Appending a click that is unique exactly when the list is empty
    keeps the list in shape. *)
Lemma firstOnly_snoc l c :
  firstOnly l ->
  Click.isUnique c = bool_decide (l = []) ->
  firstOnly (l ++ [c]).
Proof.
  intros Hl Hc i c' Hi.
  apply lookup_snoc_Some in Hi as [[_ Hi] | [-> <-]].
  - now apply Hl.
  - rewrite Hc. destruct l; [reflexivity|].
    rewrite bool_decide_eq_false_2 by discriminate.
    now rewrite bool_decide_eq_false_2 by (simpl; lia).
Qed.

Section Ingest.
Variable env : Click.Env.
Variable searchParams : string -> option (list (string * string)).

(** An ingestion stores at most one click, under the pair of its
    submission, flagged as [isUniqueClick] saw it. *)
Lemma recordClick_clicks now f d w :
  let w' := snd (recordClick env searchParams now f d w) in
  clicks w' = clicks w
  \/ exists c,
       clicks w' = clicks w ++ [c]
       /\ (Click.urlId c, Click.ipAddress c) = Core.pairOf d
       /\ Click.isUnique c
          = Pipeline.uniqueFlag f (urlId d) (snd (Core.pairOf d)) w.
Proof.
  rewrite RecordFacts.recordClick_run.
  unfold Pipeline.recordClick_cases.
  destruct (url_findById f); [now left|].
  destruct (urls w !! urlId d) as [url|]; [|now left].
  destruct (negb (isActive url)); [now left|].
  destruct (isExpired url); [now left|].
  destruct (Click.validate _); [now left|].
  destruct (click_insert f); [now left|].
  right. eexists. split; [|split].
  - unfold Pipeline.afterUserStats, Pipeline.afterUrlStats.
    destruct (owner url), (user_findByIdAndUpdate f),
      (url_findByIdAndUpdate f); reflexivity.
  - unfold Core.pairOf.
    match goal with
    | |- context [Pipeline.persisted env now ?c] =>
        destruct (DocFacts.persisted_fields env now c) as (-> & -> & _)
    end.
    match goal with
    | |- context [Pipeline.prepared searchParams d ?ip ?un] =>
        destruct (DocFacts.prepared_fields searchParams d ip un)
          as (-> & -> & _)
    end.
    reflexivity.
  - match goal with
    | |- context [Pipeline.persisted env now ?c] =>
        destruct (DocFacts.persisted_fields env now c) as (_ & _ & ->)
    end.
    match goal with
    | |- context [Pipeline.prepared searchParams d ?ip ?un] =>
        destruct (DocFacts.prepared_fields searchParams d ip un)
          as (_ & _ & -> & _)
    end.
    reflexivity.
Qed.

Lemma ingest_keeps_firstOnly u a call w :
  (Core.pairOf (snd call) = (u, a) ->
   click_findOne (snd (fst call)) = None) ->
  firstOnly (clicksOfPair u a w) ->
  firstOnly (clicksOfPair u a (Core.ingest env searchParams call w)).
Proof.
  destruct call as [[now f] d]. simpl. intros Hf Hw.
  unfold Core.ingest, Core.exec. simpl.
  destruct (recordClick_clicks now f d w) as [E | (c & E & Hp & Hu)];
    unfold clicksOfPair in *; rewrite E; [exact Hw|].
  rewrite List.filter_app. simpl.
  destruct (ClickModel.samePair u a c) eqn:Hs;
    [|now rewrite app_nil_r].
  apply samePair_true in Hs as [Hcu Hca].
  assert (Hd : Core.pairOf d = (u, a)) by (rewrite <- Hp; congruence).
  apply firstOnly_snoc; [exact Hw|].
  rewrite Hu. unfold Pipeline.uniqueFlag. rewrite (Hf Hd).
  assert (urlId d = u) as -> by (unfold Core.pairOf in Hd; congruence).
  rewrite Hd. simpl. rewrite existsb_filter. now rewrite negb_involutive.
Qed.

Lemma ingestAll_keeps_firstOnly u a calls w :
  (forall call, In call calls ->
                Core.pairOf (snd call) = (u, a) ->
                click_findOne (snd (fst call)) = None) ->
  firstOnly (clicksOfPair u a w) ->
  firstOnly (clicksOfPair u a (Core.ingestAll env searchParams calls w)).
Proof.
  revert w. induction calls as [|call calls IH]; intros w Hf Hw;
    [exact Hw|].
  simpl. apply IH.
  - intros c Hc. apply Hf. now right.
  - apply ingest_keeps_firstOnly; [|exact Hw]. apply Hf. now left.
Qed.

End Ingest.
End UniqueFacts.

(** C1.  Start from a world with no click of the pair [(u, a)] and run any
    sequence of ingestions, one after another, in which the uniqueness
    lookup of every ingestion for that pair succeeds.  Then among the
    clicks stored for [(u, a)], in the order they were recorded, the first
    has [isUnique = true] and every later one has [isUnique = false]. *)
Theorem first_click_of_a_pair_is_the_unique_one
    (env : Click.Env) (searchParams : string -> option (list (string * string)))
    (u : ObjectId) (a : string) (calls : list (Core.Ingestion)) (w : World) :
  clicksOfPair u a w = [] ->
  (forall call, In call calls ->
                Core.pairOf (snd call) = (u, a) ->
                click_findOne (snd (fst call)) = None) ->
  forall (i : nat) (c : Click.Doc),
    clicksOfPair u a (Core.ingestAll env searchParams calls w) !! i = Some c ->
    Click.isUnique c = bool_decide (i = 0%nat).
Proof.
  intros Hw Hf.
  apply UniqueFacts.ingestAll_keeps_firstOnly; [exact Hf|].
  rewrite Hw. intros i c Hi. destruct i; discriminate.
Qed.

(** Three visits from one address, with a visit from another address in
    between. *)
Lemma first_click_of_a_pair_is_the_unique_one_witness :
  List.map Click.isUnique
    (clicksOfPair 1 "203.0.113.5"
       (Core.ingestAll Examples.geoOn Examples.noParams Examples.fourVisits
          Examples.world))
  = [true; false; false]
  /\ forall (i : nat) (c : Click.Doc),
       clicksOfPair 1 "203.0.113.5"
         (Core.ingestAll Examples.geoOn Examples.noParams
            Examples.fourVisits Examples.world) !! i = Some c ->
       Click.isUnique c = bool_decide (i = 0%nat).
Proof.
  split; [vm_compute; reflexivity|].
  apply (first_click_of_a_pair_is_the_unique_one
           Examples.geoOn Examples.noParams 1%N "203.0.113.5"
           Examples.fourVisits Examples.world).
  - reflexivity.
  - intros call Hin _. simpl in Hin.
    destruct Hin as [<- | [<- | [<- | [<- | []]]]]; reflexivity.
Defined.

(** * The counters of the URL documents *)

Module CounterFacts.

Lemma applyUrlStats_counters now (b : bool) url :
  clickCount (applyUrlStats now b url) = (clickCount url + 1)%N
  /\ Store.uniqueClicks (applyUrlStats now b url)
     = (Store.uniqueClicks url + (if b then 1 else 0))%N
  /\ lastClickedAt (applyUrlStats now b url) = Some now.
Proof. destruct b; simpl; repeat split; lia. Qed.

(** One [$inc] update of one document keeps every document's counters
    in order and lets none go down. *)
Lemma alter_ordered now b id w :
  Core.countersOrdered w ->
  Core.countersOrdered
    (set_urls (alter (applyUrlStats now b) id (urls w)) w).
Proof.
  intros H j url. simpl. rewrite lookup_alter. case_decide as Hj.
  - subst j. destruct (urls w !! id) as [url0|] eqn:E; [|discriminate].
    intros [= <-]. specialize (H _ _ E).
    destruct (applyUrlStats_counters now b url0) as (-> & -> & _).
    destruct b; lia.
  - apply H.
Qed.

Lemma alter_grew now b id w :
  Core.countersGrew w
    (set_urls (alter (applyUrlStats now b) id (urls w)) w).
Proof.
  intros j url E. simpl. rewrite lookup_alter. case_decide as Hj.
  - subst j. rewrite E. eexists. split; [reflexivity|].
    destruct (applyUrlStats_counters now b url) as (-> & -> & _).
    destruct b; lia.
  - exists url. repeat split; auto; lia.
Qed.

Lemma same_urls_ordered w w' :
  urls w' = urls w -> Core.countersOrdered w -> Core.countersOrdered w'.
Proof. intros E H j url. rewrite E. apply H. Qed.

Lemma same_urls_grew w w' : urls w' = urls w -> Core.countersGrew w w'.
Proof.
  intros E j url Hj. exists url. rewrite E. repeat split; auto; lia.
Qed.

Lemma grew_trans w1 w2 w3 :
  Core.countersGrew w1 w2 -> Core.countersGrew w2 w3 ->
  Core.countersGrew w1 w3.
Proof.
  intros H12 H23 j url Hj.
  destruct (H12 _ _ Hj) as (url2 & H2 & ? & ?).
  destruct (H23 _ _ H2) as (url3 & H3 & ? & ?).
  exists url3. repeat split; auto; lia.
Qed.

Section Machine.
Variable env : Click.Env.
Variable searchParams : string -> option (list (string * string)).

(** What an ingestion does to the URL collection: nothing, or the one
    update of [_updateUrlStats]. *)
Lemma recordClick_urls now f d w :
  let w' := snd (recordClick env searchParams now f d w) in
  urls w' = urls w
  \/ exists b,
       urls w' = alter (applyUrlStats now b) (urlId d) (urls w).
Proof.
  rewrite RecordFacts.recordClick_run.
  unfold Pipeline.recordClick_cases.
  destruct (url_findById f); [now left|].
  destruct (urls w !! urlId d) as [url|]; [|now left].
  destruct (negb (isActive url)); [now left|].
  destruct (isExpired url); [now left|].
  destruct (Click.validate _); [now left|].
  destruct (click_insert f); [now left|].
  unfold Pipeline.afterUserStats, Pipeline.afterUrlStats.
  destruct (url_findByIdAndUpdate f);
    destruct (owner url), (user_findByIdAndUpdate f); simpl; eauto.
Qed.

Lemma exec_urls op w :
  urls (Core.exec env searchParams op w) = urls w
  \/ exists now b id,
       urls (Core.exec env searchParams op w)
       = alter (applyUrlStats now b) id (urls w).
Proof.
  destruct op as [now f d | f u ip | now f u options | now f minutes
                  | now f days | fuel now f options]; simpl.
  - destruct (recordClick_urls now f d w) as [E | [b E]]; eauto.
  - left. now rewrite RecordFacts.isUniqueClick_run.
  - left.
    now rewrite (proj1 (QueryFacts.world_unchanged_by_queries
                          now f u options None w)).
  - left.
    now rewrite (proj2 (QueryFacts.world_unchanged_by_queries
                          now f 0%N ClickModel.defaultOptions
                          minutes w)).
  - left. unfold ClickModel.cleanupOldClicks, tryCatch, bind,
      Click_deleteMany, call, throw, ret.
    destruct (click_deleteMany f); reflexivity.
  - left. unfold cleanupAnalyticsData, tryCatch.
    destruct (default false (dryRun options)).
    + unfold bind, Click_countDocuments, call, throw, ret.
      destruct (click_countDocuments f); reflexivity.
    + unfold bind at 1.
      pose proof (SweepFacts.sweep_urls fuel f
                    (now - ClickModel.days
                             (default 365 (retentionDays options)))%Z
                    (default 1000%N (batchSize options)) 0%N [] w)
        as Hs.
      destruct (sweep _ _ _ _ _ _ _) as [[swept|e] w'];
        simpl in *; exact Hs.
Qed.

Lemma exec_ordered op w :
  Core.countersOrdered w ->
  Core.countersOrdered (Core.exec env searchParams op w).
Proof.
  intros H. destruct (exec_urls op w) as [E | (now & b & id & E)].
  - now apply (same_urls_ordered w).
  - apply (same_urls_ordered
             (set_urls (alter (applyUrlStats now b) id (urls w)) w));
      [exact E | now apply alter_ordered].
Qed.

Lemma exec_grew op w :
  Core.countersGrew w (Core.exec env searchParams op w).
Proof.
  destruct (exec_urls op w) as [E | (now & b & id & E)].
  - now apply same_urls_grew.
  - eapply grew_trans; [apply (alter_grew now b id)|].
    now apply same_urls_grew.
Qed.

Lemma run_ordered_and_grew ops w :
  Core.countersGrew w (Core.run env searchParams ops w)
  /\ (Core.countersOrdered w ->
      Core.countersOrdered (Core.run env searchParams ops w)).
Proof.
  revert w. induction ops as [|op ops IH]; intros w; simpl.
  - split; [now apply same_urls_grew | auto].
  - destruct (IH (Core.exec env searchParams op w)) as [Hg Ho]. split.
    + eapply grew_trans; [apply exec_grew | exact Hg].
    + intros H. now apply Ho, exec_ordered.
Qed.

End Machine.
End CounterFacts.

(** C2.  Along every sequence of core operations no URL document is lost
    and neither of its counters goes down, and [uniqueClicks <= clickCount]
    stays true of every URL document once it is.  The counter update of a
    recorded click, when the store performs it, adds exactly 1 to
    [clickCount], adds 1 to [uniqueClicks] exactly when the click was
    stored with [isUnique = true], sets [lastClickedAt] to the instant of
    the call, and touches no other URL document. *)
Theorem url_counters_ordered_and_growing
    (env : Click.Env) (searchParams : string -> option (list (string * string))) :
  (forall ops w,
      Core.countersGrew w (Core.run env searchParams ops w)
      /\ (Core.countersOrdered w ->
          Core.countersOrdered (Core.run env searchParams ops w)))
  /\ (forall now f d w r w',
        url_findByIdAndUpdate f = None ->
        recordClick env searchParams now f d w = (Ok r, w') ->
        exists url url',
          urls w !! urlId d = Some url
          /\ urls w' !! urlId d = Some url'
          /\ clickCount url' = (clickCount url + 1)%N
          /\ Store.uniqueClicks url'
             = (Store.uniqueClicks url
                + (if Click.isUnique (click r) then 1 else 0))%N
          /\ lastClickedAt url' = Some now
          /\ forall id, id <> urlId d -> urls w' !! id = urls w !! id).
Proof.
  split; [apply CounterFacts.run_ordered_and_grew|].
  intros now f d w r w' Hf. rewrite RecordFacts.recordClick_run.
  unfold Pipeline.recordClick_cases.
  destruct (url_findById f); [discriminate|].
  destruct (urls w !! urlId d) as [url|] eqn:Eurl; [|discriminate].
  destruct (negb (isActive url)); [discriminate|].
  destruct (isExpired url); [discriminate|].
  destruct (Click.validate _); [discriminate|].
  destruct (click_insert f); [discriminate|].
  intros [= <- <-]. simpl click.
  set (ip := _normalizeIpAddress _ _).
  set (unique := Pipeline.uniqueFlag _ _ _ _).
  destruct (DocFacts.persisted_fields env now
              (Pipeline.prepared searchParams d ip unique))
    as (_ & _ & ->).
  destruct (DocFacts.prepared_fields searchParams d ip unique)
    as (_ & _ & -> & _).
  exists url, (applyUrlStats now unique url).
  destruct (CounterFacts.applyUrlStats_counters now unique url)
    as (Hc & Hu & Hl).
  unfold Pipeline.afterUserStats, Pipeline.afterUrlStats.
  rewrite Hf.
  destruct (owner url), (user_findByIdAndUpdate f);
    cbn [urls set_urls set_clicks set_userTotalClicks set_geoLookups];
    (repeat split; auto;
     [ now rewrite lookup_alter_eq, Eurl
     | intros id Hid; now rewrite lookup_alter_ne by congruence ]).
Qed.

(** A run of ingestions, a query and a sweep, and the first ingestion of
    URL 1. *)
Lemma url_counters_ordered_and_growing_witness :
  Core.countersOrdered
    (Core.run Examples.geoOn Examples.noParams
       [ Core.RecordClick 1000 noFaults
           (Examples.visit 1 "203.0.113.5" Examples.chrome);
         Core.RecordClick 2000 Examples.urlUpdateFails
           (Examples.visit 1 "203.0.113.5" Examples.chrome);
         Core.GetRealTimeStats 3000 noFaults None;
         Core.CleanupAnalyticsData 5 (ClickModel.days 400) noFaults
           {| retentionDays := None; batchSize := None; dryRun := None |};
         Core.RecordClick (ClickModel.days 401) noFaults
           (Examples.visit 1 "203.0.113.5" Examples.chrome) ]
       Examples.world)
  /\ exists r w' url',
       recordClick Examples.geoOn Examples.noParams 1000 noFaults
         (Examples.visit 1 "203.0.113.5" Examples.chrome) Examples.world
       = (Ok r, w')
       /\ urls w' !! 1%N = Some url'
       /\ clickCount url' = 1%N /\ Store.uniqueClicks url' = 1%N
       /\ lastClickedAt url' = Some 1000%Z.
Proof.
  split.
  - apply (proj1 (url_counters_ordered_and_growing
                    Examples.geoOn Examples.noParams)).
    intros id url H. unfold Examples.world in H. cbn [urls] in H.
    repeat (rewrite lookup_insert in H;
            case_decide; [injection H as <-; simpl; lia|]).
    rewrite lookup_empty in H. discriminate.
  - eexists. eexists.
    assert (E : recordClick Examples.geoOn Examples.noParams 1000 noFaults
                  (Examples.visit 1 "203.0.113.5" Examples.chrome)
                  Examples.world
                = (Ok _, _)) by (vm_compute; reflexivity).
    destruct (proj2 (url_counters_ordered_and_growing
                       Examples.geoOn Examples.noParams)
                1000%Z noFaults
                (Examples.visit 1 "203.0.113.5" Examples.chrome)
                Examples.world _ _ eq_refl E)
      as (url & url' & H1 & H2 & Hc & Hu & Hl & _).
    exists url'. split; [exact E|]. split; [exact H2|].
    vm_compute in H1. injection H1 as <-.
    repeat split; assumption.
Defined.

(** * Further properties of the ingestion pipeline *)

Module OutcomeFacts.
Import Pipeline.

Section Outcome.
Variable env : Click.Env.
Variable searchParams : string -> option (list (string * string)).

(** What a returning [recordClick] has done. *)
Lemma recordClick_returns now f d w r w' :
  recordClick env searchParams now f d w = (Ok r, w') ->
  exists url,
    let ip := _normalizeIpAddress (ipAddress d)
                                  (default ∅ (headers d)) in
    let unique := uniqueFlag f (urlId d) ip w in
    let c0 := prepared searchParams d ip unique in
    urls w !! urlId d = Some url
    /\ isActive url = true /\ isExpired url = false
    /\ Click.validate c0 = None
    /\ r = {| click := persisted env now c0;
              redirectUrl := originalUrl url;
              analytics :=
                {| totalClicks := (clickCount url + 1)%N;
                   uniqueClicks :=
                     (Store.uniqueClicks url
                      + (if unique then 1 else 0))%N;
                   isUnique := unique |} |}
    /\ clicks w' = clicks w ++ [persisted env now c0]
    /\ urls w'
       = match url_findByIdAndUpdate f with
         | Some _ => urls w
         | None => alter (applyUrlStats now unique) (urlId d) (urls w)
         end
    /\ userTotalClicks w'
       = match owner url, user_findByIdAndUpdate f with
         | Some userId, None =>
             alter (fun t => (t + 1)%N) userId (userTotalClicks w)
         | _, _ => userTotalClicks w
         end
    /\ geoLookups w'
       = geoLookups w ++ snd (Click.geolocationHook env c0).
Proof.
  rewrite RecordFacts.recordClick_run. unfold recordClick_cases.
  destruct (url_findById f); [discriminate|].
  destruct (urls w !! urlId d) as [url|]; [|discriminate].
  destruct (isActive url) eqn:Ha; [|discriminate]. simpl negb. cbv iota.
  destruct (isExpired url) eqn:He; [discriminate|].
  destruct (Click.validate _) eqn:Hv; [discriminate|].
  destruct (click_insert f); [discriminate|].
  intros [= <- <-]. exists url. cbv zeta.
  unfold afterUserStats, afterUrlStats.
  destruct (url_findByIdAndUpdate f), (owner url),
    (user_findByIdAndUpdate f); repeat split; auto.
Qed.

(** What a throwing [recordClick] has left alone. *)
Lemma recordClick_throws now f d w message w' :
  recordClick env searchParams now f d w = (Throw message, w') ->
  clicks w' = clicks w /\ urls w' = urls w
  /\ userTotalClicks w' = userTotalClicks w.
Proof.
  rewrite RecordFacts.recordClick_run. unfold recordClick_cases.
  destruct (url_findById f); [now intros [= <- <-]|].
  destruct (urls w !! urlId d) as [url|]; [|now intros [= <- <-]].
  destruct (negb (isActive url)); [now intros [= <- <-]|].
  destruct (isExpired url); [now intros [= <- <-]|].
  destruct (Click.validate _); [now intros [= <- <-]|].
  destruct (click_insert f); [now intros [= <- <-]|].
  discriminate.
Qed.

Lemma persisted_pair now d ip unique :
  let c := persisted env now (prepared searchParams d ip unique) in
  Click.urlId c = urlId d /\ Click.ipAddress c = ip
  /\ Click.isUnique c = unique.
Proof.
  cbv zeta.
  destruct (DocFacts.persisted_fields env now
              (prepared searchParams d ip unique)) as (-> & -> & ->).
  destruct (DocFacts.prepared_fields searchParams d ip unique)
    as (-> & -> & -> & _).
  now repeat split.
Qed.

End Outcome.
End OutcomeFacts.

Module LedgerFacts.
Import Pipeline Ledger.

Lemma sizeOfSet_snoc {A} `{EqDecision A} (l : list A) (a : A) :
  Mongo.sizeOfSet (l ++ [a])
  = (Mongo.sizeOfSet l + (if bool_decide (a ∈ l) then 0 else 1))%N.
Proof.
  unfold Mongo.sizeOfSet. case_bool_decide as Ha.
  - rewrite N.add_0_r. f_equal. apply Permutation_length.
    apply NoDup_Permutation; try apply NoDup_remove_dups.
    intros x. rewrite !elem_of_remove_dups, elem_of_app, list_elem_of_singleton.
    split; [intros [?| ->]; auto | auto].
  - replace (N.of_nat (length (remove_dups l)) + 1)%N
      with (N.of_nat (length (a :: remove_dups l))) by (simpl; lia).
    f_equal. apply Permutation_length.
    apply NoDup_Permutation.
    + apply NoDup_remove_dups.
    + constructor; [now rewrite elem_of_remove_dups | apply NoDup_remove_dups].
    + intros x.
      rewrite elem_of_cons, !elem_of_remove_dups, elem_of_app,
        list_elem_of_singleton.
      tauto.
Qed.

Lemma pair_seen u a (l : list Click.Doc) :
  existsb (ClickModel.samePair u a) l
  = bool_decide
      (a ∈ List.map Click.ipAddress
             (List.filter (fun c => (Click.urlId c =? u)%N) l)).
Proof.
  induction l as [|c l IH]; simpl; [reflexivity|].
  unfold ClickModel.samePair at 1.
  destruct (Click.urlId c =? u)%N; simpl; [|exact IH].
  rewrite IH. destruct (String.eqb_spec (Click.ipAddress c) a) as [->|Hne].
  - simpl. symmetry. apply bool_decide_eq_true. now left.
  - simpl. apply bool_decide_ext. rewrite elem_of_cons. split; [auto|].
    intros [->|?]; [congruence | assumption].
Qed.

Section Ingest.
Variable env : Click.Env.
Variable searchParams : string -> option (list (string * string)).

Lemma recordClick_keeps_ledger now f d w :
  click_findOne f = None -> url_findByIdAndUpdate f = None ->
  countersMatchEvents w ->
  countersMatchEvents (snd (recordClick env searchParams now f d w)).
Proof.
  intros Hfind Hupd Hw.
  destruct (recordClick env searchParams now f d w) as [[r|m] w'] eqn:E;
    simpl.
  - apply OutcomeFacts.recordClick_returns in E
      as (url & Eurl & _ & _ & _ & _ & Hc & Hu & _).
    cbv zeta in Hc, Hu. rewrite Hupd in Hu.
    set (ip := _normalizeIpAddress _ _) in *.
    set (unique := uniqueFlag _ _ _ _) in *.
    destruct (OutcomeFacts.persisted_pair env searchParams now d ip
                unique) as (Hcu & Hci & _).
    intros id url'. unfold clicksOfUrl. rewrite Hu, Hc.
    rewrite List.filter_app. cbn [List.filter]. rewrite Hcu.
    rewrite lookup_alter. case_decide as Hid.
    + subst id. rewrite Eurl. intros [= <-]. rewrite N.eqb_refl.
      destruct (Hw _ _ Eurl) as [Hn Hq]. unfold clicksOfUrl in Hn, Hq.
      destruct (CounterFacts.applyUrlStats_counters now unique url)
        as (-> & -> & _).
      rewrite length_app, List.map_app. cbn [List.map length].
      rewrite sizeOfSet_snoc.
      rewrite Hn, Hq, Hci. split; [lia|]. f_equal.
      subst unique. unfold uniqueFlag. rewrite Hfind, pair_seen.
      now destruct (bool_decide _).
    + intros Hl.
      destruct (N.eqb_spec (urlId d) id) as [E'|_]; [congruence|].
      rewrite app_nil_r. now apply Hw.
  - apply OutcomeFacts.recordClick_throws in E as (Hc & Hu & _).
    intros id url'. unfold clicksOfUrl. rewrite Hu, Hc. apply Hw.
Qed.

Lemma ingestAll_keeps_ledger calls w :
  (forall call, In call calls ->
                click_findOne (snd (fst call)) = None
                /\ url_findByIdAndUpdate (snd (fst call)) = None) ->
  countersMatchEvents w ->
  countersMatchEvents (Core.ingestAll env searchParams calls w).
Proof.
  revert w. induction calls as [|[[now f] d] calls IH]; intros w Hf Hw;
    [exact Hw|].
  simpl. apply IH; [intros c Hc; apply Hf; now right|].
  destruct (Hf (now, f, d) (or_introl eq_refl)) as [H1 H2].
  unfold Core.ingest, Core.exec. simpl.
  now apply recordClick_keeps_ledger.
Qed.

End Ingest.
End LedgerFacts.

(** X1.  As long as the uniqueness lookup and the counter update of every
    ingestion go through, a run of ingestions keeps the counters of every
    URL document equal to what is stored: [clickCount] is the number of
    clicks stored for the URL and [uniqueClicks] the number of distinct
    addresses among them.  Other store failures (a failing URL lookup, a
    rejected insertion, a failing user update) do not disturb this. *)
Theorem counters_match_stored_events
    (env : Click.Env) (searchParams : string -> option (list (string * string)))
    (calls : list Core.Ingestion) (w : World) :
  Ledger.countersMatchEvents w ->
  (forall call, In call calls ->
                click_findOne (snd (fst call)) = None
                /\ url_findByIdAndUpdate (snd (fst call)) = None) ->
  Ledger.countersMatchEvents (Core.ingestAll env searchParams calls w).
Proof.
  intros Hw Hf. now apply LedgerFacts.ingestAll_keeps_ledger.
Qed.

(** Four visits of URL 1 from two addresses: the document of URL 1 ends
    with [clickCount = 4] and [uniqueClicks = 2]. *)
Lemma counters_match_stored_events_witness :
  Ledger.countersMatchEvents
    (Core.ingestAll Examples.geoOn Examples.noParams Examples.fourVisits
       Examples.world)
  /\ (clickCount <$>
      urls (Core.ingestAll Examples.geoOn Examples.noParams
              Examples.fourVisits Examples.world) !! 1%N) = Some 4%N
  /\ (Store.uniqueClicks <$>
      urls (Core.ingestAll Examples.geoOn Examples.noParams
              Examples.fourVisits Examples.world) !! 1%N) = Some 2%N.
Proof.
  split; [|split; vm_compute; reflexivity].
  apply counters_match_stored_events.
  - intros id url H. unfold Examples.world in H. cbn [urls] in H.
    repeat (rewrite lookup_insert in H;
            case_decide; [injection H as <-; split; reflexivity|]).
    rewrite lookup_empty in H. discriminate.
  - intros call Hin. simpl in Hin.
    destruct Hin as [<- | [<- | [<- | [<- | []]]]]; split; reflexivity.
Defined.

(** X2.  The live counters [recordClick] returns are read from the URL
    document fetched before the update.  When the counter update goes
    through they are exactly the counters stored after the call, and the
    returned [isUnique] is the flag of the stored click; when the update
    fails they are ahead of the stored counters, which have not moved. *)
Theorem returned_counters_against_stored
    (env : Click.Env) (searchParams : string -> option (list (string * string)))
    (now : Instant) (f : Faults) (d : ClickData) (w : World)
    (r : Recorded) (w' : World) :
  recordClick env searchParams now f d w = (Ok r, w') ->
  exists url',
    urls w' !! urlId d = Some url'
    /\ isUnique (analytics r) = Click.isUnique (click r)
    /\ redirectUrl r = originalUrl url'
    /\ (url_findByIdAndUpdate f = None ->
        totalClicks (analytics r) = clickCount url'
        /\ uniqueClicks (analytics r) = Store.uniqueClicks url')
    /\ (url_findByIdAndUpdate f <> None ->
        totalClicks (analytics r) = (clickCount url' + 1)%N
        /\ uniqueClicks (analytics r)
           = (Store.uniqueClicks url'
              + (if Click.isUnique (click r) then 1 else 0))%N).
Proof.
  intros E.
  apply OutcomeFacts.recordClick_returns in E
    as (url & Eurl & _ & _ & _ & -> & _ & Hu & _).
  cbv zeta in *.
  set (ip := _normalizeIpAddress _ _) in *.
  set (unique := Pipeline.uniqueFlag _ _ _ _) in *.
  destruct (OutcomeFacts.persisted_pair env searchParams now d ip unique)
    as (_ & _ & Hq).
  cbn [click analytics redirectUrl totalClicks uniqueClicks isUnique].
  rewrite Hq, Hu.
  destruct (url_findByIdAndUpdate f) as [e|].
  - exists url. repeat split; auto; intros; congruence.
  - exists (applyUrlStats now unique url).
    rewrite lookup_alter_eq, Eurl.
    destruct (CounterFacts.applyUrlStats_counters now unique url)
      as (Hc & Hn & _).
    repeat split; auto; intros; congruence.
Qed.

(** The first visit of URL 1, with the update going through and with the
    update failing. *)
Lemma returned_counters_against_stored_witness :
  (exists r w' url',
      recordClick Examples.geoOn Examples.noParams 1000 noFaults
        (Examples.visit 1 "203.0.113.5" Examples.chrome) Examples.world
      = (Ok r, w')
      /\ urls w' !! 1%N = Some url'
      /\ totalClicks (analytics r) = clickCount url')
  /\ (exists r w' url',
        recordClick Examples.geoOn Examples.noParams 1000
          Examples.urlUpdateFails
          (Examples.visit 1 "203.0.113.5" Examples.chrome) Examples.world
        = (Ok r, w')
        /\ urls w' !! 1%N = Some url'
        /\ totalClicks (analytics r) = (clickCount url' + 1)%N).
Proof.
  split.
  - eexists. eexists.
    assert (E : recordClick Examples.geoOn Examples.noParams 1000 noFaults
                  (Examples.visit 1 "203.0.113.5" Examples.chrome)
                  Examples.world = (Ok _, _)) by (vm_compute; reflexivity).
    destruct (returned_counters_against_stored _ _ _ _ _ _ _ _ E)
      as (url' & H1 & _ & _ & H2 & _).
    exists url'. split; [exact E|]. split; [exact H1|].
    apply H2. reflexivity.
  - eexists. eexists.
    assert (E : recordClick Examples.geoOn Examples.noParams 1000
                  Examples.urlUpdateFails
                  (Examples.visit 1 "203.0.113.5" Examples.chrome)
                  Examples.world = (Ok _, _)) by (vm_compute; reflexivity).
    destruct (returned_counters_against_stored _ _ _ _ _ _ _ _ E)
      as (url' & H1 & _ & _ & _ & H2).
    exists url'. split; [exact E|]. split; [exact H1|].
    apply H2. discriminate.
Defined.

Module EnrichmentFacts.
Import Pipeline Ledger.

Lemma set_location_same c : Click.set_location (Click.location c) c = c.
Proof. now destruct c. Qed.

(** The geolocation hook changes nothing but the location. *)
Lemma geolocationHook_only_location env c :
  exists l, fst (Click.geolocationHook env c) = Click.set_location l c.
Proof.
  unfold Click.geolocationHook.
  destruct (Click.isNew c && Click.enableGeolocation env
            && JsString.truthy (Some (Click.ipAddress c)));
    [|exists (Click.location c); simpl; now rewrite set_location_same].
  destruct (Click.isLocalOrPrivate (Click.ipAddress c)); [simpl; eauto|].
  destruct (Click.geoip_lookup env (Click.ipAddress c)); simpl; eauto;
    exists (Click.location c); now rewrite set_location_same.
Qed.

Lemma botHook_set_location l c :
  Click.botHook (Click.set_location l c)
  = Click.set_location l (Click.botHook c).
Proof.
  unfold Click.botHook. simpl.
  destruct (Click.isNew c && JsString.truthy (Click.userAgent c));
    [|reflexivity].
  destruct (Click.userAgent c); reflexivity.
Qed.

Lemma persisted_withoutLocation env now c :
  withoutLocation (persisted env now c)
  = withoutLocation (Click.stored now (Click.botHook c)).
Proof.
  unfold persisted.
  destruct (geolocationHook_only_location env c) as [l ->].
  now rewrite botHook_set_location.
Qed.

Lemma persisted_clickedAt env now c :
  Click.clickedAt (persisted env now c) = now
  /\ Click.isNew (persisted env now c) = false.
Proof. now split. Qed.

End EnrichmentFacts.

(** X3.  Enrichment never decides an ingestion.  Whatever the geolocation
    setting and whatever the geoip database does (answers, finds nothing,
    throws), [recordClick] returns or throws the same way, with the same
    message, the same live counters and the same stored click up to its
    location, and leaves the same URL and user documents. *)
Theorem enrichment_never_decides_ingestion
    (env1 env2 : Click.Env)
    (searchParams : string -> option (list (string * string)))
    (now : Instant) (f : Faults) (d : ClickData) (w : World) :
  match fst (recordClick env1 searchParams now f d w),
        fst (recordClick env2 searchParams now f d w) with
  | Ok r1, Ok r2 =>
      Ledger.withoutLocation (click r1) = Ledger.withoutLocation (click r2)
      /\ redirectUrl r1 = redirectUrl r2 /\ analytics r1 = analytics r2
  | Throw m1, Throw m2 => m1 = m2
  | _, _ => False
  end
  /\ urls (snd (recordClick env1 searchParams now f d w))
     = urls (snd (recordClick env2 searchParams now f d w))
  /\ userTotalClicks (snd (recordClick env1 searchParams now f d w))
     = userTotalClicks (snd (recordClick env2 searchParams now f d w))
  /\ List.map Ledger.withoutLocation
       (clicks (snd (recordClick env1 searchParams now f d w)))
     = List.map Ledger.withoutLocation
         (clicks (snd (recordClick env2 searchParams now f d w))).
Proof.
  rewrite !RecordFacts.recordClick_run. unfold Pipeline.recordClick_cases.
  destruct (url_findById f); [now repeat split|].
  destruct (urls w !! urlId d) as [url|]; [|now repeat split].
  destruct (negb (isActive url)); [now repeat split|].
  destruct (isExpired url); [now repeat split|].
  destruct (Click.validate _); [now repeat split|].
  destruct (click_insert f); [now repeat split|].
  unfold Pipeline.afterUserStats, Pipeline.afterUrlStats.
  cbn [fst snd click redirectUrl analytics].
  destruct (url_findByIdAndUpdate f), (owner url),
    (user_findByIdAndUpdate f);
    cbn [urls clicks userTotalClicks set_urls set_clicks
         set_userTotalClicks set_geoLookups];
    rewrite ?List.map_app; cbn [List.map];
    rewrite !EnrichmentFacts.persisted_withoutLocation;
    repeat split; reflexivity.
Qed.

Module RejectionFacts.
Import Pipeline.

Lemma prepared_lengths searchParams d ip unique :
  let c := prepared searchParams d ip unique in
  Click.userAgent c = userAgent d /\ Click.referrer c = referrer d
  /\ Click.sessionId c = sessionId d.
Proof.
  unfold prepared.
  destruct (JsString.truthy (referrer d)); [|now repeat split].
  destruct (referrer d ≫= _extractCampaignData searchParams);
    now repeat split.
Qed.

Lemma validate_oversized c :
  Click.maxLength 1000 (Click.userAgent c) = false
  \/ Click.maxLength 500 (Click.referrer c) = false
  \/ Click.maxLength 100 (Click.sessionId c) = false ->
  Click.validate c <> None.
Proof.
  intros H. unfold Click.validate.
  destruct (String.eqb _ _); [discriminate|].
  destruct (negb (Click.ipAddressValidator _)); [discriminate|].
  destruct (Click.maxLength 1000 _); simpl; [|discriminate].
  destruct (Click.maxLength 500 _); simpl; [|discriminate].
  destruct H as [H | [H | H]]; try discriminate.
  rewrite H, !andb_false_r. discriminate.
Qed.

End RejectionFacts.

(** X4.  A submission whose user agent is longer than 1000 characters,
    whose referrer is longer than 500 or whose session id is longer than
    100 is never recorded: [recordClick] throws and the world is exactly
    as before, so that no click is stored, no counter moves and the geoip
    database is not even asked. *)
Theorem oversized_submission_is_rejected
    (env : Click.Env) (searchParams : string -> option (list (string * string)))
    (now : Instant) (f : Faults) (d : ClickData) (w : World) :
  Click.maxLength 1000 (userAgent d) = false
  \/ Click.maxLength 500 (referrer d) = false
  \/ Click.maxLength 100 (sessionId d) = false ->
  exists message,
    recordClick env searchParams now f d w = (Throw message, w).
Proof.
  intros H. rewrite RecordFacts.recordClick_run.
  unfold Pipeline.recordClick_cases.
  destruct (url_findById f); [eauto|].
  destruct (urls w !! urlId d) as [url|]; [|eauto].
  destruct (negb (isActive url)); [eauto|].
  destruct (isExpired url); [eauto|].
  set (ip := _normalizeIpAddress _ _).
  set (unique := Pipeline.uniqueFlag _ _ _ _).
  destruct (RejectionFacts.prepared_lengths searchParams d ip unique)
    as (Hu & Hr & Hs).
  destruct (Click.validate _) eqn:Hv; [eauto|].
  exfalso. revert Hv. apply RejectionFacts.validate_oversized.
  now rewrite Hu, Hr, Hs.
Qed.

(** A user agent of 1001 characters, sent to the active URL 1. *)
Lemma oversized_submission_is_rejected_witness :
  exists message,
    recordClick Examples.geoOn Examples.noParams 1000 noFaults
      (Examples.visit 1 "203.0.113.5" MoreExamples.longUserAgent)
      Examples.world
    = (Throw message, Examples.world).
Proof.
  apply oversized_submission_is_rejected. left. vm_compute. reflexivity.
Defined.

Module AppendFacts.
Import Pipeline Ledger.

Section Append.
Variable env : Click.Env.
Variable searchParams : string -> option (list (string * string)).

Lemma ingest_appends call w :
  clicks (Core.ingest env searchParams call w) = clicks w
  \/ exists c,
       clicks (Core.ingest env searchParams call w) = clicks w ++ [c]
       /\ storedBy call c.
Proof.
  destruct call as [[now f] d]. unfold Core.ingest, Core.exec. simpl.
  destruct (recordClick env searchParams now f d w) as [[r|m] w'] eqn:E;
    simpl.
  - right.
    apply OutcomeFacts.recordClick_returns in E
      as (url & _ & _ & _ & _ & _ & Hc & _).
    cbv zeta in Hc. eexists. split; [exact Hc|].
    unfold storedBy, Core.pairOf. cbn [fst snd].
    set (ip := _normalizeIpAddress _ _).
    set (unique := uniqueFlag _ _ _ _).
    destruct (OutcomeFacts.persisted_pair env searchParams now d ip
                unique) as (-> & -> & _).
    now repeat split.
  - left. now apply OutcomeFacts.recordClick_throws in E as (? & _).
Qed.

Lemma ingestAll_appends calls w :
  exists added,
    clicks (Core.ingestAll env searchParams calls w)
    = clicks w ++ added
    /\ (length added <= length calls)%nat
    /\ Forall (fun c => exists call, In call calls /\ storedBy call c)
              added.
Proof.
  revert w. induction calls as [|call calls IH]; intros w.
  - exists []. simpl. rewrite app_nil_r. repeat split; auto.
  - simpl.
    destruct (IH (Core.ingest env searchParams call w))
      as (added & E & Hl & Ha).
    assert (Ha' : Forall (fun c => exists call0,
                             In call0 (call :: calls)
                             /\ storedBy call0 c) added).
    { eapply Forall_impl; [exact Ha|]. simpl.
      intros c (call0 & Hin & Hs). exists call0. auto. }
    destruct (ingest_appends call w) as [Ec | (c & Ec & Hc)];
      rewrite Ec in E.
    + exists added. repeat split; auto.
    + exists (c :: added). rewrite E, <- app_assoc. simpl.
      repeat split; auto with arith.
      constructor; [|exact Ha']. exists call. split; [now left|exact Hc].
Qed.

End Append.
End AppendFacts.

(** X5.  Ingestion is append-only.  A run of ingestions leaves every click
    that was stored before it in place and unchanged, and adds at most one
    click per call, at the end, each under the pair of its submission and
    stamped with the instant of its call. *)
Theorem ingestion_is_append_only
    (env : Click.Env) (searchParams : string -> option (list (string * string)))
    (calls : list Core.Ingestion) (w : World) :
  exists added,
    clicks (Core.ingestAll env searchParams calls w) = clicks w ++ added
    /\ (length added <= length calls)%nat
    /\ Forall (fun c => exists call,
                          In call calls /\ Ledger.storedBy call c) added.
Proof. apply AppendFacts.ingestAll_appends. Qed.

(** * Further properties of the retention sweep *)

Module RetentionFacts.

Lemma filter_split_length {A} (p : A -> bool) (l : list A) :
  length l
  = (length (List.filter p l)
     + length (List.filter (fun d => negb (p d)) l))%nat.
Proof.
  induction l as [|x l IH]; simpl; [reflexivity|].
  destruct (p x); simpl; lia.
Qed.

Lemma cleanupOldClicks_run now f retentionDays w :
  click_deleteMany f = None ->
  let cutoffDate := (now - ClickModel.days (default 365 retentionDays))%Z in
  ClickModel.cleanupOldClicks now f retentionDays w
  = (Ok {| ClickModel.deletedCount :=
             N.of_nat (length (expiredClicks cutoffDate w));
           ClickModel.cutoffDate := cutoffDate;
           ClickModel.retentionDays := default 365%Z retentionDays |},
     set_clicks
       (List.filter (fun d => negb (ClickModel.olderThan cutoffDate d))
                    (clicks w)) w).
Proof.
  intros Hf cutoffDate.
  unfold ClickModel.cleanupOldClicks, tryCatch, bind, ret.
  now rewrite SweepFacts.deleteMany_run.
Qed.

End RetentionFacts.

(** X6.  [cleanupOldClicks], when the store accepts the deletion, removes
    exactly the clicks older than the cutoff: what is left are the clicks
    at or after the cutoff, in their order; the reported [deletedCount]
    and the clicks left add up to the clicks there were; nothing else in
    the world changes; and running it again at the same instant deletes
    nothing. *)
Theorem cleanupOldClicks_removes_exactly_the_expired
    (now : Instant) (f : Faults) (retentionDays : option Z) (w : World) :
  click_deleteMany f = None ->
  let cutoffDate := (now - ClickModel.days (default 365 retentionDays))%Z in
  exists result w',
    ClickModel.cleanupOldClicks now f retentionDays w = (Ok result, w')
    /\ clicks w'
       = List.filter (fun d => (cutoffDate <=? Click.clickedAt d)%Z)
                     (clicks w)
    /\ (N.of_nat (length (clicks w))
        = ClickModel.deletedCount result + N.of_nat (length (clicks w')))%N
    /\ urls w' = urls w /\ userTotalClicks w' = userTotalClicks w
    /\ exists again,
         ClickModel.cleanupOldClicks now f retentionDays w'
         = (Ok again, w')
         /\ ClickModel.deletedCount again = 0%N.
Proof.
  intros Hf cutoffDate.
  assert (Hkeep : forall l : list Click.Doc,
             List.filter (fun d => negb (ClickModel.olderThan cutoffDate d)) l
             = List.filter (fun d => (cutoffDate <=? Click.clickedAt d)%Z) l).
  { intros l. apply List.filter_ext. intros d. unfold ClickModel.olderThan.
    destruct (Z.ltb_spec (Click.clickedAt d) cutoffDate),
      (Z.leb_spec cutoffDate (Click.clickedAt d)); simpl; auto; lia. }
  eexists. eexists. split; [|split; [|split; [|split; [|split]]]].
  - now apply RetentionFacts.cleanupOldClicks_run.
  - cbn [clicks set_clicks]. apply Hkeep.
  - cbn [clicks set_clicks ClickModel.deletedCount]. unfold expiredClicks.
    rewrite (RetentionFacts.filter_split_length
               (ClickModel.olderThan cutoffDate) (clicks w)) at 1.
    fold cutoffDate. lia.
  - reflexivity.
  - reflexivity.
  - eexists. split.
    + rewrite RetentionFacts.cleanupOldClicks_run by assumption.
      fold cutoffDate. unfold expiredClicks. cbn [clicks set_clicks].
      rewrite SweepFacts.nothing_left, SweepFacts.survivors_stay.
      reflexivity.
    + reflexivity.
Qed.

(** Three clicks from the first milliseconds of 1970, swept 400 days
    later. *)
Lemma cleanupOldClicks_removes_exactly_the_expired_witness :
  exists result w',
    ClickModel.cleanupOldClicks (ClickModel.days 400) noFaults None
      Examples.agedWorld = (Ok result, w')
    /\ clicks w' = []
    /\ ClickModel.deletedCount result = 3%N.
Proof.
  destruct (cleanupOldClicks_removes_exactly_the_expired
              (ClickModel.days 400) noFaults None Examples.agedWorld eq_refl)
    as (result & w' & E & Hc & Hn & _).
  exists result, w'. split; [exact E|].
  assert (Hw : clicks w' = []) by (rewrite Hc; vm_compute; reflexivity).
  split; [exact Hw|].
  rewrite Hw in Hn. simpl in Hn. lia.
Defined.

(** X7.  Uniqueness is judged against the clicks that are still stored.
    Once [cleanupOldClicks] has removed every click of a pair, the next
    click recorded for that pair (its lookup succeeding) is stored with
    [isUnique = true] again, although the pair had been seen before. *)
Theorem retention_makes_a_pair_unique_again
    (env : Click.Env) (searchParams : string -> option (list (string * string)))
    (sweptAt : Instant) (f0 : Faults) (retentionDays : option Z)
    (now : Instant) (f : Faults) (d : ClickData) (w : World)
    (r : Recorded) (w' : World) :
  click_deleteMany f0 = None ->
  Forall (fun c => (Click.clickedAt c
                    < sweptAt - ClickModel.days (default 365 retentionDays))%Z)
         (clicksOfPair (fst (Core.pairOf d)) (snd (Core.pairOf d)) w) ->
  click_findOne f = None ->
  recordClick env searchParams now f d
    (snd (ClickModel.cleanupOldClicks sweptAt f0 retentionDays w))
  = (Ok r, w') ->
  Click.isUnique (click r) = true.
Proof.
  intros Hf0 Hold Hf E.
  rewrite RetentionFacts.cleanupOldClicks_run in E by assumption.
  cbn [snd] in E.
  apply OutcomeFacts.recordClick_returns in E
    as (url & _ & _ & _ & _ & -> & _).
  cbv zeta. cbn [click].
  set (ip := _normalizeIpAddress _ _) in *.
  match goal with
  | |- context [Pipeline.persisted env now
                  (Pipeline.prepared searchParams d ip ?u)] =>
      destruct (OutcomeFacts.persisted_pair env searchParams now d ip u)
        as (_ & _ & ->)
  end.
  unfold Pipeline.uniqueFlag. rewrite Hf. cbn [clicks set_clicks].
  apply negb_true_iff. rewrite UniqueFacts.existsb_filter.
  apply negb_false_iff, bool_decide_eq_true.
  unfold clicksOfPair, Core.pairOf in Hold. cbn [fst snd] in Hold.
  fold ip in Hold.
  induction (clicks w) as [|c l IH]; [reflexivity|].
  cbn [List.filter] in *.
  destruct (ClickModel.olderThan _ c) eqn:Ho; cbn [negb List.filter] in *.
  - destruct (ClickModel.samePair (urlId d) ip c);
      [apply Forall_cons in Hold as [_ Hold]|]; now apply IH.
  - destruct (ClickModel.samePair (urlId d) ip c) eqn:Hs.
    + apply Forall_cons in Hold as [Hc _].
      unfold ClickModel.olderThan in Ho. apply Z.ltb_ge in Ho. lia.
    + now apply IH.
Qed.

(** URL 1 has three clicks from 203.0.113.5, the first of 1970; after the
    sweep 400 days later the same address is unique again. *)
Lemma retention_makes_a_pair_unique_again_witness :
  exists r w',
    recordClick Examples.geoOn Examples.noParams (ClickModel.days 401)
      noFaults (Examples.visit 1 "203.0.113.5" Examples.chrome)
      (snd (ClickModel.cleanupOldClicks (ClickModel.days 400) noFaults None
              Examples.agedWorld))
    = (Ok r, w')
    /\ length (clicksOfPair 1 "203.0.113.5" Examples.agedWorld) = 3%nat
    /\ Click.isUnique (click r) = true.
Proof.
  eexists. eexists. split; [|split].
  - vm_compute. reflexivity.
  - reflexivity.
  - eapply (retention_makes_a_pair_unique_again
              Examples.geoOn Examples.noParams (ClickModel.days 400)
              noFaults None (ClickModel.days 401) noFaults
              (Examples.visit 1 "203.0.113.5" Examples.chrome)
              Examples.agedWorld).
    + reflexivity.
    + apply (bool_decide_unpack _). vm_compute. reflexivity.
    + reflexivity.
    + vm_compute. reflexivity.
Defined.

(** X8.  A recorded click of a URL with an owner adds exactly 1 to the
    [totalClicks] of the owner's user document and touches no other user
    document; it never creates a user document; a URL without owner, or a
    failing user update (which is logged and goes no further), leaves the
    user collection as it was. *)
Theorem owner_total_clicks_follow_recorded_clicks
    (env : Click.Env) (searchParams : string -> option (list (string * string)))
    (now : Instant) (f : Faults) (d : ClickData) (w : World)
    (r : Recorded) (w' : World) (url : Url) :
  recordClick env searchParams now f d w = (Ok r, w') ->
  urls w !! urlId d = Some url ->
  match owner url, user_findByIdAndUpdate f with
  | Some userId, None =>
      userTotalClicks w' !! userId
      = (fun t => (t + 1)%N) <$> userTotalClicks w !! userId
      /\ forall other, other <> userId ->
                       userTotalClicks w' !! other
                       = userTotalClicks w !! other
  | _, _ => userTotalClicks w' = userTotalClicks w
  end.
Proof.
  intros E Hurl.
  apply OutcomeFacts.recordClick_returns in E
    as (url0 & Eurl & _ & _ & _ & _ & _ & _ & Hu & _).
  rewrite Hurl in Eurl. injection Eurl as <-. cbv zeta in Hu.
  destruct (owner url) as [userId|]; [|exact Hu].
  destruct (user_findByIdAndUpdate f); [exact Hu|].
  rewrite Hu. split; [apply lookup_alter_eq|].
  intros other Hne. now apply lookup_alter_ne.
Qed.

(** URL 1 belongs to user 7, who has 5 clicks; a visit makes them 6. *)
Lemma owner_total_clicks_follow_recorded_clicks_witness :
  exists r w',
    recordClick Examples.geoOn Examples.noParams 1000 noFaults
      (Examples.visit 1 "203.0.113.5" Examples.chrome)
      MoreExamples.ownedWorld = (Ok r, w')
    /\ userTotalClicks w' !! 7%N = Some 6%N.
Proof.
  eexists. eexists.
  assert (E : recordClick Examples.geoOn Examples.noParams 1000 noFaults
                (Examples.visit 1 "203.0.113.5" Examples.chrome)
                MoreExamples.ownedWorld = (Ok _, _))
    by (vm_compute; reflexivity).
  split; [exact E|].
  pose proof (owner_total_clicks_follow_recorded_clicks
                Examples.geoOn Examples.noParams 1000%Z noFaults
                (Examples.visit 1 "203.0.113.5" Examples.chrome)
                MoreExamples.ownedWorld _ _
                {| isActive := true; isExpired := false;
                   originalUrl := "https://example.org/";
                   owner := Some 7%N; clickCount := 0;
                   Store.uniqueClicks := 0; lastClickedAt := None |}
                E eq_refl) as H.
  cbn [owner user_findByIdAndUpdate noFaults] in H.
  destruct H as [H _]. rewrite H. reflexivity.
Defined.

(** * Further properties of the IP normaliser *)

Module NormalizerMore.
Import Regex StringFacts Ipv4Facts NormalizerFacts ServiceHelpers.

Lemma startsWith_app (p s : string) : startsWith (p ++ s) p = true.
Proof.
  unfold startsWith. induction p as [|a p IH];
    [destruct s; reflexivity|].
  rewrite append_cons. simpl.
  destruct (ascii_dec a a); [exact IH | congruence].
Qed.

Lemma normalize_is_valid ip headers :
  isValidIPv4 (_normalizeIpAddress ip headers) = true.
Proof.
  unfold _normalizeIpAddress.
  destruct (firstValid (ipSources ip headers)) as [s|] eqn:E; simpl.
  - eapply firstValid_valid, E.
  - reflexivity.
Qed.

Lemma normalize_of_valid s headers :
  isValidIPv4 s = true -> _normalizeIpAddress (Some s) headers = s.
Proof.
  intros Hs.
  destruct (valid_starts_with_digit _ Hs) as (c & r & -> & _).
  destruct (ipSources_direct c r headers) as [rest E].
  unfold _normalizeIpAddress. rewrite E. simpl.
  now rewrite (normalizeCandidate_valid _ Hs), Hs.
Qed.

Lemma valid_passes_validator s :
  isValidIPv4 s = true ->
  Click.ipAddressValidator s = true /\ String.eqb s "" = false.
Proof.
  intros Hs. split.
  - unfold isValidIPv4 in Hs. unfold Click.ipAddressValidator.
    destruct (ipv4Regex s); [reflexivity | discriminate].
  - destruct (valid_starts_with_digit _ Hs) as (c & r & -> & _).
    reflexivity.
Qed.

Lemma prepared_device searchParams d ip unique :
  Click.device (Pipeline.prepared searchParams d ip unique)
  = default Click.defaultDevice (device d).
Proof.
  unfold Pipeline.prepared.
  destruct (truthy (referrer d)); [|reflexivity].
  destruct (referrer d ≫= _extractCampaignData searchParams);
    reflexivity.
Qed.

Lemma validate_prepared searchParams d headers0 unique :
  withinLimits d = true ->
  Click.validate
    (Pipeline.prepared searchParams d
       (_normalizeIpAddress (ipAddress d) headers0) unique) = None.
Proof.
  intros H. unfold withinLimits in H.
  apply andb_true_iff in H as [H Hdev].
  apply andb_true_iff in H as [H Hs].
  apply andb_true_iff in H as [Hu Hr].
  set (ip := _normalizeIpAddress _ _).
  destruct (RejectionFacts.prepared_lengths searchParams d ip unique)
    as (Eu & Er & Es).
  destruct (DocFacts.prepared_fields searchParams d ip unique)
    as (_ & Ei & _).
  destruct (valid_passes_validator ip (normalize_is_valid _ _))
    as [Hv Hne].
  unfold Click.validate.
  rewrite Ei, Hne, Hv, Eu, Er, Es, Hu, Hr, Hs, prepared_device.
  cbn [negb].
  destruct (device d) as [dev|]; cbn [default].
  - unfold id. rewrite Hdev. reflexivity.
  - reflexivity.
Qed.

End NormalizerMore.

(** X9.  Normalising is idempotent: the result of [_normalizeIpAddress],
    given back as the direct address with any headers at all, comes out
    unchanged. *)
Theorem normalizeIpAddress_is_idempotent
    (ip : option string) (headers headers' : gmap string string) :
  _normalizeIpAddress (Some (_normalizeIpAddress ip headers)) headers'
  = _normalizeIpAddress ip headers.
Proof.
  apply NormalizerMore.normalize_of_valid,
    NormalizerMore.normalize_is_valid.
Qed.

(** X10.  An IPv4-mapped IPv6 address, ["::ffff:"] followed by a valid
    IPv4 address, normalises to that IPv4 address, whatever the headers. *)
Theorem mapped_ipv6_gives_the_ipv4_address
    (s : string) (headers : gmap string string) :
  DottedQuad s ->
  _normalizeIpAddress (Some ("::ffff:" ++ s)%string) headers = s.
Proof.
  intros Hs. apply Ipv4Facts.isValidIPv4_spec in Hs.
  unfold _normalizeIpAddress, ipSources.
  change ("::ffff:" ++ s)%string
    with (String ":" (String ":" (String "f" (String "f" (String "f"
            (String "f" (String ":" s))))))).
  cbn [omap list_omap truthy]. cbn [firstValid].
  assert (E : normalizeCandidate
                (String ":" (String ":" (String "f" (String "f" (String "f"
                   (String "f" (String ":" s))))))) = s).
  { unfold normalizeCandidate.
    rewrite (NormalizerMore.startsWith_app "::ffff:" s : startsWith
              (String ":" (String ":" (String "f" (String "f" (String "f"
                 (String "f" (String ":" s)))))))
              "::ffff:" = true).
    cbn [substring_from].
    pose proof (NormalizerFacts.normalizeCandidate_valid _ Hs) as Hn.
    unfold normalizeCandidate in Hn.
    destruct (NormalizerFacts.valid_starts_with_digit _ Hs)
      as (c & r & -> & Hc).
    rewrite !NormalizerFacts.eqb_other_head
      by (eapply NormalizerFacts.digit_is_not; [exact Hc | reflexivity]).
    reflexivity. }
  rewrite E, Hs. reflexivity.
Qed.

(** The mapped form of 192.168.1.1. *)
Lemma mapped_ipv6_gives_the_ipv4_address_witness :
  _normalizeIpAddress (Some "::ffff:192.168.1.1") ∅ = "192.168.1.1".
Proof.
  apply (mapped_ipv6_gives_the_ipv4_address "192.168.1.1" ∅).
  apply Ipv4Facts.isValidIPv4_spec. vm_compute. reflexivity.
Defined.

(** X11.  [recordClick] returns whenever the URL lookup and the insertion
    go through, the URL is found, active and not expired, and the strings
    of the submission are within the limits of the schema: whatever the
    raw address and the headers are (the stored address always passes the
    validator of the schema), whatever the enrichment does, and whether or
    not the uniqueness lookup and the counter updates fail. *)
Theorem recordClick_returns_for_every_address
    (env : Click.Env) (searchParams : string -> option (list (string * string)))
    (now : Instant) (f : Faults) (d : ClickData) (w : World) (url : Url) :
  url_findById f = None -> click_insert f = None ->
  urls w !! urlId d = Some url ->
  isActive url = true -> isExpired url = false ->
  ServiceHelpers.withinLimits d = true ->
  Click.ipAddressValidator
    (_normalizeIpAddress (ipAddress d) (default ∅ (headers d))) = true
  /\ exists r w',
       recordClick env searchParams now f d w = (Ok r, w')
       /\ Click.ipAddress (click r)
          = _normalizeIpAddress (ipAddress d) (default ∅ (headers d))
       /\ redirectUrl r = originalUrl url.
Proof.
  intros Hf Hi Hurl Ha He Hl. split.
  - apply NormalizerMore.valid_passes_validator,
      NormalizerMore.normalize_is_valid.
  - rewrite RecordFacts.recordClick_run.
    unfold Pipeline.recordClick_cases.
    rewrite Hf, Hurl, Ha, He, Hi. cbn [negb].
    rewrite NormalizerMore.validate_prepared by assumption.
    eexists. eexists. split; [reflexivity|]. cbn [click redirectUrl].
    split; [|reflexivity].
    match goal with
    | |- context [Pipeline.persisted env now
                    (Pipeline.prepared searchParams d ?ip ?u)] =>
        destruct (OutcomeFacts.persisted_pair env searchParams now d ip u)
          as (_ & -> & _)
    end.
    reflexivity.
Qed.

(** A submission whose address is no address at all is recorded under
    127.0.0.1. *)
Lemma recordClick_returns_for_every_address_witness :
  exists r w',
    recordClick Examples.geoOn Examples.noParams 1000 Examples.findOneFails
      (Examples.visit 1 "not-an-address" Examples.chrome) Examples.world
    = (Ok r, w')
    /\ Click.ipAddress (click r) = "127.0.0.1".
Proof.
  destruct (recordClick_returns_for_every_address
              Examples.geoOn Examples.noParams 1000 Examples.findOneFails
              (Examples.visit 1 "not-an-address" Examples.chrome)
              Examples.world (Examples.url true false)
              eq_refl eq_refl eq_refl eq_refl eq_refl eq_refl)
    as (_ & r & w' & E & Hip & _).
  exists r, w'. split; [exact E|]. rewrite Hip. vm_compute. reflexivity.
Defined.

Module ForwardedFacts.
Import Regex StringFacts ServiceHelpers.

Lemma trimEnd_head (c : ascii) (s : string) :
  isWhiteSpace c = false ->
  exists r, trimEnd (String c s) = String c r.
Proof.
  intros Hc. cbn [trimEnd]. destruct (trimEnd s); rewrite ?Hc; eauto.
Qed.

(** A trimmed text does not begin with white space. *)
Lemma trim_head (s : string) (c : ascii) (r : string) :
  trim s = String c r -> isWhiteSpace c = false.
Proof.
  unfold trim. induction s as [|a s IH]; cbn [trimStart].
  - discriminate.
  - destruct (isWhiteSpace a) eqn:Ha; [exact IH|].
    destruct (trimEnd_head a s Ha) as [r' ->]. now intros [= <- _].
Qed.

Lemma find_first {A} (p : A -> bool) (l : list A) (x : A) :
  List.find p l = Some x ->
  exists before after,
    l = before ++ x :: after /\ p x = true
    /\ Forall (fun y => p y = false) before.
Proof.
  induction l as [|y l IH]; simpl; [discriminate|].
  destruct (p y) eqn:Hy.
  - intros [= ->]. exists [], l. repeat split; auto.
  - intros H. destruct (IH H) as (before & after & -> & Hx & Hb).
    exists (y :: before), after. repeat split; auto.
Qed.

Lemma find_none {A} (p : A -> bool) (l : list A) :
  List.find p l = None -> Forall (fun y => p y = false) l.
Proof.
  induction l as [|y l IH]; simpl; [constructor|].
  destruct (p y) eqn:Hy; [discriminate|]. auto.
Qed.

End ForwardedFacts.

(** X12.  What [extractFromForwardedFor] takes from a non-empty
    [x-forwarded-for] chain.  It answers with the first entry, trimmed,
    that [_isPublicIP] calls public, whatever stands before it; when no
    entry is public it answers with the first entry, and with nothing when
    that entry is blank.  An answer is never empty and never begins with
    white space. *)
Theorem forwarded_for_prefers_the_first_public_entry
    (c0 : ascii) (rest : string) :
  let chain := String c0 rest in
  let entries := ServiceHelpers.chainEntries chain in
  match extractFromForwardedFor (Some chain) with
  | Some candidate =>
      (exists before after,
          entries = before ++ candidate :: after
          /\ Forall (fun e => _isPublicIP (Some e) = false) before
          /\ (_isPublicIP (Some candidate) = true
              \/ before = []
                 /\ Forall (fun e => _isPublicIP (Some e) = false) after))
      /\ exists c r, candidate = String c r /\ isWhiteSpace c = false
  | None =>
      Forall (fun e => _isPublicIP (Some e) = false) entries
      /\ head entries = Some ""
  end.
Proof.
  cbv zeta. unfold extractFromForwardedFor, ServiceHelpers.chainEntries.
  set (entries := List.map trim (split "," (String c0 rest))).
  assert (Hne : entries <> []).
  { subst entries. cbn [split].
    destruct (Ascii.eqb c0 ","); [discriminate|].
    destruct (split "," rest); discriminate. }
  destruct (List.find _ entries) as [candidate|] eqn:E.
  - apply ForwardedFacts.find_first in E
      as (before & after & He & Hp & Hb).
    split; [exists before, after; auto|].
    destruct candidate as [|c r]; [discriminate|].
    exists c, r. split; [reflexivity|].
    assert (Hin : In (String c r) entries)
      by (rewrite He; apply in_or_app; right; now left).
    subst entries. apply in_map_iff in Hin as (x & Hx & _).
    eapply ForwardedFacts.trim_head, Hx.
  - apply ForwardedFacts.find_none in E.
    destruct entries as [|e after] eqn:Ee; [congruence|].
    destruct e as [|c r].
    + split; [exact E | reflexivity].
    + split.
      * exists [], after. repeat split; auto. right. split; [reflexivity|].
        now apply Forall_cons in E as [_ E].
      * exists c, r. split; [reflexivity|].
        assert (Hin : In (String c r)
                         (List.map trim (split "," (String c0 rest))))
          by (fold entries; rewrite Ee; now left).
        apply in_map_iff in Hin as (x & Hx & _).
        eapply ForwardedFacts.trim_head, Hx.
Qed.

(** X13.  The two classifiers of local addresses disagree in this
    direction as well: an address that begins with ["169.254."], ["224."]
    or ["0."], or with ["127."] without being ["127.0.0.1"], is not public
    for [_isPublicIP], and yet the geolocation hook of a new click hands
    it to the geoip database. *)
Theorem reserved_addresses_are_looked_up
    (env : Click.Env) (d : Click.Doc) :
  Click.isNew d = true ->
  Click.enableGeolocation env = true ->
  (startsWith (Click.ipAddress d) "169.254." = true
   \/ startsWith (Click.ipAddress d) "224." = true
   \/ startsWith (Click.ipAddress d) "0." = true
   \/ startsWith (Click.ipAddress d) "127." = true
      /\ Click.ipAddress d <> "127.0.0.1") ->
  _isPublicIP (Some (Click.ipAddress d)) = false
  /\ snd (Click.geolocationHook env d) = [Click.ipAddress d].
Proof.
  intros Hn He H.
  assert (Hcls : _isPublicIP (Some (Click.ipAddress d)) = false
                 /\ Click.isLocalOrPrivate (Click.ipAddress d) = false
                 /\ truthy (Some (Click.ipAddress d)) = true).
  { destruct H as [H | [H | [H | [H Hne]]]];
      apply BotFacts.prefix_app in H as [r Hr]; rewrite Hr in *.
    - change ("169.254." ++ r)%string
        with (String "1" (String "6" (String "9" (String "."
                (String "2" (String "5" (String "4" (String "." r)))))))).
      destruct r; repeat split; vm_compute; reflexivity.
    - change ("224." ++ r)%string
        with (String "2" (String "2" (String "4" (String "." r)))).
      destruct r; repeat split; vm_compute; reflexivity.
    - change ("0." ++ r)%string with (String "0" (String "." r)).
      destruct r; repeat split; vm_compute; reflexivity.
    - change ("127." ++ r)%string
        with (String "1" (String "2" (String "7" (String "." r)))) in *.
      split; [destruct r; vm_compute; reflexivity|].
      split; [|reflexivity].
      unfold Click.isLocalOrPrivate.
      apply String.eqb_neq in Hne. rewrite Hne.
      destruct r; vm_compute; reflexivity. }
  destruct Hcls as (Hp & Hl & Ht). split; [exact Hp|].
  unfold Click.geolocationHook. rewrite Hn, He, Ht, Hl. cbn [andb].
  destruct (Click.geoip_lookup env (Click.ipAddress d)); reflexivity.
Qed.

(** A new click from the link-local address 169.254.10.20. *)
Lemma reserved_addresses_are_looked_up_witness :
  _isPublicIP (Some "169.254.10.20") = false
  /\ snd (Click.geolocationHook Examples.geoOn
            (Pipeline.prepared Examples.noParams
               (Examples.visit 1 "169.254.10.20" Examples.chrome)
               "169.254.10.20" true)) = ["169.254.10.20"].
Proof.
  apply (reserved_addresses_are_looked_up Examples.geoOn
           (Pipeline.prepared Examples.noParams
              (Examples.visit 1 "169.254.10.20" Examples.chrome)
              "169.254.10.20" true) eq_refl eq_refl).
  left. reflexivity.
Defined.

(** X14.  [_getIPSource] names a source by the headers that are present,
    not by the source the normaliser took the address from: with a valid
    direct address and a [cf-connecting-ip] header the normaliser returns
    the direct address while the label is ["cloudflare"]; and the label is
    ["direct"] or ["unknown"] only when none of the four headers it looks
    at is present. *)
Theorem ip_source_label_ignores_the_source_used
    (rawIp : option string) (headers : gmap string string) :
  (forall s v,
      rawIp = Some s -> DottedQuad s ->
      headers !! "cf-connecting-ip" = Some v -> v <> "" ->
      _normalizeIpAddress rawIp headers = s
      /\ ServiceHelpers._getIPSource rawIp headers = "cloudflare")
  /\ (ServiceHelpers._getIPSource rawIp headers = "direct"
      \/ ServiceHelpers._getIPSource rawIp headers = "unknown" ->
      truthy (headers !! "cf-connecting-ip") = false
      /\ truthy (headers !! "x-real-ip") = false
      /\ truthy (headers !! "x-forwarded-for") = false
      /\ truthy (headers !! "x-client-ip") = false).
Proof.
  split.
  - intros s v -> Hs Hv Hne. split.
    + apply NormalizerMore.normalize_of_valid.
      now apply Ipv4Facts.isValidIPv4_spec.
    + unfold ServiceHelpers._getIPSource. rewrite Hv.
      destruct v; [congruence | reflexivity].
  - unfold ServiceHelpers._getIPSource.
    destruct (truthy (headers !! "cf-connecting-ip"));
      [intros [H|H]; discriminate|].
    destruct (truthy (headers !! "x-real-ip"));
      [intros [H|H]; discriminate|].
    destruct (truthy (headers !! "x-forwarded-for"));
      [intros [H|H]; discriminate|].
    destruct (truthy (headers !! "x-client-ip"));
      [intros [H|H]; discriminate|].
    auto.
Qed.

(** A direct public address behind a Cloudflare header. *)
Lemma ip_source_label_ignores_the_source_used_witness :
  _normalizeIpAddress (Some "203.0.113.5")
    (<["cf-connecting-ip" := "198.51.100.7"]> ∅) = "203.0.113.5"
  /\ ServiceHelpers._getIPSource (Some "203.0.113.5")
       (<["cf-connecting-ip" := "198.51.100.7"]> ∅) = "cloudflare".
Proof.
  apply (proj1 (ip_source_label_ignores_the_source_used
                  (Some "203.0.113.5")
                  (<["cf-connecting-ip" := "198.51.100.7"]> ∅))
               "203.0.113.5" "198.51.100.7" eq_refl).
  - apply Ipv4Facts.isValidIPv4_spec. vm_compute. reflexivity.
  - vm_compute. reflexivity.
  - discriminate.
Defined.

(** * Further properties of the bot detector *)

Module CaseFacts.
Import Regex StringFacts BotFacts.

Lemma toLowerAscii_idem (c : ascii) :
  toLowerAscii (toLowerAscii c) = toLowerAscii c.
Proof.
  destruct c as [[] [] [] [] [] [] [] []]; vm_compute; reflexivity.
Qed.

Lemma toLower_idem (s : string) : toLower (toLower s) = toLower s.
Proof.
  induction s as [|c s IH]; simpl; [reflexivity|].
  now rewrite toLowerAscii_idem, IH.
Qed.

Lemma toLower_app (a b : string) :
  toLower (a ++ b) = (toLower a ++ toLower b)%string.
Proof.
  induction a as [|c a IH]; [reflexivity|].
  rewrite append_cons. simpl. now rewrite IH, append_cons.
Qed.

(** A cut of the folded text is the fold of a cut of the text. *)
Lemma toLower_split (s x y : string) :
  toLower s = (x ++ y)%string ->
  exists x' y' : string,
    s = (x' ++ y')%string /\ toLower x' = x /\ toLower y' = y.
Proof.
  revert s. induction x as [|c x IH]; intros s H.
  - exists "", s. auto.
  - rewrite append_cons in H. destruct s as [|a s]; [discriminate|].
    simpl in H. injection H as Hc Hs.
    destruct (IH _ Hs) as (x' & y' & -> & Hx & Hy).
    exists (String a x'), y'. rewrite append_cons. simpl.
    now rewrite Hc, Hx.
Qed.

Lemma occurs_toLower (p s : string) :
  OccursIgnoringCase p (toLower s) <-> OccursIgnoringCase p s.
Proof.
  unfold OccursIgnoringCase. split.
  - intros (before & found & after & E & L).
    apply toLower_split in E as (b' & rest & -> & _ & E).
    apply toLower_split in E as (f' & a' & -> & Hf & _).
    exists b', f', a'. split; [reflexivity|].
    rewrite <- L, <- Hf. now rewrite toLower_idem.
  - intros (before & found & after & -> & L).
    exists (toLower before), (toLower found), (toLower after).
    rewrite !toLower_app, toLower_idem. auto.
Qed.

Lemma detectBot_toLower (ua : string) :
  Click.detectBot (toLower ua) = Click.detectBot ua.
Proof.
  apply eq_true_iff_eq. rewrite !detectBot_spec.
  split; intros (p & Hp & H); exists p; split; auto;
    now apply occurs_toLower.
Qed.

End CaseFacts.

(** X15.  The bot detector cannot be evaded by changing the case of ASCII
    letters or by wrapping the user agent in other text: two user agents
    that are equal up to ASCII case get the same verdict, and a user agent
    that is a bot stays one with anything put before and after it. *)
Theorem bot_verdict_survives_case_and_context :
  (forall ua ua' : string,
      toLower ua = toLower ua' -> Click.detectBot ua = Click.detectBot ua')
  /\ (forall before ua after : string,
        Click.detectBot ua = true ->
        Click.detectBot (before ++ ua ++ after) = true).
Proof.
  split.
  - intros ua ua' H.
    now rewrite <- (CaseFacts.detectBot_toLower ua), H,
      CaseFacts.detectBot_toLower.
  - intros before ua after H.
    apply BotFacts.detectBot_spec in H as (p & Hp & b & fnd & a & -> & L).
    apply BotFacts.detectBot_spec. exists p. split; [exact Hp|].
    exists (before ++ b)%string, fnd, (a ++ after)%string.
    split; [|exact L].
    now rewrite !StringFacts.append_assoc.
Qed.

(** ["GOOGLEBOT"] and ["googlebot"], and a crawler name inside a longer
    user agent. *)
Lemma bot_verdict_survives_case_and_context_witness :
  Click.detectBot "GOOGLEBOT" = Click.detectBot "googlebot"
  /\ Click.detectBot ("Mozilla/5.0 (" ++ "Baiduspider" ++ "; +http://x)")
     = true.
Proof.
  split.
  - apply (proj1 bot_verdict_survives_case_and_context). reflexivity.
  - apply (proj2 bot_verdict_survives_case_and_context). reflexivity.
Defined.

(** * The aggregation stages *)

Module AggregateFacts.
Import Mongo Reports.

Lemma total_app {A} (count : A -> N) (l1 l2 : list A) :
  total count (l1 ++ l2) = (total count l1 + total count l2)%N.
Proof.
  unfold total. induction l1 as [|x l1 IH]; cbn [app List.map fold_right].
  - lia.
  - rewrite IH. lia.
Qed.

Lemma total_perm {A} (count : A -> N) (l1 l2 : list A) :
  Permutation l1 l2 -> total count l1 = total count l2.
Proof.
  unfold total.
  induction 1; cbn [List.map fold_right]; try lia; congruence.
Qed.

Lemma total_map {A B} (f : A -> B) (count : B -> N) (l : list A) :
  total count (List.map f l) = total (fun a => count (f a)) l.
Proof. unfold total. now rewrite List.map_map. Qed.

Lemma total_take {A} (count : A -> N) (n : nat) (l : list A) :
  (total count (take n l) <= total count l)%N.
Proof.
  rewrite <- (take_drop n l) at 2. rewrite total_app. lia.
Qed.

Lemma total_filter {A} (count : A -> N) (p : A -> bool) (l : list A) :
  (total count (List.filter p l) <= total count l)%N.
Proof.
  unfold total. induction l as [|x l IH]; cbn [List.filter]; [lia|].
  destruct (p x); cbn [List.map fold_right]; lia.
Qed.

Lemma total_ones {A} (l : list A) :
  total (fun _ => 1%N) l = N.of_nat (length l).
Proof.
  unfold total. induction l as [|x l IH]; [reflexivity|].
  cbn [List.map fold_right length]. rewrite IH. lia.
Qed.

(** ** [$group] *)

Section Grouping.
Context {D K : Type} `{EqDecision K}.
Implicit Types (key : D -> K) (gs : list (K * list D)).

Lemma group_snoc key docs d :
  group key (docs ++ [d]) = addToGroup (key d) d (group key docs).
Proof. unfold group. now rewrite fold_left_app. Qed.

Lemma addToGroup_total k d gs :
  total (fun g => N.of_nat (length (snd g))) (addToGroup k d gs)
  = (total (fun g : K * list D => N.of_nat (length (snd g))) gs + 1)%N.
Proof.
  unfold total. induction gs as [|[k' ds] gs IH]; [reflexivity|].
  cbn [addToGroup]. destruct (decide (k = k')).
  - cbn [List.map fold_right snd]. rewrite length_app. cbn [length]. lia.
  - cbn [List.map fold_right snd]. rewrite IH. lia.
Qed.

(** The groups share out the documents. *)
Lemma group_total key docs :
  total (fun g => N.of_nat (length (snd g))) (group key docs)
  = N.of_nat (length docs).
Proof.
  induction docs as [|d docs IH] using rev_ind; [reflexivity|].
  rewrite group_snoc, addToGroup_total, IH, length_app.
  cbn [length]. lia.
Qed.

Lemma addToGroup_old k d (F : K -> list D) (ks : list K) :
  List.NoDup ks -> In k ks ->
  addToGroup k d (List.map (fun k' => (k', F k')) ks)
  = List.map (fun k' => (k', if decide (k' = k) then F k' ++ [d]
                             else F k')) ks.
Proof.
  induction ks as [|k0 ks IH]; [intros _ []|].
  intros Hnd Hin. apply List.NoDup_cons_iff in Hnd as [Hk0 Hnd].
  cbn [List.map addToGroup].
  destruct (decide (k = k0)) as [->|Hne].
  - rewrite decide_True by reflexivity. f_equal.
    apply map_ext_in. intros k' Hk'.
    rewrite decide_False; [reflexivity | congruence].
  - rewrite decide_False by congruence. f_equal.
    apply IH; [exact Hnd|]. destruct Hin; [congruence | assumption].
Qed.

Lemma addToGroup_new k d (F : K -> list D) (ks : list K) :
  ~ In k ks ->
  addToGroup k d (List.map (fun k' => (k', F k')) ks)
  = List.map (fun k' => (k', F k')) ks ++ [(k, [d])].
Proof.
  induction ks as [|k0 ks IH]; [reflexivity|].
  intros Hin. cbn [List.map addToGroup app].
  rewrite decide_False by (intros ->; apply Hin; now left).
  f_equal. apply IH. intros ?. apply Hin. now right.
Qed.

Lemma withKey_snoc key k docs d :
  withKey key k (docs ++ [d])
  = withKey key k docs ++ (if decide (key d = k) then [d] else []).
Proof.
  unfold withKey. rewrite List.filter_app. cbn [List.filter].
  destruct (decide (key d = k)).
  - now rewrite bool_decide_eq_true_2.
  - now rewrite bool_decide_eq_false_2.
Qed.

Lemma withKey_none key k docs :
  (forall d, In d docs -> key d <> k) -> withKey key k docs = [].
Proof.
  unfold withKey. induction docs as [|d docs IH]; [reflexivity|].
  intros Hk. cbn [List.filter].
  rewrite bool_decide_eq_false_2 by (apply Hk; now left).
  apply IH. intros d' Hd'. apply Hk. now right.
Qed.

(** What [$group] returns: one group for each key that occurs, without
    repetition, holding the documents of that key in input order. *)
Lemma group_spec key docs :
  exists ks : list K,
    List.NoDup ks
    /\ (forall k, In k ks <-> exists d, In d docs /\ key d = k)
    /\ group key docs
       = List.map (fun k => (k, withKey key k docs)) ks.
Proof.
  induction docs as [|d docs IH] using rev_ind.
  - exists []. split; [constructor|]. split; [|reflexivity].
    intros k. split; [intros [] | intros (d & [] & _)].
  - destruct IH as (ks & Hnd & Hks & E).
    rewrite group_snoc, E.
    destruct (decide (key d ∈ ks)) as [Hin|Hin];
      rewrite list_elem_of_In in Hin.
    + exists ks. split; [exact Hnd|]. split.
      * intros k. rewrite Hks. split.
        -- intros (d' & Hd' & Hk). exists d'. split; [|exact Hk].
           apply in_or_app. now left.
        -- intros (d' & Hd' & Hk).
           apply in_app_or in Hd' as [Hd'|[<-|[]]].
           ++ eauto.
           ++ subst k. now apply Hks.
      * rewrite addToGroup_old by assumption.
        apply map_ext. intros k. rewrite withKey_snoc.
        destruct (decide (k = key d)) as [->|Hne].
        -- now rewrite decide_True.
        -- rewrite decide_False by congruence. now rewrite app_nil_r.
    + exists (ks ++ [key d]). split; [|split].
      * apply NoDup_ListNoDup. apply NoDup_app.
        split; [now apply NoDup_ListNoDup|]. split.
        -- intros k Hk [<-|[]]%list_elem_of_In.
           apply Hin. now apply list_elem_of_In.
        -- apply NoDup_singleton.
      * intros k. rewrite in_app_iff, Hks. split.
        -- intros [(d' & Hd' & Hk)|[<-|[]]].
           ++ exists d'. split; [|exact Hk]. apply in_or_app. now left.
           ++ exists d. split; [|reflexivity].
              apply in_or_app. right. now left.
        -- intros (d' & Hd' & Hk).
           apply in_app_or in Hd' as [Hd'|[<-|[]]]; [left; eauto|].
           right. now left.
      * rewrite addToGroup_new by assumption.
        rewrite List.map_app. cbn [List.map]. f_equal.
        -- apply map_ext_in. intros k Hk. rewrite withKey_snoc.
           rewrite decide_False; [now rewrite app_nil_r|].
           intros Hkd. apply Hin. now rewrite Hkd.
        -- rewrite withKey_snoc, decide_True by reflexivity.
           rewrite withKey_none; [reflexivity|].
           intros d' Hd' Hk. apply Hin. apply Hks. eauto.
Qed.

(** The keys of the groups are pairwise different. *)
Lemma group_keys_NoDup key docs :
  List.NoDup (List.map fst (group key docs)).
Proof.
  destruct (group_spec key docs) as (ks & Hnd & _ & ->).
  rewrite List.map_map. cbn [fst]. now rewrite List.map_id.
Qed.

(** No group is empty, and a group holds documents of its key only. *)
Lemma group_members key docs k ds :
  In (k, ds) (group key docs) ->
  ds <> [] /\ ds = withKey key k docs.
Proof.
  destruct (group_spec key docs) as (ks & _ & Hks & ->).
  intros (k' & [= -> <-] & Hk)%in_map_iff. split; [|reflexivity].
  apply Hks in Hk as (d & Hd & Hk). unfold withKey.
  assert (Hin : In d (List.filter (fun d => bool_decide (key d = k))
                                  docs)).
  { apply filter_In. split; [exact Hd|].
    now apply bool_decide_eq_true_2. }
  intros E. now rewrite E in Hin.
Qed.

(** As many groups as there are different keys. *)
Lemma group_length key docs :
  N.of_nat (length (group key docs)) = sizeOfSet (List.map key docs).
Proof.
  destruct (group_spec key docs) as (ks & Hnd & Hks & ->).
  unfold sizeOfSet. rewrite length_map. f_equal.
  apply Permutation_length, NoDup_Permutation.
  - now apply NoDup_ListNoDup.
  - apply NoDup_remove_dups.
  - intros k. rewrite elem_of_remove_dups, !list_elem_of_In, Hks.
    rewrite in_map_iff. split; intros (d & ? & ?); eauto.
Qed.

Lemma group_nil key docs : group key docs = [] -> docs = [].
Proof.
  intros E. pose proof (group_total key docs) as Ht.
  rewrite E in Ht. cbn in Ht. destruct docs; [reflexivity|].
  cbn in Ht. lia.
Qed.
End Grouping.

(** [$group] on [null]: one group with everything, or none. *)
Lemma group_const {D} (docs : list D) :
  group (fun _ => tt) docs
  = match docs with [] => [] | _ :: _ => [(tt, docs)] end.
Proof.
  destruct (group_spec (fun _ : D => tt) docs) as (ks & Hnd & Hks & ->).
  assert (Hw : forall k, withKey (fun _ : D => tt) k docs = docs).
  { intros []. unfold withKey. clear.
    induction docs as [|d docs IH]; [reflexivity|].
    cbn [List.filter]. rewrite bool_decide_eq_true_2 by reflexivity.
    f_equal. apply IH. }
  destruct docs as [|d docs].
  - destruct ks as [|k ks]; [reflexivity|].
    destruct (proj1 (Hks k) (or_introl eq_refl)) as (? & [] & _).
  - destruct ks as [|[] ks].
    + destruct (proj2 (Hks tt)) as []. exists d. split; [now left|auto].
    + destruct ks as [|[] ks].
      * cbn [List.map]. now rewrite Hw.
      * apply List.NoDup_cons_iff in Hnd as [Hn _].
        destruct Hn. now left.
Qed.

(** ** [$sort] *)

Section Sorting.
Context {A : Type} (before : A -> A -> bool).
Hypothesis before_total :
  forall x y, before x y = false -> before y x = true.
Hypothesis before_trans :
  forall x y z, before x y = true -> before y z = true ->
                before x z = true.

Lemma insertBy_perm x l : Permutation (insertBy before x l) (x :: l).
Proof.
  induction l as [|y l IH]; cbn [insertBy]; [reflexivity|].
  destruct (before x y); [reflexivity|].
  rewrite IH. apply perm_swap.
Qed.

Lemma sortBy_perm l : Permutation (sortBy before l) l.
Proof.
  unfold sortBy. induction l as [|x l IH]; cbn [fold_right];
    [reflexivity|].
  rewrite insertBy_perm. now constructor.
Qed.

Lemma insertBy_ordered x l :
  ordered (fun a b => before a b = true) l ->
  ordered (fun a b => before a b = true) (insertBy before x l).
Proof.
  induction l as [|y l IH]; cbn [insertBy ordered].
  - auto.
  - intros [Hy Hl]. destruct (before x y) eqn:Hxy; cbn [ordered].
    + split; [|auto]. constructor; [exact Hxy|].
      eapply Forall_impl; [exact Hy|]. cbv beta. eauto.
    + split; [|auto].
      apply (Permutation_Forall (Permutation_sym (insertBy_perm x l))).
      constructor; auto.
Qed.

Lemma sortBy_ordered l :
  ordered (fun a b => before a b = true) (sortBy before l).
Proof.
  unfold sortBy. induction l as [|x l IH]; cbn [fold_right ordered];
    [exact I|].
  now apply insertBy_ordered.
Qed.
End Sorting.

Lemma ordered_take {A} (R : A -> A -> Prop) (n : nat) (l : list A) :
  ordered R l -> ordered R (take n l).
Proof.
  revert n. induction l as [|x l IH]; intros [|n]; cbn [take ordered];
    auto.
  intros [Hx Hl]. split; [|auto].
  apply Forall_take. exact Hx.
Qed.

Lemma ordered_impl {A} (R R' : A -> A -> Prop) (l : list A) :
  (forall x y, In x l -> In y l -> R x y -> R' x y) ->
  ordered R l -> ordered R' l.
Proof.
  induction l as [|x l IH]; cbn [ordered]; [auto|].
  intros HR [Hx Hl]. split.
  - apply Forall_forall. intros y Hy.
    rewrite Forall_forall in Hx. apply list_elem_of_In in Hy as Hy'.
    apply HR; [now left | now right | auto].
  - apply IH; [|exact Hl]. intros a b Ha Hb. apply HR; now right.
Qed.

Lemma sizeOfSet_le {A} `{EqDecision A} (l : list A) :
  (sizeOfSet l <= N.of_nat (length l))%N.
Proof.
  unfold sizeOfSet.
  assert (Hl : (length (remove_dups l) <= length l)%nat).
  { induction l as [|x l IH]; [reflexivity|].
    cbn [remove_dups length]. case_decide; cbn [length]; lia. }
  lia.
Qed.

Lemma sizeOfSet_pos {A} `{EqDecision A} (l : list A) :
  l <> [] -> (1 <= sizeOfSet l)%N.
Proof.
  unfold sizeOfSet. destruct l as [|x l]; [congruence|]. intros _.
  destruct (remove_dups (x :: l)) as [|y r] eqn:E.
  - assert (Hx : x ∈ remove_dups (x :: l))
      by (apply elem_of_remove_dups; now left).
    rewrite E in Hx. inversion Hx.
  - cbn [length]. lia.
Qed.

Lemma countIf_le {A} (p : A -> bool) (l : list A) :
  (countIf p l <= N.of_nat (length l))%N.
Proof.
  unfold countIf. pose proof (List.filter_length_le p l). lia.
Qed.

End AggregateFacts.

(** * The report of [getUrlAnalytics] *)

Module ReportFacts.
Import Mongo Reports AggregateFacts Pipeline.

Lemma selected_In now u options collection d :
  In d (selected now u options collection)
  <-> In d collection
      /\ ClickModel.matchStage u
           (default (now - ClickModel.days 30)%Z
                    (ClickModel.startDate options))
           (default now (ClickModel.endDate options))
           (default true (ClickModel.excludeBots options)) d = true.
Proof. unfold selected. apply filter_In. Qed.

Lemma selected_no_bot now u options collection :
  ClickModel.excludeBots options <> Some false ->
  Forall (fun d => Click.isBot d = false)
         (selected now u options collection).
Proof.
  intros Hx. apply List.Forall_forall. intros d [_ Hm]%selected_In.
  unfold ClickModel.matchStage in Hm.
  destruct (ClickModel.excludeBots options) as [[]|]; cbn [default] in Hm;
    try congruence.
  - apply andb_true_iff in Hm as [_ Hm]. now apply negb_true_iff.
  - apply andb_true_iff in Hm as [_ Hm]. now apply negb_true_iff.
Qed.

Lemma countIf_none {A} (p : A -> bool) (l : list A) :
  Forall (fun d => p d = false) l -> countIf p l = 0%N.
Proof.
  unfold countIf. induction 1 as [|d l Hd _ IH]; [reflexivity|].
  cbn [List.filter]. now rewrite Hd.
Qed.

Lemma omap_none {A B} (f : A -> option B) (l : list A) :
  Forall (fun d => f d = None) l -> omap f l = [].
Proof.
  induction 1 as [|d l Hd _ IH]; [reflexivity|].
  cbn [omap list_omap]. now rewrite Hd.
Qed.

(** The one row of the overview. *)
Lemma overview_run now options docs :
  ClickModel.overview (reportOn now options docs)
  = match docs with
    | [] => ClickModel.zeroOverview
    | _ :: _ =>
        {| ClickModel.totalClicks := N.of_nat (length docs);
           ClickModel.uniqueClicks := countIf Click.isUnique docs;
           ClickModel.botClicks := countIf Click.isBot docs;
           ClickModel.averageLoadTime := avg (omap Click.loadTime docs) |}
    end.
Proof.
  unfold reportOn. cbn [ClickModel.overview].
  unfold ClickModel.overviewFacet. rewrite group_const.
  destruct docs; reflexivity.
Qed.

(** Rows made from the groups and sorted. *)
Section Rows.
Context {K Row : Type} `{EqDecision K}.
Variable key : Click.Doc -> K.
Variable mk : K * list Click.Doc -> Row.
Variable before : Row -> Row -> bool.
Variable docs : list Click.Doc.

Let rows := sortBy before (List.map mk (group key docs)).

Lemma rows_perm : Permutation rows (List.map mk (group key docs)).
Proof. apply sortBy_perm. Qed.

Lemma rows_Forall (P : Row -> Prop) :
  (forall k ds, ds <> [] -> ds = withKey key k docs -> P (mk (k, ds))) ->
  List.Forall P rows.
Proof.
  intros HP. apply (Permutation_Forall (Permutation_sym rows_perm)).
  apply List.Forall_forall. intros row ([k ds] & <- & Hg)%in_map_iff.
  destruct (group_members _ _ _ _ Hg). now apply HP.
Qed.

Lemma rows_total (cnt : Row -> N) :
  (forall g, cnt (mk g) = N.of_nat (length (snd g))) ->
  total cnt rows = N.of_nat (length docs).
Proof.
  intros Hc. rewrite (total_perm _ _ _ rows_perm), total_map.
  rewrite <- (group_total key docs). unfold total. f_equal.
  apply map_ext. exact Hc.
Qed.

Lemma rows_NoDup (id : Row -> K) :
  (forall g, id (mk g) = fst g) -> List.NoDup (List.map id rows).
Proof.
  intros Hi.
  apply (Permutation_NoDup
           (Permutation_sym (Permutation_map id rows_perm))).
  rewrite List.map_map.
  rewrite (map_ext _ fst) by exact Hi. apply group_keys_NoDup.
Qed.

Lemma rows_length :
  N.of_nat (length rows) = sizeOfSet (List.map key docs).
Proof.
  rewrite (Permutation_length rows_perm), length_map.
  apply group_length.
Qed.
End Rows.

Lemma byCountDesc_ordered {K} (l : list (ClickModel.Counted K)) :
  ordered (fun x y => (ClickModel.count y <= ClickModel.count x)%N)
          (sortBy ClickModel.byCountDesc l).
Proof.
  eapply ordered_impl; [|apply sortBy_ordered].
  - intros x y _ _ Hxy. unfold ClickModel.byCountDesc in Hxy.
    now apply N.leb_le.
  - intros x y Hxy. unfold ClickModel.byCountDesc in *.
    apply N.leb_le. apply N.leb_gt in Hxy. lia.
  - intros x y z Hxy Hyz. unfold ClickModel.byCountDesc in *.
    apply N.leb_le. apply N.leb_le in Hxy, Hyz. lia.
Qed.

Lemma filter_length_total {A} (p : A -> bool) (l : list A) :
  (N.of_nat (length (List.filter p l)) <= N.of_nat (length l))%N.
Proof. pose proof (List.filter_length_le p l). lia. Qed.

End ReportFacts.

(** X16.  The overview of a report counts the clicks the report selects:
    [totalClicks] is their number and [uniqueClicks] the number of those
    stored as unique, so neither [uniqueClicks] nor [botClicks] exceeds
    [totalClicks]; unless bots are asked for with [excludeBots: false],
    [botClicks] is 0.  When clicks are selected but none carries a load
    time, [averageLoadTime] is [null], not the 0 of an empty selection. *)
Theorem overview_counts_the_selection
    (now : Instant) (f : Faults) (u : ObjectId)
    (options : ClickModel.Options) (w : World)
    (r : ClickModel.UrlAnalytics) (w' : World) :
  ClickModel.getUrlAnalytics now f u options w = (Ok r, w') ->
  let docs := Pipeline.selected now u options (clicks w) in
  let o := ClickModel.overview r in
  ClickModel.totalClicks o = N.of_nat (length docs)
  /\ ClickModel.uniqueClicks o
     = N.of_nat (length (List.filter Click.isUnique docs))
  /\ (ClickModel.uniqueClicks o <= ClickModel.totalClicks o)%N
  /\ (ClickModel.botClicks o <= ClickModel.totalClicks o)%N
  /\ (ClickModel.excludeBots options <> Some false ->
      ClickModel.botClicks o = 0%N)
  /\ (docs <> [] -> Forall (fun d => Click.loadTime d = None) docs ->
      ClickModel.averageLoadTime o = None).
Proof.
  rewrite QueryFacts.getUrlAnalytics_run.
  destruct (click_aggregate f); [discriminate|]. intros [= <- _].
  cbv zeta. rewrite ReportFacts.overview_run.
  pose proof (ReportFacts.selected_no_bot now u options (clicks w)) as Hb.
  destruct (Pipeline.selected now u options (clicks w)) as [|d docs].
  - cbn. repeat split; try lia; congruence.
  - cbn [ClickModel.totalClicks ClickModel.uniqueClicks
         ClickModel.botClicks ClickModel.averageLoadTime].
    split; [reflexivity|]. split; [reflexivity|].
    split; [apply AggregateFacts.countIf_le|].
    split; [apply AggregateFacts.countIf_le|].
    split.
    + intros Hx. apply ReportFacts.countIf_none. auto.
    + intros _ Hl. rewrite (ReportFacts.omap_none _ _ Hl). reflexivity.
Qed.

(** The report on URL 1 after the four visits: four clicks, two of them
    unique, no bot, and no average load time. *)
Lemma overview_counts_the_selection_witness :
  exists r w',
    ClickModel.getUrlAnalytics 5000 noFaults 1 ClickModel.defaultOptions
      ReportExamples.busyWorld = (Ok r, w')
    /\ ClickModel.totalClicks (ClickModel.overview r) = 4%N
    /\ ClickModel.uniqueClicks (ClickModel.overview r) = 2%N
    /\ ClickModel.botClicks (ClickModel.overview r) = 0%N
    /\ ClickModel.averageLoadTime (ClickModel.overview r) = None.
Proof.
  eexists. eexists.
  assert (E : ClickModel.getUrlAnalytics 5000 noFaults 1
                ClickModel.defaultOptions ReportExamples.busyWorld
              = (Ok _, _)) by (vm_compute; reflexivity).
  split; [exact E|].
  destruct (overview_counts_the_selection 5000 noFaults 1
              ClickModel.defaultOptions ReportExamples.busyWorld _ _ E)
    as (Ht & Hu & _ & _ & Hb & Hl).
  split; [rewrite Ht; vm_compute; reflexivity|].
  split; [rewrite Hu; vm_compute; reflexivity|].
  split; [apply Hb; discriminate|].
  apply Hl; [vm_compute; discriminate|].
  apply (bool_decide_unpack _). vm_compute. reflexivity.
Defined.

(** X17.  The breakdowns of a report share out the clicks of its overview.
    The rows by device, by hour and by day each add up to [totalClicks];
    the rows by country, by browser and by referrer, which leave out the
    clicks without the field and stop after ten rows, add up to at most
    [totalClicks]. *)
Theorem breakdowns_add_up_to_the_overview
    (now : Instant) (f : Faults) (u : ObjectId)
    (options : ClickModel.Options) (w : World)
    (r : ClickModel.UrlAnalytics) (w' : World) :
  ClickModel.getUrlAnalytics now f u options w = (Ok r, w') ->
  let n := ClickModel.totalClicks (ClickModel.overview r) in
  Reports.total ClickModel.count (ClickModel.byDevice r) = n
  /\ Reports.total ClickModel.hour_count (ClickModel.clicksByHour r) = n
  /\ Reports.total ClickModel.day_count (ClickModel.clicksByDay r) = n
  /\ (Reports.total ClickModel.country_count (ClickModel.byCountry r) <= n)%N
  /\ (Reports.total ClickModel.count (ClickModel.byBrowser r) <= n)%N
  /\ (Reports.total ClickModel.count (ClickModel.byReferrer r) <= n)%N.
Proof.
  rewrite QueryFacts.getUrlAnalytics_run.
  destruct (click_aggregate f); [discriminate|]. intros [= <- _].
  cbv zeta.
  assert (Hn : ClickModel.totalClicks
                 (ClickModel.overview
                    (Pipeline.reportOn now options
                       (Pipeline.selected now u options (clicks w))))
               = N.of_nat (length (Pipeline.selected now u options
                                     (clicks w)))).
  { rewrite ReportFacts.overview_run.
    destruct (Pipeline.selected now u options (clicks w)); reflexivity. }
  rewrite Hn. clear Hn.
  set (docs := Pipeline.selected now u options (clicks w)).
  unfold Pipeline.reportOn.
  cbn [ClickModel.byDevice ClickModel.clicksByHour ClickModel.clicksByDay
       ClickModel.byCountry ClickModel.byBrowser ClickModel.byReferrer].
  split; [|split; [|split; [|split; [|split]]]].
  - apply ReportFacts.rows_total. reflexivity.
  - apply ReportFacts.rows_total. reflexivity.
  - apply ReportFacts.rows_total. reflexivity.
  - unfold ClickModel.byCountryFacet.
    etransitivity; [apply AggregateFacts.total_take|].
    rewrite ReportFacts.rows_total by reflexivity.
    apply ReportFacts.filter_length_total.
  - unfold ClickModel.byBrowserFacet.
    etransitivity; [apply AggregateFacts.total_take|].
    rewrite ReportFacts.rows_total by reflexivity.
    apply ReportFacts.filter_length_total.
  - unfold ClickModel.byReferrerFacet.
    etransitivity; [apply AggregateFacts.total_take|].
    rewrite ReportFacts.rows_total by reflexivity.
    apply ReportFacts.filter_length_total.
Qed.

(** The report on URL 1 after the four visits. *)
Lemma breakdowns_add_up_to_the_overview_witness :
  exists r w',
    ClickModel.getUrlAnalytics 5000 noFaults 1 ClickModel.defaultOptions
      ReportExamples.busyWorld = (Ok r, w')
    /\ Reports.total ClickModel.count (ClickModel.byDevice r)
       = ClickModel.totalClicks (ClickModel.overview r)
    /\ Reports.total ClickModel.hour_count (ClickModel.clicksByHour r)
       = ClickModel.totalClicks (ClickModel.overview r).
Proof.
  eexists. eexists.
  assert (E : ClickModel.getUrlAnalytics 5000 noFaults 1
                ClickModel.defaultOptions ReportExamples.busyWorld
              = (Ok _, _)) by (vm_compute; reflexivity).
  split; [exact E|].
  destruct (breakdowns_add_up_to_the_overview 5000 noFaults 1
              ClickModel.defaultOptions ReportExamples.busyWorld _ _ E)
    as (Hd & Hh & _).
  split; [exact Hd | exact Hh].
Defined.

Module RankingFacts.
Import Mongo Reports AggregateFacts ReportFacts.

Lemma deviceTypes_bounded (l : list Click.DeviceType) :
  List.NoDup l -> (length l <= 5)%nat.
Proof.
  intros Hnd.
  apply (NoDup_incl_length Hnd
           (l' := [Click.desktop; Click.mobile; Click.tablet; Click.bot;
                   Click.unknown])).
  intros [] _; cbn; auto 6.
Qed.

Lemma NoDup_take {A} (n : nat) (l : list A) :
  List.NoDup l -> List.NoDup (take n l).
Proof.
  intros Hnd. rewrite <- (take_drop n l) in Hnd.
  now apply List.NoDup_app_remove_r in Hnd.
Qed.

Lemma withKey_filter {K} `{EqDecision K} (key : Click.Doc -> option K)
    (k : K) (dflt : K) (docs : list Click.Doc) :
  withKey (fun d => default dflt (key d)) k
    (List.filter (fun d => bool_decide (is_Some (key d))) docs)
  = List.filter (fun d => bool_decide (key d = Some k)) docs.
Proof.
  unfold withKey. induction docs as [|d docs IH]; [reflexivity|].
  cbn [List.filter]. destruct (key d) as [k'|] eqn:E.
  - rewrite bool_decide_eq_true_2 by eauto. cbn [List.filter].
    rewrite E. change (default dflt (Some k')) with k'.
    destruct (decide (k' = k)) as [->|Hne].
    + rewrite !bool_decide_eq_true_2 by reflexivity. now rewrite IH.
    + rewrite !bool_decide_eq_false_2 by congruence. exact IH.
  - rewrite bool_decide_eq_false_2 by (intros [? ?]; discriminate).
    rewrite bool_decide_eq_false_2 by discriminate. exact IH.
Qed.

Lemma countDesc_ordered {Row} (cnt : Row -> N) (before : Row -> Row -> bool)
    (l : list Row) :
  (forall x y, before x y = (cnt y <=? cnt x)%N) ->
  ordered (fun x y => (cnt y <= cnt x)%N) (sortBy before l).
Proof.
  intros Hb.
  apply (ordered_impl (fun a b => before a b = true));
    [|apply sortBy_ordered].
  - intros x y _ _ Hxy. cbv beta in Hxy. rewrite Hb in Hxy.
    now apply N.leb_le.
  - intros x y Hxy. rewrite Hb in *.
    apply N.leb_le. apply N.leb_gt in Hxy. lia.
  - intros x y z Hxy Hyz. rewrite Hb in *.
    apply N.leb_le. apply N.leb_le in Hxy, Hyz. lia.
Qed.

(** The first ten rows of a ranking by count. *)
Section TopTen.
Context {K Row : Type} `{EqDecision K}.
Variable key : Click.Doc -> K.
Variable mk : K * list Click.Doc -> Row.
Variable id : Row -> K.
Variable cnt : Row -> N.
Variable before : Row -> Row -> bool.
Variable docs : list Click.Doc.
Hypothesis mk_id : forall g, id (mk g) = fst g.
Hypothesis mk_cnt : forall g, cnt (mk g) = N.of_nat (length (snd g)).
Hypothesis before_cnt : forall x y, before x y = (cnt y <=? cnt x)%N.

Let top := take 10 (sortBy before (List.map mk (group key docs))).

Lemma top_facts :
  (length top <= 10)%nat
  /\ List.NoDup (List.map id top)
  /\ ordered (fun x y => (cnt y <= cnt x)%N) top
  /\ List.Forall
       (fun x => cnt x = N.of_nat (length (withKey key (id x) docs))
                 /\ withKey key (id x) docs <> []) top.
Proof.
  subst top. split; [|split; [|split]].
  - rewrite length_take. lia.
  - rewrite <- firstn_map. apply NoDup_take.
    now apply (rows_NoDup key mk).
  - apply ordered_take. now apply countDesc_ordered.
  - apply Forall_take.
    apply (rows_Forall key mk). intros k ds Hne Hds.
    rewrite mk_id, mk_cnt. cbn [fst snd]. rewrite <- Hds. auto.
Qed.
End TopTen.

Lemma withKey_browser (k : string) (docs : list Click.Doc) :
  let known (d : Click.Doc) :=
    match Click.browser (Click.device d) with
    | Some b => negb (String.eqb b "Unknown")
    | None => false
    end in
  withKey (fun d => default "" (Click.browser (Click.device d))) k
    (List.filter known docs) <> [] ->
  k <> "Unknown"
  /\ withKey (fun d => default "" (Click.browser (Click.device d))) k
       (List.filter known docs)
     = List.filter
         (fun d => bool_decide (Click.browser (Click.device d) = Some k))
         docs.
Proof.
  cbv zeta. intros Hne. assert (Hk : k <> "Unknown").
  { intros ->. apply Hne. clear Hne. unfold withKey.
    induction docs as [|d docs IH]; [reflexivity|].
    cbn [List.filter].
    destruct (Click.browser (Click.device d)) as [b|] eqn:E; [|exact IH].
    destruct (String.eqb b "Unknown") eqn:Eb; cbn [negb]; [exact IH|].
    cbn [List.filter]. rewrite E.
    change (default "" (Some b)) with b.
    rewrite bool_decide_eq_false_2; [exact IH|].
    intros ->. now rewrite String.eqb_refl in Eb. }
  split; [exact Hk|]. clear Hne. unfold withKey.
  induction docs as [|d docs IH]; [reflexivity|].
  cbn [List.filter].
  destruct (Click.browser (Click.device d)) as [b|] eqn:E.
  - destruct (String.eqb b "Unknown") eqn:Eb; cbn [negb].
    + apply String.eqb_eq in Eb as ->.
      rewrite bool_decide_eq_false_2 by congruence. exact IH.
    + cbn [List.filter]. rewrite E.
      change (default "" (Some b)) with b.
      destruct (decide (b = k)) as [->|Hbk].
      * rewrite !bool_decide_eq_true_2 by reflexivity. now rewrite IH.
      * rewrite !bool_decide_eq_false_2 by congruence. exact IH.
  - rewrite bool_decide_eq_false_2 by discriminate. exact IH.
Qed.

Lemma filter_nonempty_length {A} (l : list A) :
  l <> [] -> (1 <= N.of_nat (length l))%N.
Proof. destruct l; [congruence|]. cbn [length]. lia. Qed.

End RankingFacts.

(** X18.  The device breakdown of a report has one row for each device type
    among the selected clicks, so at most five; a row counts exactly the
    selected clicks of its type, never zero, and the rows come by
    descending count. *)
Theorem device_rows_count_their_clicks
    (now : Instant) (f : Faults) (u : ObjectId)
    (options : ClickModel.Options) (w : World)
    (r : ClickModel.UrlAnalytics) (w' : World) :
  ClickModel.getUrlAnalytics now f u options w = (Ok r, w') ->
  let docs := Pipeline.selected now u options (clicks w) in
  let rows := ClickModel.byDevice r in
  List.NoDup (List.map ClickModel._id rows)
  /\ (length rows <= 5)%nat
  /\ (forall t, In t (List.map ClickModel._id rows)
                <-> exists d, In d docs /\ Click.type (Click.device d) = t)
  /\ Reports.ordered
       (fun x y => (ClickModel.count y <= ClickModel.count x)%N) rows
  /\ List.Forall
       (fun x =>
          ClickModel.count x
          = N.of_nat
              (length (List.filter
                         (fun d => bool_decide
                                     (Click.type (Click.device d)
                                      = ClickModel._id x)) docs))
          /\ (1 <= ClickModel.count x)%N) rows.
Proof.
  rewrite QueryFacts.getUrlAnalytics_run.
  destruct (click_aggregate f); [discriminate|]. intros [= <- _].
  cbv zeta. unfold Pipeline.reportOn. cbn [ClickModel.byDevice].
  set (docs := Pipeline.selected now u options (clicks w)).
  unfold ClickModel.byDeviceFacet.
  assert (Hnd : List.NoDup
                  (List.map ClickModel._id
                     (Mongo.sortBy ClickModel.byCountDesc
                        (List.map ClickModel.countOf
                           (Mongo.group
                              (fun d => Click.type (Click.device d))
                              docs)))))
    by (apply (ReportFacts.rows_NoDup _ ClickModel.countOf); reflexivity).
  split; [exact Hnd|]. split; [|split; [|split]].
  - rewrite <- (length_map ClickModel._id).
    now apply RankingFacts.deviceTypes_bounded.
  - intros t.
    pose proof (Permutation_map ClickModel._id
                  (ReportFacts.rows_perm
                     (fun d => Click.type (Click.device d))
                     ClickModel.countOf ClickModel.byCountDesc docs)) as Hp.
    etransitivity;
      [split; apply Permutation_in; [exact Hp | symmetry; exact Hp]|].
    rewrite List.map_map. cbn [ClickModel.countOf ClickModel._id].
    destruct (AggregateFacts.group_spec
                (fun d => Click.type (Click.device d)) docs)
      as (ks & _ & Hks & ->).
    rewrite List.map_map. cbn [fst]. rewrite List.map_id. apply Hks.
  - apply ReportFacts.byCountDesc_ordered.
  - apply (ReportFacts.rows_Forall _ ClickModel.countOf).
    intros k ds Hne ->.
    cbn [ClickModel.countOf ClickModel.count ClickModel._id fst snd].
    split; [reflexivity|]. unfold Reports.withKey in *.
    destruct (List.filter _ docs); [congruence|]. cbn [length]. lia.
Qed.

(** The report on URL 1 after the four visits has the single row of the
    device type [unknown], with all four clicks. *)
Lemma device_rows_count_their_clicks_witness :
  exists r w',
    ClickModel.getUrlAnalytics 5000 noFaults 1 ClickModel.defaultOptions
      ReportExamples.busyWorld = (Ok r, w')
    /\ (length (ClickModel.byDevice r) <= 5)%nat
    /\ (exists d,
           In d (Pipeline.selected 5000 1 ClickModel.defaultOptions
                   (clicks ReportExamples.busyWorld))
           /\ Click.type (Click.device d) = Click.unknown).
Proof.
  eexists. eexists.
  assert (E : ClickModel.getUrlAnalytics 5000 noFaults 1
                ClickModel.defaultOptions ReportExamples.busyWorld
              = (Ok _, _)) by (vm_compute; reflexivity).
  split; [exact E|].
  destruct (device_rows_count_their_clicks 5000 noFaults 1
              ClickModel.defaultOptions ReportExamples.busyWorld _ _ E)
    as (_ & Hl & Ht & _).
  split; [exact Hl|]. apply Ht. vm_compute. left. reflexivity.
Defined.

(** X19.  The rankings by country, by browser and by referrer of a report
    have at most ten rows, each under a different key, by descending
    count; a row counts exactly the selected clicks that carry its key,
    never zero, and no row of the browser ranking is for ["Unknown"]. *)
Theorem rankings_are_top_ten_lists
    (now : Instant) (f : Faults) (u : ObjectId)
    (options : ClickModel.Options) (w : World)
    (r : ClickModel.UrlAnalytics) (w' : World) :
  ClickModel.getUrlAnalytics now f u options w = (Ok r, w') ->
  let docs := Pipeline.selected now u options (clicks w) in
  ((length (ClickModel.byCountry r) <= 10)%nat
   /\ List.NoDup (List.map ClickModel.country_id (ClickModel.byCountry r))
   /\ Reports.ordered
        (fun x y => (ClickModel.country_count y
                     <= ClickModel.country_count x)%N)
        (ClickModel.byCountry r)
   /\ List.Forall
        (fun x =>
           ClickModel.country_count x
           = N.of_nat
               (length (List.filter
                          (fun d => bool_decide
                                      (ClickModel.countryOf d
                                       = Some (ClickModel.country_id x)))
                          docs))
           /\ (1 <= ClickModel.country_count x)%N)
        (ClickModel.byCountry r))
  /\ ((length (ClickModel.byBrowser r) <= 10)%nat
      /\ List.NoDup (List.map ClickModel._id (ClickModel.byBrowser r))
      /\ Reports.ordered
           (fun x y => (ClickModel.count y <= ClickModel.count x)%N)
           (ClickModel.byBrowser r)
      /\ List.Forall
           (fun x =>
              ClickModel.count x
              = N.of_nat
                  (length (List.filter
                             (fun d => bool_decide
                                         (Click.browser (Click.device d)
                                          = Some (ClickModel._id x)))
                             docs))
              /\ (1 <= ClickModel.count x)%N
              /\ ClickModel._id x <> "Unknown")
           (ClickModel.byBrowser r))
  /\ ((length (ClickModel.byReferrer r) <= 10)%nat
      /\ List.NoDup (List.map ClickModel._id (ClickModel.byReferrer r))
      /\ Reports.ordered
           (fun x y => (ClickModel.count y <= ClickModel.count x)%N)
           (ClickModel.byReferrer r)
      /\ List.Forall
           (fun x =>
              ClickModel.count x
              = N.of_nat
                  (length (List.filter
                             (fun d => bool_decide
                                         (Click.referrer d
                                          = Some (ClickModel._id x)))
                             docs))
              /\ (1 <= ClickModel.count x)%N)
           (ClickModel.byReferrer r)).
Proof.
  rewrite QueryFacts.getUrlAnalytics_run.
  destruct (click_aggregate f); [discriminate|]. intros [= <- _].
  cbv zeta. unfold Pipeline.reportOn.
  cbn [ClickModel.byCountry ClickModel.byBrowser ClickModel.byReferrer].
  set (docs := Pipeline.selected now u options (clicks w)).
  split; [|split].
  - unfold ClickModel.byCountryFacet.
    match goal with
    | |- context [take 10 (Mongo.sortBy ?before
                             (List.map ?mk (Mongo.group ?key ?ds)))] =>
        destruct (RankingFacts.top_facts key mk ClickModel.country_id
                    ClickModel.country_count before ds)
          as (Hl & Hn & Ho & Hf); try reflexivity
    end.
    split; [exact Hl|]. split; [exact Hn|]. split; [exact Ho|].
    eapply List.Forall_impl; [|exact Hf]. cbv beta.
    intros x [Hc Hne]. rewrite RankingFacts.withKey_filter in Hc, Hne.
    split; [exact Hc|]. rewrite Hc.
    now apply RankingFacts.filter_nonempty_length.
  - unfold ClickModel.byBrowserFacet.
    match goal with
    | |- context [take 10 (Mongo.sortBy ?before
                             (List.map ?mk (Mongo.group ?key ?ds)))] =>
        destruct (RankingFacts.top_facts key mk ClickModel._id
                    ClickModel.count before ds)
          as (Hl & Hn & Ho & Hf); try reflexivity
    end.
    split; [exact Hl|]. split; [exact Hn|]. split; [exact Ho|].
    eapply List.Forall_impl; [|exact Hf]. cbv beta.
    intros x [Hc Hne].
    destruct (RankingFacts.withKey_browser _ _ Hne) as [Hk Hw].
    rewrite Hw in Hc, Hne.
    split; [exact Hc|]. split; [|exact Hk]. rewrite Hc.
    now apply RankingFacts.filter_nonempty_length.
  - unfold ClickModel.byReferrerFacet.
    match goal with
    | |- context [take 10 (Mongo.sortBy ?before
                             (List.map ?mk (Mongo.group ?key ?ds)))] =>
        destruct (RankingFacts.top_facts key mk ClickModel._id
                    ClickModel.count before ds)
          as (Hl & Hn & Ho & Hf); try reflexivity
    end.
    split; [exact Hl|]. split; [exact Hn|]. split; [exact Ho|].
    eapply List.Forall_impl; [|exact Hf]. cbv beta.
    intros x [Hc Hne]. rewrite RankingFacts.withKey_filter in Hc, Hne.
    split; [exact Hc|]. rewrite Hc.
    now apply RankingFacts.filter_nonempty_length.
Qed.

(** Three referred visits: two rows of referrers, and the browser
    ["Unknown"] is not ranked. *)
Lemma rankings_are_top_ten_lists_witness :
  exists r w',
    ClickModel.getUrlAnalytics 5000 noFaults 1 ClickModel.defaultOptions
      ReferredExamples.referredWorld = (Ok r, w')
    /\ length (ClickModel.byReferrer r) = 2%nat
    /\ List.Forall (fun x => ClickModel._id x <> "Unknown")
                   (ClickModel.byBrowser r).
Proof.
  eexists. eexists.
  assert (E : ClickModel.getUrlAnalytics 5000 noFaults 1
                ClickModel.defaultOptions ReferredExamples.referredWorld
              = (Ok _, _)) by (vm_compute; reflexivity).
  split; [exact E|]. split; [reflexivity|].
  destruct (rankings_are_top_ten_lists 5000 noFaults 1
              ClickModel.defaultOptions ReferredExamples.referredWorld
              _ _ E) as (_ & (_ & _ & _ & Hb) & _).
  eapply List.Forall_impl; [|exact Hb]. cbv beta. tauto.
Defined.

Module BucketFacts.
Import Mongo Reports AggregateFacts ReportFacts.

Lemma ordered_strict {A B} (R : A -> A -> Prop) (id : A -> B)
    (l : list A) :
  ordered R l -> List.NoDup (List.map id l) ->
  ordered (fun x y => R x y /\ id x <> id y) l.
Proof.
  induction l as [|x l IH]; cbn [ordered List.map]; [auto|].
  intros [Hx Hl] [Hn Hnd]%List.NoDup_cons_iff. split; [|auto].
  apply List.Forall_forall. intros y Hy. split.
  - rewrite List.Forall_forall in Hx. auto.
  - intros E. apply Hn. rewrite E. now apply in_map.
Qed.

Lemma ascending_ordered {Row} (id : Row -> Z)
    (before : Row -> Row -> bool) (l : list Row) :
  (forall x y, before x y = (id x <=? id y)%Z) ->
  ordered (fun x y => (id x <= id y)%Z) (sortBy before l).
Proof.
  intros Hb.
  apply (ordered_impl (fun a b => before a b = true));
    [|apply sortBy_ordered].
  - intros x y _ _ Hxy. cbv beta in Hxy. rewrite Hb in Hxy.
    now apply Z.leb_le.
  - intros x y Hxy. rewrite Hb in *.
    apply Z.leb_le. apply Z.leb_gt in Hxy. lia.
  - intros x y z Hxy Hyz. rewrite Hb in *.
    apply Z.leb_le. apply Z.leb_le in Hxy, Hyz. lia.
Qed.

(** Rows under different whole-number keys, sorted by key, come by
    strictly ascending key. *)
Lemma buckets_ascending {Row} (key : Click.Doc -> Z)
    (mk : Z * list Click.Doc -> Row) (id : Row -> Z)
    (before : Row -> Row -> bool) (docs : list Click.Doc) :
  (forall g, id (mk g) = fst g) ->
  (forall x y, before x y = (id x <=? id y)%Z) ->
  ordered (fun x y => (id x < id y)%Z)
          (sortBy before (List.map mk (group key docs))).
Proof.
  intros Hid Hb.
  apply (ordered_impl (fun x y => (id x <= id y)%Z /\ id x <> id y)).
  - intros x y _ _ [? ?]. lia.
  - apply ordered_strict.
    + now apply ascending_ordered.
    + now apply (rows_NoDup key mk).
Qed.

Lemma hours_bounded (l : list Z) :
  List.NoDup l -> List.Forall (fun h => (0 <= h < 24)%Z) l ->
  (length l <= 24)%nat.
Proof.
  intros Hnd Hr.
  change 24%nat with (length (List.map Z.of_nat (seq 0 24))).
  apply NoDup_incl_length; [exact Hnd|].
  intros h Hh. rewrite List.Forall_forall in Hr. specialize (Hr h Hh).
  apply in_map_iff. exists (Z.to_nat h). split; [lia|].
  apply in_seq. lia.
Qed.

Lemma hourOf_range (t : Instant) : (0 <= ClickModel.hourOf t < 24)%Z.
Proof. unfold ClickModel.hourOf. apply Z.mod_pos_bound. lia. Qed.

Lemma length_omap_le {A B} (f : A -> option B) (l : list A) :
  (length (omap f l) <= length l)%nat.
Proof.
  induction l as [|x l IH]; [reflexivity|].
  cbn [omap list_omap]. destruct (f x); cbn [length]; lia.
Qed.

Lemma In_omap {A B} (f : A -> option B) (l : list A) (b : B) :
  In b (omap f l) <-> exists a, In a l /\ f a = Some b.
Proof.
  induction l as [|x l IH]; cbn [omap list_omap].
  - split; [intros [] | intros (? & [] & _)].
  - destruct (f x) as [b'|] eqn:E.
    + cbn [In]. rewrite IH. split.
      * intros [<-|(a & Ha & Hf)].
        -- exists x. split; [now left | exact E].
        -- exists a. split; [now right | exact Hf].
      * intros (a & [<-|Ha] & Hf); [left; congruence | right; eauto].
    + rewrite IH. split.
      * intros (a & Ha & Hf). exists a. split; [now right | exact Hf].
      * intros (a & [<-|Ha] & Hf); [congruence | eauto].
Qed.

Lemma sizeOfSet_omap_le {A B} `{EqDecision B} (f : A -> option B)
    (l : list A) :
  (sizeOfSet (omap f l) <= N.of_nat (length l))%N.
Proof.
  pose proof (sizeOfSet_le (omap f l)).
  pose proof (length_omap_le f l). lia.
Qed.

Lemma sizeOfSet_map_bounds {A B} `{EqDecision B} (f : A -> B)
    (l : list A) :
  l <> [] ->
  (1 <= sizeOfSet (List.map f l) <= N.of_nat (length l))%N.
Proof.
  intros Hne. split.
  - apply sizeOfSet_pos. destruct l; [congruence | discriminate].
  - pose proof (sizeOfSet_le (List.map f l)) as Hl.
    now rewrite length_map in Hl.
Qed.

Lemma In_remove_dups {A} `{EqDecision A} (x : A) (l : list A) :
  In x (remove_dups l) <-> In x l.
Proof. now rewrite <- !list_elem_of_In, elem_of_remove_dups. Qed.

Lemma NoDup_map_inl {A B} (l : list A) :
  List.NoDup l -> List.NoDup (List.map (@inl A B) l).
Proof.
  induction 1 as [|x l Hx _ IH]; cbn [List.map]; constructor; [|exact IH].
  intros (y & [= ->] & Hy)%in_map_iff. contradiction.
Qed.

(** Fewer registered users than visitors. *)
Lemma registered_le_visitors (ds : list Click.Doc) :
  (sizeOfSet (omap Click.userId ds)
   <= sizeOfSet (List.map ClickModel.visitorOf ds))%N.
Proof.
  unfold sizeOfSet.
  set (A := remove_dups (omap Click.userId ds)).
  set (B := remove_dups (List.map ClickModel.visitorOf ds)).
  assert (Hl : (length (List.map (@inl ObjectId string) A)
                <= length B)%nat).
  { apply NoDup_incl_length.
    - apply NoDup_map_inl, NoDup_ListNoDup, NoDup_remove_dups.
    - intros v (u & <- & Hu)%in_map_iff. subst A B.
      rewrite In_remove_dups in Hu. rewrite In_remove_dups.
      apply In_omap in Hu as (d & Hd & Hu).
      apply in_map_iff. exists d. split; [|exact Hd].
      unfold ClickModel.visitorOf. now rewrite Hu. }
  rewrite length_map in Hl. lia.
Qed.

Lemma deviceTypes_count (ds : list Click.Doc) :
  (sizeOfSet (List.map (fun d => Click.type (Click.device d)) ds) <= 5)%N.
Proof.
  unfold sizeOfSet.
  pose proof (RankingFacts.deviceTypes_bounded
                (remove_dups
                   (List.map (fun d => Click.type (Click.device d)) ds))
                (proj1 (NoDup_ListNoDup _) (NoDup_remove_dups _))).
  lia.
Qed.

Lemma withKey_all_no_bot {K} `{EqDecision K} (key : Click.Doc -> K)
    (k : K) (docs : list Click.Doc) :
  Forall (fun d => Click.isBot d = false) docs ->
  countIf Click.isBot (withKey key k docs) = 0%N.
Proof.
  intros Hb. apply countIf_none. unfold withKey.
  apply List.Forall_forall. intros d [Hd _]%filter_In.
  rewrite List.Forall_forall in Hb. auto.
Qed.

(** The rows by hour over any selection. *)
Lemma hour_rows (docs : list Click.Doc) :
  let rows := ClickModel.clicksByHourFacet docs in
  ordered (fun x y => (ClickModel.hour_id x < ClickModel.hour_id y)%Z) rows
  /\ (length rows <= 24)%nat
  /\ List.Forall
       (fun x =>
          (0 <= ClickModel.hour_id x < 24)%Z
          /\ ClickModel.hour_count x
             = N.of_nat
                 (length (List.filter
                            (fun d => bool_decide
                                        (ClickModel.hourOf
                                           (Click.clickedAt d)
                                         = ClickModel.hour_id x)) docs))
          /\ (1 <= ClickModel.uniqueIPsCount x
              <= ClickModel.hour_count x)%N
          /\ (1 <= ClickModel.uniqueUsersCount x
              <= ClickModel.hour_count x)%N) rows.
Proof.
  cbv zeta. unfold ClickModel.clicksByHourFacet.
  match goal with
  | |- context [Mongo.sortBy ?before
                  (List.map ?mk (Mongo.group ?key docs))] =>
      pose proof (buckets_ascending key mk ClickModel.hour_id
                    before docs (fun _ => eq_refl) (fun _ _ => eq_refl))
        as Hasc;
      pose proof (ReportFacts.rows_NoDup key mk before docs
                    ClickModel.hour_id (fun _ => eq_refl)) as Hnd;
      assert (Hrows : List.Forall
                (fun x =>
                   (0 <= ClickModel.hour_id x < 24)%Z
                   /\ ClickModel.hour_count x
                      = N.of_nat
                          (length (List.filter
                             (fun d => bool_decide
                                (ClickModel.hourOf (Click.clickedAt d)
                                 = ClickModel.hour_id x)) docs))
                   /\ (1 <= ClickModel.uniqueIPsCount x
                       <= ClickModel.hour_count x)%N
                   /\ (1 <= ClickModel.uniqueUsersCount x
                       <= ClickModel.hour_count x)%N)
                (Mongo.sortBy before (List.map mk (Mongo.group key docs))))
  end.
  { apply ReportFacts.rows_Forall. intros k ds Hne Hds.
    cbn [ClickModel.hour_id ClickModel.hour_count ClickModel.uniqueIPsCount
         ClickModel.uniqueUsersCount fst snd].
    split; [|split; [|split]].
    - assert (Hin : exists d, In d ds) by
        (destruct ds as [|d ?]; [congruence | exists d; now left]).
      destruct Hin as [d Hd]. rewrite Hds in Hd.
      apply filter_In in Hd as [_ Hk].
      apply bool_decide_eq_true in Hk. rewrite <- Hk.
      apply hourOf_range.
    - now rewrite Hds.
    - now apply sizeOfSet_map_bounds.
    - now apply sizeOfSet_map_bounds. }
  split; [exact Hasc|]. split; [|exact Hrows].
  rewrite <- (length_map ClickModel.hour_id).
  apply hours_bounded; [exact Hnd|].
  apply List.Forall_forall. intros h (x & <- & Hx)%in_map_iff.
  rewrite List.Forall_forall in Hrows. now apply Hrows.
Qed.

End BucketFacts.

(** X20.  The rows by hour of a report come by strictly ascending hour of
    the day, each hour between 0 and 23 and at most once, so there are at
    most 24 rows.  A row counts exactly the selected clicks of its hour
    (in UTC); its numbers of distinct addresses and of distinct users are
    at least 1 and at most that count, the clicks without a user counting
    together as one user. *)
Theorem hour_rows_are_hours_of_the_day
    (now : Instant) (f : Faults) (u : ObjectId)
    (options : ClickModel.Options) (w : World)
    (r : ClickModel.UrlAnalytics) (w' : World) :
  ClickModel.getUrlAnalytics now f u options w = (Ok r, w') ->
  let docs := Pipeline.selected now u options (clicks w) in
  let rows := ClickModel.clicksByHour r in
  Reports.ordered
    (fun x y => (ClickModel.hour_id x < ClickModel.hour_id y)%Z) rows
  /\ (length rows <= 24)%nat
  /\ List.Forall
       (fun x =>
          (0 <= ClickModel.hour_id x < 24)%Z
          /\ ClickModel.hour_count x
             = N.of_nat
                 (length (List.filter
                            (fun d => bool_decide
                                        (ClickModel.hourOf (Click.clickedAt d)
                                         = ClickModel.hour_id x)) docs))
          /\ (1 <= ClickModel.uniqueIPsCount x <= ClickModel.hour_count x)%N
          /\ (1 <= ClickModel.uniqueUsersCount x
              <= ClickModel.hour_count x)%N) rows.
Proof.
  rewrite QueryFacts.getUrlAnalytics_run.
  destruct (click_aggregate f); [discriminate|]. intros [= <- _].
  apply BucketFacts.hour_rows.
Qed.

(** The four visits all fall into hour 0 of 1970-01-01. *)
Lemma hour_rows_are_hours_of_the_day_witness :
  exists r w',
    ClickModel.getUrlAnalytics 5000 noFaults 1 ClickModel.defaultOptions
      ReportExamples.busyWorld = (Ok r, w')
    /\ List.map ClickModel.hour_id (ClickModel.clicksByHour r) = [0%Z]
    /\ (length (ClickModel.clicksByHour r) <= 24)%nat.
Proof.
  eexists. eexists.
  assert (E : ClickModel.getUrlAnalytics 5000 noFaults 1
                ClickModel.defaultOptions ReportExamples.busyWorld
              = (Ok _, _)) by (vm_compute; reflexivity).
  split; [exact E|]. split; [reflexivity|].
  apply (hour_rows_are_hours_of_the_day 5000 noFaults 1
           ClickModel.defaultOptions ReportExamples.busyWorld _ _ E).
Defined.

(** X21.  The rows by day of a report come by strictly ascending day.  A
    row counts exactly the selected clicks of its day; [humanClicks] is
    that count less [botClicks] and never negative; the distinct visitors
    are at least 1 and at most the count, the registered users among them
    no more than the visitors, the countries at most the count and the
    device types between 1 and 5.  Unless bots are asked for with
    [excludeBots: false], every row has [botClicks] 0 and [humanClicks]
    equal to its count. *)
Theorem day_rows_split_humans_and_bots
    (now : Instant) (f : Faults) (u : ObjectId)
    (options : ClickModel.Options) (w : World)
    (r : ClickModel.UrlAnalytics) (w' : World) :
  ClickModel.getUrlAnalytics now f u options w = (Ok r, w') ->
  let docs := Pipeline.selected now u options (clicks w) in
  let rows := ClickModel.clicksByDay r in
  Reports.ordered
    (fun x y => (ClickModel.day_id x < ClickModel.day_id y)%Z) rows
  /\ List.Forall
       (fun x =>
          ClickModel.day_count x
          = N.of_nat
              (length (List.filter
                         (fun d => bool_decide
                                     (ClickModel.dayOf (Click.clickedAt d)
                                      = ClickModel.day_id x)) docs))
          /\ ClickModel.humanClicks x
             = (Z.of_N (ClickModel.day_count x)
                - Z.of_N (ClickModel.day_botClicks x))%Z
          /\ (0 <= ClickModel.humanClicks x)%Z
          /\ (1 <= ClickModel.uniqueVisitorsCount x
              <= ClickModel.day_count x)%N
          /\ (ClickModel.uniqueRegisteredUsersCount x
              <= ClickModel.uniqueVisitorsCount x)%N
          /\ (ClickModel.uniqueCountriesCount x <= ClickModel.day_count x)%N
          /\ (1 <= ClickModel.uniqueDeviceTypesCount x <= 5)%N) rows
  /\ (ClickModel.excludeBots options <> Some false ->
      List.Forall
        (fun x => ClickModel.day_botClicks x = 0%N
                  /\ ClickModel.humanClicks x
                     = Z.of_N (ClickModel.day_count x)) rows).
Proof.
  rewrite QueryFacts.getUrlAnalytics_run.
  destruct (click_aggregate f); [discriminate|]. intros [= <- _].
  cbv zeta. unfold Pipeline.reportOn. cbn [ClickModel.clicksByDay].
  pose proof (ReportFacts.selected_no_bot now u options (clicks w)) as Hb.
  set (docs := Pipeline.selected now u options (clicks w)) in *.
  unfold ClickModel.clicksByDayFacet.
  split; [|split].
  - apply (BucketFacts.buckets_ascending _ _ ClickModel.day_id);
      reflexivity.
  - apply ReportFacts.rows_Forall. intros k ds Hne Hds.
    cbv zeta.
    cbn [ClickModel.day_id ClickModel.day_count ClickModel.humanClicks
         ClickModel.day_botClicks ClickModel.uniqueVisitorsCount
         ClickModel.uniqueRegisteredUsersCount
         ClickModel.uniqueCountriesCount ClickModel.uniqueDeviceTypesCount
         fst snd].
    pose proof (AggregateFacts.countIf_le Click.isBot ds).
    pose proof (BucketFacts.registered_le_visitors ds).
    pose proof (BucketFacts.sizeOfSet_omap_le ClickModel.countryOf ds).
    pose proof (BucketFacts.deviceTypes_count ds).
    pose proof (BucketFacts.sizeOfSet_map_bounds ClickModel.visitorOf ds Hne).
    pose proof (BucketFacts.sizeOfSet_map_bounds
                  (fun d => Click.type (Click.device d)) ds Hne).
    split; [now rewrite Hds|]. repeat split; lia.
  - intros Hx. apply ReportFacts.rows_Forall. intros k ds Hne Hds.
    cbv zeta.
    cbn [ClickModel.day_count ClickModel.humanClicks
         ClickModel.day_botClicks fst snd].
    rewrite Hds, BucketFacts.withKey_all_no_bot by auto.
    split; [reflexivity | lia].
Qed.

(** The four visits all fall on day 0, with no bot among them. *)
Lemma day_rows_split_humans_and_bots_witness :
  exists r w',
    ClickModel.getUrlAnalytics 5000 noFaults 1 ClickModel.defaultOptions
      ReportExamples.busyWorld = (Ok r, w')
    /\ List.map ClickModel.day_id (ClickModel.clicksByDay r) = [0%Z]
    /\ List.Forall
         (fun x => ClickModel.day_botClicks x = 0%N
                   /\ ClickModel.humanClicks x
                      = Z.of_N (ClickModel.day_count x))
         (ClickModel.clicksByDay r).
Proof.
  eexists. eexists.
  assert (E : ClickModel.getUrlAnalytics 5000 noFaults 1
                ClickModel.defaultOptions ReportExamples.busyWorld
              = (Ok _, _)) by (vm_compute; reflexivity).
  split; [exact E|]. split; [reflexivity|].
  apply (day_rows_split_humans_and_bots 5000 noFaults 1
           ClickModel.defaultOptions ReportExamples.busyWorld _ _ E).
  discriminate.
Defined.

(** * The real-time queries *)

Module RealTimeFacts.
Import Mongo Reports AggregateFacts Pipeline.

Lemma projectAll_one {A B} (project : A -> outcome B) (a : A) :
  projectAll project [a]
  = match project a with
    | Ok b => Ok [b]
    | Throw e => Throw e
    end.
Proof. cbn [projectAll]. destruct (project a); reflexivity. Qed.

(** [getRealTimeStats], case by case. *)
Lemma getRealTimeStats_run now f minutes w :
  ClickModel.getRealTimeStats now f minutes w
  = (match click_aggregate f with
     | Some e =>
         Throw ("Real-time statistics generation failed: " ++ e)
     | None =>
         match recent now minutes (clicks w) with
         | [] => Ok ClickModel.zeroRealTimeStats
         | docs =>
             if (default 60%Z minutes =? 0)%Z
             then Throw ("Real-time statistics generation failed: "
                         ++ "can't $divide by zero")
             else
               Ok {| ClickModel.recentClicks := N.of_nat (length docs);
                     ClickModel.activeUrls :=
                       sizeOfSet (List.map Click.urlId docs);
                     ClickModel.activeCountries :=
                       sizeOfSet (omap ClickModel.countryOf docs);
                     ClickModel.avgClicksPerMinute :=
                       (inject_Z (Z.of_N (N.of_nat (length docs)))
                        / inject_Z (default 60%Z minutes))%Q |}
         end
     end, w).
Proof.
  unfold ClickModel.getRealTimeStats, tryCatch, bind, Click_aggregate,
    call, throw, ret.
  destruct (click_aggregate f); [reflexivity|].
  unfold ClickModel.realTimePipeline, recent.
  rewrite group_const.
  destruct (List.filter _ (clicks w)) as [|d docs]; [reflexivity|].
  rewrite projectAll_one. cbn [snd].
  destruct (default 60 minutes =? 0)%Z; reflexivity.
Qed.

End RealTimeFacts.

(** X22.  [getRealTimeStats] over the clicks of the window that are not
    bots.  When it returns, [recentClicks] is their number, [activeUrls]
    the number of different URLs among them, at least 1 when there is a
    click, and neither [activeUrls] nor [activeCountries] exceeds
    [recentClicks].  With the aggregation served it throws in one case
    only: a window of 0 minutes with a click stamped at or after the
    instant of the call, where the average divides by zero. *)
Theorem realtime_stats_count_the_window
    (now : Instant) (f : Faults) (minutes : option Z) (w : World) :
  click_aggregate f = None ->
  let docs := Pipeline.recent now minutes (clicks w) in
  match fst (ClickModel.getRealTimeStats now f minutes w) with
  | Ok r =>
      ClickModel.recentClicks r = N.of_nat (length docs)
      /\ ClickModel.activeUrls r
         = Mongo.sizeOfSet (List.map Click.urlId docs)
      /\ (ClickModel.activeUrls r <= ClickModel.recentClicks r)%N
      /\ (ClickModel.activeCountries r <= ClickModel.recentClicks r)%N
      /\ (docs <> [] -> (1 <= ClickModel.activeUrls r)%N)
      /\ (minutes = Some 0%Z -> docs = [])
  | Throw _ => minutes = Some 0%Z /\ docs <> []
  end.
Proof.
  intros Hf. cbv zeta. rewrite RealTimeFacts.getRealTimeStats_run, Hf.
  cbn [fst].
  destruct (Pipeline.recent now minutes (clicks w)) as [|d docs] eqn:E.
  - cbn. repeat split; try lia; congruence.
  - destruct (default 60 minutes =? 0)%Z eqn:Em.
    + split; [|discriminate]. apply Z.eqb_eq in Em.
      destruct minutes as [m|]; cbn in Em; [now subst | discriminate].
    + cbn [ClickModel.recentClicks ClickModel.activeUrls
           ClickModel.activeCountries].
      split; [reflexivity|]. split; [reflexivity|].
      split; [|split; [|split]].
      * pose proof (AggregateFacts.sizeOfSet_le
                      (List.map Click.urlId (d :: docs))) as Hl.
        now rewrite length_map in Hl.
      * apply BucketFacts.sizeOfSet_omap_le.
      * intros _. apply AggregateFacts.sizeOfSet_pos. discriminate.
      * intros ->. discriminate.
Qed.

(** After the four visits, the last hour has four clicks on one URL. *)
Lemma realtime_stats_count_the_window_witness :
  match fst (ClickModel.getRealTimeStats 5000 noFaults None
               ReportExamples.busyWorld) with
  | Ok r => ClickModel.recentClicks r = 4%N /\ ClickModel.activeUrls r = 1%N
  | Throw _ => False
  end.
Proof.
  pose proof (realtime_stats_count_the_window 5000 noFaults None
                ReportExamples.busyWorld eq_refl) as H.
  cbv zeta in H.
  destruct (fst (ClickModel.getRealTimeStats 5000 noFaults None
                   ReportExamples.busyWorld)) as [r|e].
  - destruct H as (Hr & Hu & _). rewrite Hr, Hu.
    split; vm_compute; reflexivity.
  - destruct H as [H _]. discriminate.
Defined.

Module LiveFacts.
Import Mongo Reports AggregateFacts Pipeline ServiceQueries.

Lemma estimateLiveVisitors_run now f minutes w :
  _estimateLiveVisitors now f minutes w
  = (Ok (match click_aggregate f with
         | Some _ => 0%N
         | None =>
             sizeOfSet
               (List.map Click.ipAddress
                  (recent now (Some (default 10%Z minutes)) (clicks w)))
         end), w).
Proof.
  unfold _estimateLiveVisitors, tryCatch, bind, Click_aggregate, call,
    throw, ret.
  destruct (click_aggregate f); [reflexivity|].
  unfold liveVisitorsPipeline, recent. cbn [default from_option id].
  rewrite group_const.
  destruct (List.filter _ (clicks w)); reflexivity.
Qed.

Lemma filter_subset_length {A} (p q : A -> bool) (l : list A) :
  (forall x, In x l -> p x = true -> q x = true) ->
  (length (List.filter p l) <= length (List.filter q l))%nat.
Proof.
  induction l as [|x l IH]; [reflexivity|]. intros H.
  assert (IH' := IH (fun y Hy => H y (or_intror Hy))).
  cbn [List.filter]. destruct (p x) eqn:Hp.
  - rewrite (H x (or_introl eq_refl) Hp). cbn [length]. lia.
  - destruct (q x); cbn [length]; lia.
Qed.

End LiveFacts.

(** X23.  [_estimateLiveVisitors] never throws and changes nothing: it
    answers with the number of different addresses among the clicks of
    its window that are not bots, and with 0 when the aggregation fails.
    The estimate for a window is never above the [recentClicks] that
    [getRealTimeStats] reports for a window at least as long. *)
Theorem live_visitors_are_distinct_addresses
    (now : Instant) (f : Faults) (minutes : option Z) (w : World) :
  exists n : N,
    ServiceQueries._estimateLiveVisitors now f minutes w = (Ok n, w)
    /\ (click_aggregate f = None ->
        n = Mongo.sizeOfSet
              (List.map Click.ipAddress
                 (Pipeline.recent now (Some (default 10%Z minutes))
                    (clicks w))))
    /\ (click_aggregate f <> None -> n = 0%N)
    /\ (forall (m : Z) (r : ClickModel.RealTimeStats) (w' : World),
          (default 10 minutes <= m)%Z ->
          ClickModel.getRealTimeStats now f (Some m) w = (Ok r, w') ->
          (n <= ClickModel.recentClicks r)%N).
Proof.
  rewrite LiveFacts.estimateLiveVisitors_run. eexists.
  split; [reflexivity|]. split; [|split].
  - intros ->. reflexivity.
  - destruct (click_aggregate f); [reflexivity | congruence].
  - intros m r w' Hm.
    rewrite RealTimeFacts.getRealTimeStats_run.
    destruct (click_aggregate f); [discriminate|].
    set (short := Pipeline.recent now (Some (default 10%Z minutes))
                    (clicks w)).
    assert (Hle : (Mongo.sizeOfSet (List.map Click.ipAddress short)
                   <= N.of_nat (length (Pipeline.recent now (Some m)
                                          (clicks w))))%N).
    { pose proof (AggregateFacts.sizeOfSet_le
                    (List.map Click.ipAddress short)) as Hs.
      rewrite length_map in Hs.
      assert (Hl : (length short
                    <= length (Pipeline.recent now (Some m) (clicks w)))%nat).
      { subst short. unfold Pipeline.recent.
        cbn [default from_option id].
        apply LiveFacts.filter_subset_length. intros d _ Hp.
        apply andb_true_iff in Hp as [Ht Hb]. apply andb_true_iff.
        split; [|exact Hb]. apply Z.leb_le in Ht. apply Z.leb_le. lia. }
      lia. }
    destruct (Pipeline.recent now (Some m) (clicks w)) as [|d docs] eqn:E.
    + intros [= <- _]. cbn [ClickModel.recentClicks
                             ClickModel.zeroRealTimeStats].
      exact Hle.
    + destruct (default 60 (Some m) =? 0)%Z; [discriminate|].
      intros [= <- _]. cbn [ClickModel.recentClicks]. exact Hle.
Qed.

Module UrlStatsFacts.
Import Mongo Reports AggregateFacts ServiceQueries.





End UrlStatsFacts.


(** * The helpers of the URL report *)

Module PeakFacts.
Import Mongo Reports ServiceQueries.

Lemma peak_fold (rows : list ClickModel.HourRow) (m : N) (p : option Z) :
  let result :=
    fold_left
      (fun (state : N * option Z) hourData =>
         let '(maxClicks, peakHour) := state in
         if (maxClicks <? ClickModel.hour_count hourData)%N
         then (ClickModel.hour_count hourData,
               Some (ClickModel.hour_id hourData))
         else (maxClicks, peakHour))
      rows (m, p) in
  (result = (m, p)
   /\ List.Forall (fun x => (ClickModel.hour_count x <= m)%N) rows)
  \/ (exists before row after,
         rows = before ++ row :: after
         /\ result = (ClickModel.hour_count row,
                      Some (ClickModel.hour_id row))
         /\ (m < ClickModel.hour_count row)%N
         /\ List.Forall
              (fun x => (ClickModel.hour_count x
                         < ClickModel.hour_count row)%N) before
         /\ List.Forall
              (fun x => (ClickModel.hour_count x
                         <= ClickModel.hour_count row)%N) after).
Proof.
  cbv zeta. revert m p. induction rows as [|r rest IH]; intros m p.
  - left. split; [reflexivity | constructor].
  - cbn [fold_left].
    destruct (m <? ClickModel.hour_count r)%N eqn:Hm.
    + apply N.ltb_lt in Hm. right.
      destruct (IH (ClickModel.hour_count r) (Some (ClickModel.hour_id r)))
        as [[E Hall]|(before & row & after & -> & E & Hlt & Hb & Ha)].
      * exists [], r, rest.
        split; [reflexivity|]. split; [exact E|]. split; [exact Hm|].
        split; [constructor | exact Hall].
      * exists (r :: before), row, after.
        split; [reflexivity|]. split; [exact E|]. split; [lia|].
        split; [constructor; [lia | exact Hb] | exact Ha].
    + apply N.ltb_ge in Hm.
      destruct (IH m p)
        as [[E Hall]|(before & row & after & -> & E & Hlt & Hb & Ha)].
      * left. split; [exact E|]. constructor; assumption.
      * right. exists (r :: before), row, after.
        split; [reflexivity|]. split; [exact E|]. split; [exact Hlt|].
        split; [constructor; [lia | exact Hb] | exact Ha].
Qed.

Lemma findPeakHour_cases (rows : list ClickModel.HourRow) :
  match _findPeakHour (Some rows) with
  | None => List.Forall (fun x => ClickModel.hour_count x = 0%N) rows
  | Some h =>
      exists before row after,
        rows = before ++ row :: after
        /\ h = ClickModel.hour_id row
        /\ (0 < ClickModel.hour_count row)%N
        /\ List.Forall
             (fun x => (ClickModel.hour_count x
                        < ClickModel.hour_count row)%N) before
        /\ List.Forall
             (fun x => (ClickModel.hour_count x
                        <= ClickModel.hour_count row)%N) after
  end.
Proof.
  unfold _findPeakHour. destruct rows as [|r rest]; [constructor|].
  destruct (peak_fold (r :: rest) 0 None)
    as [[E Hall]|(before & row & after & Er & E & Hlt & Hb & Ha)];
    cbv zeta in E; rewrite E; cbn [snd].
  - eapply List.Forall_impl; [|exact Hall]. cbv beta. intros x Hx. lia.
  - exists before, row, after. auto.
Qed.

End PeakFacts.

(** X25.  [_findPeakHour] answers with the hour of the first row whose
    count is the greatest: every row before it has a smaller count and no
    row after it a greater one.  It answers [null] without a list, and on
    a list only when every count is 0, the empty list included. *)
Theorem peak_hour_is_the_first_busiest
    (rows : list ClickModel.HourRow) :
  ServiceQueries._findPeakHour None = None
  /\ match ServiceQueries._findPeakHour (Some rows) with
     | None => List.Forall (fun x => ClickModel.hour_count x = 0%N) rows
     | Some h =>
         exists before row after,
           rows = before ++ row :: after
           /\ h = ClickModel.hour_id row
           /\ (0 < ClickModel.hour_count row)%N
           /\ List.Forall
                (fun x => (ClickModel.hour_count x
                           < ClickModel.hour_count row)%N) before
           /\ List.Forall
                (fun x => (ClickModel.hour_count x
                           <= ClickModel.hour_count row)%N) after
     end.
Proof.
  split; [reflexivity | apply PeakFacts.findPeakHour_cases].
Qed.

(** X26.  The peak hour of a report of [getUrlAnalytics].  It is [null]
    exactly when the report selects no click.  Otherwise it is an hour
    between 0 and 23 that has a row in [clicksByHour], no row has more
    clicks, and among the rows with as many clicks it is the earliest
    hour. *)
Theorem peak_hour_of_a_report
    (now : Instant) (f : Faults) (u : ObjectId)
    (options : ClickModel.Options) (w : World)
    (r : ClickModel.UrlAnalytics) (w' : World) :
  ClickModel.getUrlAnalytics now f u options w = (Ok r, w') ->
  let peak := ServiceQueries._findPeakHour (Some (ClickModel.clicksByHour r)) in
  (peak = None <-> ClickModel.totalClicks (ClickModel.overview r) = 0%N)
  /\ (forall h, peak = Some h ->
        (0 <= h < 24)%Z
        /\ exists row,
             In row (ClickModel.clicksByHour r)
             /\ ClickModel.hour_id row = h
             /\ forall x, In x (ClickModel.clicksByHour r) ->
                  (ClickModel.hour_count x <= ClickModel.hour_count row)%N
                  /\ (ClickModel.hour_count x = ClickModel.hour_count row ->
                      (h <= ClickModel.hour_id x)%Z)).
Proof.
  rewrite QueryFacts.getUrlAnalytics_run.
  destruct (click_aggregate f); [discriminate|]. intros [= <- _].
  cbv zeta.
  assert (Hn : ClickModel.totalClicks
                 (ClickModel.overview
                    (Pipeline.reportOn now options
                       (Pipeline.selected now u options (clicks w))))
               = N.of_nat (length (Pipeline.selected now u options
                                     (clicks w)))).
  { rewrite ReportFacts.overview_run.
    destruct (Pipeline.selected now u options (clicks w)); reflexivity. }
  rewrite Hn. clear Hn.
  unfold Pipeline.reportOn. cbn [ClickModel.clicksByHour].
  set (docs := Pipeline.selected now u options (clicks w)).
  destruct (BucketFacts.hour_rows docs) as (Hasc & _ & Hrows).
  cbv zeta in Hasc, Hrows.
  assert (Htot : Reports.total ClickModel.hour_count
                   (ClickModel.clicksByHourFacet docs)
                 = N.of_nat (length docs))
    by (apply ReportFacts.rows_total; reflexivity).
  pose proof (PeakFacts.findPeakHour_cases
                (ClickModel.clicksByHourFacet docs)) as Hpeak.
  set (rows := ClickModel.clicksByHourFacet docs) in *.
  destruct (ServiceQueries._findPeakHour (Some rows)) as [h|].
  - destruct Hpeak as (before & row & after & Er & -> & Hpos & Hb & Ha).
    assert (Hrow : In row rows)
      by (rewrite Er; apply in_or_app; right; now left).
    split.
    + split; [discriminate|]. intros Hz. exfalso.
      rewrite Hz in Htot. rewrite Er, AggregateFacts.total_app in Htot.
      unfold Reports.total in Htot at 2.
      cbn [List.map fold_right] in Htot. lia.
    + intros h' [= <-]. split.
      * rewrite List.Forall_forall in Hrows. now apply Hrows.
      * exists row. split; [exact Hrow|]. split; [reflexivity|].
        intros x Hx. rewrite Er in Hx, Hasc.
        apply in_app_or in Hx as [Hx|[<-|Hx]].
        -- rewrite List.Forall_forall in Hb. specialize (Hb x Hx).
           split; lia.
        -- split; [lia|]. intros _. lia.
        -- rewrite List.Forall_forall in Ha. split; [now apply Ha|].
           intros _.
           assert (Ho : Reports.ordered
                          (fun x y => (ClickModel.hour_id x
                                       < ClickModel.hour_id y)%Z)
                          (row :: after)).
           { clear -Hasc. induction before as [|b before IH];
               [exact Hasc|]. apply IH. apply Hasc. }
           destruct Ho as [Ho _]. rewrite List.Forall_forall in Ho.
           specialize (Ho x Hx). lia.
  - split; [|discriminate]. split; [|reflexivity]. intros _.
    destruct rows as [|x rows'] eqn:Er.
    + cbn in Htot. lia.
    + exfalso. apply List.Forall_cons_iff in Hpeak as [Hx0 _].
      apply List.Forall_cons_iff in Hrows as [(_ & _ & Hip & _) _]. lia.
Qed.

(** After the four visits the peak hour of the report on URL 1 is hour 0. *)
Lemma peak_hour_of_a_report_witness :
  exists r w',
    ClickModel.getUrlAnalytics 5000 noFaults 1 ClickModel.defaultOptions
      ReportExamples.busyWorld = (Ok r, w')
    /\ ServiceQueries._findPeakHour (Some (ClickModel.clicksByHour r))
       = Some 0%Z
    /\ ClickModel.totalClicks (ClickModel.overview r) <> 0%N.
Proof.
  eexists. eexists.
  assert (E : ClickModel.getUrlAnalytics 5000 noFaults 1
                ClickModel.defaultOptions ReportExamples.busyWorld
              = (Ok _, _)) by (vm_compute; reflexivity).
  split; [exact E|]. split; [reflexivity|].
  destruct (peak_hour_of_a_report 5000 noFaults 1
              ClickModel.defaultOptions ReportExamples.busyWorld _ _ E)
    as [Hnone _].
  intros Hz. apply Hnone in Hz. discriminate Hz.
Defined.

Module ReferrerFacts.
Import Mongo Reports StringFacts ServiceQueries.

Lemma prefix_iff (p s : string) :
  String.prefix p s = true <-> exists r : string, s = (p ++ r)%string.
Proof.
  split; [apply BotFacts.prefix_app|].
  intros [r ->]. apply NormalizerMore.startsWith_app.
Qed.

(** [includes] finds [p] exactly when [p] occurs. *)
Lemma includes_spec (s p : string) :
  includes s p = true <-> occursIn p s.
Proof.
  unfold occursIn. induction s as [|c s IH]; cbn [includes].
  - rewrite orb_false_r, prefix_iff. split.
    + intros [r E]. exists "", r. exact E.
    + intros (before & after & E). symmetry in E.
      apply BotFacts.append_eq_empty in E as [-> E]. eauto.
  - rewrite orb_true_iff, prefix_iff, IH. split.
    + intros [[r E]|(before & after & E)].
      * exists "", r. exact E.
      * exists (String c before), after. now rewrite append_cons, E.
    + intros (before & after & E). destruct before as [|x before].
      * left. exists after. exact E.
      * right. rewrite append_cons in E. injection E as -> ->. eauto.
Qed.

Lemma includes_any (domain : string) (names : list string) :
  existsb (fun name => includes domain name) names = true
  <-> exists name, In name names /\ occursIn name domain.
Proof.
  rewrite existsb_exists. split; intros (name & Hin & H); exists name;
    (split; [exact Hin|]); now apply includes_spec.
Qed.



End ReferrerFacts.

(** X27.  [_classifyReferrer] goes by occurrence anywhere in the domain,
    search engines first: the answer is ["search"] exactly when the domain
    contains one of the four search engine names, ["social"] exactly when
    it contains none of those but one of the four social network names,
    and ["referral"] exactly when it contains none of the eight. *)
Theorem referrer_class_is_by_occurrence (domain : string) :
  let search := exists name, In name ServiceQueries.searchEngines
                             /\ Reports.occursIn name domain in
  let social := exists name, In name ServiceQueries.socialMedia
                             /\ Reports.occursIn name domain in
  (ServiceQueries._classifyReferrer domain = "search" <-> search)
  /\ (ServiceQueries._classifyReferrer domain = "social"
      <-> ~ search /\ social)
  /\ (ServiceQueries._classifyReferrer domain = "referral"
      <-> ~ search /\ ~ social).
Proof.
  cbv zeta. unfold ServiceQueries._classifyReferrer.
  rewrite <- !ReferrerFacts.includes_any.
  destruct (existsb _ ServiceQueries.searchEngines);
    destruct (existsb _ ServiceQueries.socialMedia);
    repeat split; try discriminate; try congruence;
    try (intros [? ?]; congruence); try (intros [? ?]; discriminate).
Qed.



(** * The export of the clicks of a URL *)

Module ExportFacts.
Import Mongo Reports AggregateFacts ClickExport.

Lemma newestFirst_ordered (l : list Click.Doc) :
  ordered (fun x y => (Click.clickedAt y <= Click.clickedAt x)%Z)
          (sortBy newestFirst l).
Proof.
  apply (ordered_impl (fun a b => newestFirst a b = true));
    [|apply sortBy_ordered].
  - intros x y _ _ Hxy. now apply Z.leb_le.
  - intros x y Hxy. unfold newestFirst in *.
    apply Z.leb_le. apply Z.leb_gt in Hxy. lia.
  - intros x y z Hxy Hyz. unfold newestFirst in *.
    apply Z.leb_le. apply Z.leb_le in Hxy, Hyz. lia.
Qed.

End ExportFacts.

(** X29.  [exportClickData], given a well-formed URL id, changes nothing
    and fails only when the store rejects the query, with the message of
    the store behind ["Click data export failed: "].  Otherwise it returns
    one row for each click of the URL, bots left out unless [excludeBots]
    is [false], the newest click first, each row being the click cut down
    to the chosen fields, which are the six default ones when none are
    given. *)
Theorem export_lists_the_clicks_newest_first
    {Row : Type} (select : string -> Click.Doc -> Row)
    (fault : option string) (u : ObjectId)
    (options : ClickExport.ExportOptions) (w : World) :
  snd (ClickExport.exportClickData select fault u options w) = w
  /\ match fst (ClickExport.exportClickData select fault u options w) with
     | Throw message =>
         exists e, fault = Some e
                   /\ message = ("Click data export failed: " ++ e)%string
     | Ok rows =>
         fault = None
         /\ exists docs,
              Permutation docs
                (List.filter
                   (fun d => (Click.urlId d =? u)%N
                             && (if default true
                                      (ClickExport.excludeBots options)
                                 then negb (Click.isBot d) else true))
                   (clicks w))
              /\ Reports.ordered
                   (fun x y => (Click.clickedAt y <= Click.clickedAt x)%Z)
                   docs
              /\ rows
                 = List.map
                     (select
                        (String.concat " "
                           (default ClickExport.defaultFields
                                    (ClickExport.fields options))))
                     docs
     end.
Proof.
  unfold ClickExport.exportClickData, ClickExport.Click_find, tryCatch,
    bind, call, throw, ret.
  destruct fault as [e|]; cbn [fst snd].
  - split; [reflexivity|]. eauto.
  - split; [reflexivity|]. split; [reflexivity|].
    eexists. split; [apply AggregateFacts.sortBy_perm|].
    split; [apply ExportFacts.newestFirst_ordered | reflexivity].
Qed.

(** * The user agent parser of the redirect controller *)

Module UserAgentFacts.
Import Spec StringFacts ServiceQueries UserAgent.

Lemma allChars_app (p : ascii -> bool) (a b : string) :
  allChars p (a ++ b) = allChars p a && allChars p b.
Proof.
  induction a as [|c a IH]; [reflexivity|].
  rewrite append_cons. cbn [allChars]. now rewrite IH, andb_assoc.
Qed.

Lemma allChars_impl (p q : ascii -> bool) (s : string) :
  (forall c, p c = true -> q c = true) ->
  allChars p s = true -> allChars q s = true.
Proof.
  intros Hpq. induction s as [|c s IH]; [reflexivity|]. cbn [allChars].
  intros [Hc Hs]%andb_true_iff. now rewrite (Hpq c Hc), IH.
Qed.

Lemma span_all (cls : ascii -> bool) (v : string) :
  allChars cls v = true -> span cls v = (v, "").
Proof.
  induction v as [|c v IH]; [reflexivity|]. cbn [allChars span].
  intros [Hc Hv]%andb_true_iff. now rewrite Hc, (IH Hv).
Qed.

Lemma backtrack_anything (run rest : string) :
  run <> "" -> backtrack run rest anything = Some run.
Proof.
  induction run as [|c run IH]; [congruence|]. intros _.
  cbn [backtrack]. destruct run as [|c' run'].
  - reflexivity.
  - now rewrite IH.
Qed.

(** A text without the first character of a literal has no match of
    it. *)
Lemma prefix_no_head (a : ascii) (p s : string) :
  allChars (fun c => negb (Ascii.eqb c a)) s = true ->
  String.prefix (String a p) s = false.
Proof.
  destruct s as [|c s]; [reflexivity|]. cbn [allChars].
  intros [Hc _]%andb_true_iff. rewrite BotFacts.prefix_cons.
  destruct (ascii_dec a c) as [->|]; [|reflexivity].
  now rewrite Ascii.eqb_refl in Hc.
Qed.

Lemma search_no_head (a : ascii) (p : string) cls tail (s : string) :
  allChars (fun c => negb (Ascii.eqb c a)) s = true ->
  search (matchAt [String a p] cls tail) s = None.
Proof.
  induction s as [|c s IH]; intros Hs.
  - reflexivity.
  - cbn [search matchAt]. rewrite (prefix_no_head a p _ Hs).
    cbn [allChars] in Hs. apply andb_true_iff in Hs as [_ Hs]. auto.
Qed.

Lemma includes_no_head (a : ascii) (p s : string) :
  allChars (fun c => negb (Ascii.eqb c a)) s = true ->
  includes s (String a p) = false.
Proof.
  induction s as [|c s IH]; intros Hs.
  - reflexivity.
  - cbn [includes]. rewrite (prefix_no_head a p _ Hs).
    cbn [allChars] in Hs. apply andb_true_iff in Hs as [_ Hs]. auto.
Qed.

Lemma versionChar_not_E (c : ascii) :
  versionChar c = true -> negb (Ascii.eqb c "E") = true.
Proof.
  destruct c as [[] [] [] [] [] [] [] []]; vm_compute; congruence.
Qed.

(** The browser of a user agent that is ["Chrome/"] and a version. *)
Lemma chrome_browser (v : string) :
  allChars versionChar v = true -> v <> "" ->
  detectBrowser browserPatterns ("Chrome/" ++ v) = ("Chrome", v).
Proof.
  intros Hv Hne.
  assert (HE : allChars (fun c => negb (Ascii.eqb c "E")) ("Chrome/" ++ v)
               = true).
  { rewrite allChars_app. apply andb_true_iff. split; [reflexivity|].
    eapply allChars_impl; [apply versionChar_not_E | exact Hv]. }
  unfold browserPatterns. cbn [detectBrowser name pattern exclude].
  rewrite (search_no_head "E" "dg/" _ _ _ HE).
  rewrite bool_decide_eq_false_2 by (intros [? ?]; discriminate).
  cbn [andb]. rewrite (includes_no_head "E" "dg" _ HE). cbn [negb andb].
  assert (Hm : search (matchAt ["Chrome/"] versionChar anything)
                 ("Chrome/" ++ v) = Some v).
  { change ("Chrome/" ++ v)%string
      with (String "C" (String "h" (String "r" (String "o" (String "m"
              (String "e" (String "/" v))))))).
    cbn [search matchAt].
    assert (Hp : String.prefix "Chrome/"
                   (String "C" (String "h" (String "r" (String "o"
                      (String "m" (String "e" (String "/" v)))))))
                 = true)
      by exact (NormalizerMore.startsWith_app "Chrome/" v).
    rewrite Hp. cbn [String.length substring_from].
    rewrite (span_all _ _ Hv), backtrack_anything by exact Hne.
    reflexivity. }
  rewrite Hm. rewrite bool_decide_eq_true_2 by eauto. reflexivity.
Qed.

Lemma length_app (a b : string) :
  String.length (a ++ b) = (String.length a + String.length b)%nat.
Proof.
  induction a as [|c a IH]; [reflexivity|].
  rewrite append_cons. cbn [String.length]. now rewrite IH.
Qed.

(** A browser label of more than 50 characters does not pass the
    schema. *)
Lemma validate_long_browser (c : Click.Doc) (label : string) :
  Click.browser (Click.device c) = Some label ->
  (50 < String.length label)%nat ->
  Click.validate c <> None.
Proof.
  intros Hb Hl. unfold Click.validate.
  destruct (String.eqb _ _); [discriminate|].
  destruct (negb (Click.ipAddressValidator _)); [discriminate|].
  destruct (negb (Click.maxLength 1000 _)); [discriminate|].
  destruct (negb (Click.maxLength 500 _)); [discriminate|].
  rewrite Hb. cbn [Click.maxLength].
  assert (Hf : (String.length label <=? 50)%nat = false)
    by (apply Nat.leb_gt; lia).
  rewrite Hf. cbn [andb negb]. discriminate.
Qed.

End UserAgentFacts.

(** X30.  [parseUserAgent] labels the user agent ["Chrome/"] followed by a
    version of digits and dots as ["Chrome "] and that version, whatever
    its length.  A click submitted with the device parsed from such a user
    agent is never recorded once the version has 44 characters or more:
    the label then exceeds the 50 characters the schema allows for
    [device.browser], [recordClick] throws and the world is as before. *)
Theorem long_browser_version_is_rejected
    (env : Click.Env) (searchParams : string -> option (list (string * string)))
    (now : Instant) (f : Faults) (d : ClickData) (w : World)
    (navigatorUserAgent : option string) (v : string) :
  allChars UserAgent.versionChar v = true ->
  (44 <= String.length v)%nat ->
  exists p,
    UserAgent.parseUserAgent navigatorUserAgent (Some ("Chrome/" ++ v)%string)
    = Ok p
    /\ UserAgent.ua_browser p = ("Chrome " ++ v)%string
    /\ (device d = Some (UserAgent.toDevice p) ->
        exists message,
          recordClick env searchParams now f d w = (Throw message, w)).
Proof.
  intros Hv Hl.
  assert (Hne : v <> "") by (intros ->; cbn in Hl; lia).
  unfold UserAgent.parseUserAgent.
  change (truthy (Some ("Chrome/" ++ v)%string)) with true. cbv iota.
  rewrite (UserAgentFacts.chrome_browser v Hv Hne).
  destruct (UserAgent.detectOs ("Chrome/" ++ v)) as [os osVersion].
  eexists. split; [reflexivity|].
  cbn [UserAgent.ua_browser].
  assert (Hlabel : UserAgent.withVersion "Chrome" v = ("Chrome " ++ v)%string).
  { destruct v; [congruence | reflexivity]. }
  split; [exact Hlabel|].
  intros Hd. rewrite RecordFacts.recordClick_run.
  unfold Pipeline.recordClick_cases.
  destruct (url_findById f); [eauto|].
  destruct (urls w !! urlId d) as [url|]; [|eauto].
  destruct (negb (isActive url)); [eauto|].
  destruct (isExpired url); [eauto|].
  set (ip := _normalizeIpAddress _ _).
  set (unique := Pipeline.uniqueFlag _ _ _ _).
  destruct (Click.validate _) eqn:Hval; [eauto|].
  exfalso. revert Hval.
  apply (UserAgentFacts.validate_long_browser _ ("Chrome " ++ v)).
  - rewrite NormalizerMore.prepared_device, Hd.
    cbn [default from_option id UserAgent.toDevice Click.browser
         UserAgent.ua_browser].
    now rewrite Hlabel.
  - rewrite UserAgentFacts.length_app. cbn [String.length]. lia.
Qed.

(** Chrome with a version of 44 ones, sent to the active URL 1 with the
    device parsed from it. *)
Lemma long_browser_version_is_rejected_witness :
  exists message,
    recordClick Examples.geoOn Examples.noParams 1000 noFaults
      {| urlId := 1; ipAddress := Some "203.0.113.5"; headers := None;
         userAgent :=
           Some "Chrome/11111111111111111111111111111111111111111111";
         referrer := None; userId := None; sessionId := None;
         device :=
           Some (UserAgent.toDevice
                   {| UserAgent.ua_type := Click.desktop;
                      UserAgent.ua_browser :=
                        "Chrome 11111111111111111111111111111111111111111111";
                      UserAgent.ua_os := "Unknown" |}) |}
      Examples.world
    = (Throw message, Examples.world).
Proof.
  destruct (long_browser_version_is_rejected
              Examples.geoOn Examples.noParams 1000 noFaults
              {| urlId := 1; ipAddress := Some "203.0.113.5";
                 headers := None;
                 userAgent :=
                   Some "Chrome/11111111111111111111111111111111111111111111";
                 referrer := None; userId := None; sessionId := None;
                 device :=
                   Some (UserAgent.toDevice
                           {| UserAgent.ua_type := Click.desktop;
                              UserAgent.ua_browser :=
                                "Chrome 11111111111111111111111111111111111111111111";
                              UserAgent.ua_os := "Unknown" |}) |}
              Examples.world None
              "11111111111111111111111111111111111111111111"
              eq_refl)
    as (p & Hp & _ & Hrej).
  - vm_compute. lia.
  - apply Hrej. vm_compute in Hp. injection Hp as <-. reflexivity.
Defined.
